(** * Schedule RC asset panel: field resolution, aggregation, reconciliation

    A shallow embedding of the two panel-building scripts of the repository,
    [code/call_reports_downloading/build_full_panel.py] (module [FullPanel])
    and [code/call_reports_downloading/build_rc_assets_panel.py] (module
    [RcAssets]), followed by the properties of the specification that concern
    them.

    Modelling conventions.
    - A numeric cell is an [option Q]: [None] is pandas' NaN ("no value") and
      [Some q] a number.  Sums and differences are taken in Q, which is what
      float64 computes on the amounts of a filing (whole thousands of
      dollars): [exact_amount] below names the amounts on which the two
      agree, and a property that turns on the value of a sum or a difference
      is stated for rows of such amounts.  Infinities and signed zeros are
      outside the model.
    - A raw cell of a filing table is represented by the number
      [pd.to_numeric(..., errors="coerce")] gives it, a blank or unparseable
      cell by [None].
    - A DataFrame is a list of column labels and a list of rows, each row a
      list of cells in the order of the labels.  A label is looked up at its
      first position; [RcAssets.compute_items_for_quarter] raises, as the
      code does, when a label it reads occurs twice.
    - The vectorised Series operations of pandas act element by element; they
      are written here for one row.
    - Exceptions are values of [result]; the file system and the csv reader
      are inputs of the run (record [FileSystem] of each module). *)

From Stdlib Require Import List String Ascii Bool ZArith QArith Qabs Lqa Lia.
From Stdlib Require Import Orders Mergesort Permutation Sorted.
Import ListNotations.
Local Open Scope string_scope.
Local Open Scope Z_scope.

(** ** Cells and the pandas operations the scripts use *)

Definition cell := option Q.

Definition isna (c : cell) : bool :=
  match c with None => true | Some _ => false end.

Definition notna (c : cell) : bool := negb (isna c).

(** [s == k] on a float Series: a comparison with NaN is False. *)
Definition cell_eqb (a b : cell) : bool :=
  match a, b with
  | Some x, Some y => Qeq_bool x y
  | _, _ => false
  end.

(** [s != k]: the negation, so NaN != k is True. *)
Definition cell_neb (a b : cell) : bool := negb (cell_eqb a b).

(** [s <= k]: False on NaN. *)
Definition cell_leb (a b : cell) : bool :=
  match a, b with
  | Some x, Some y => Qle_bool x y
  | _, _ => false
  end.

(** [s + t], [s - t], [s.abs()]: NaN propagates. *)
Definition cell_add (a b : cell) : cell :=
  match a, b with
  | Some x, Some y => Some (x + y)%Q
  | _, _ => None
  end.

Definition cell_sub (a b : cell) : cell :=
  match a, b with
  | Some x, Some y => Some (x - y)%Q
  | _, _ => None
  end.

Definition cell_abs (a : cell) : cell :=
  match a with Some x => Some (Qabs x) | None => None end.

(** [s.fillna(0)]. *)
Definition fillna0 (c : cell) : cell :=
  match c with Some x => Some x | None => Some 0%Q end.

(** [frame.sum(axis=1, skipna=True)] on one row: NaN entries are skipped, and
    the sum of no entry at all is 0 ([min_count] is left at its default 0). *)
Definition sum_skipna (l : list cell) : cell :=
  Some (fold_left (fun acc c => match c with Some x => (acc + x)%Q | None => acc end)
                  l 0%Q).

(** [frame.max(axis=1, skipna=True)] on one row of a two-column frame. *)
Definition max_skipna (a b : cell) : cell :=
  match a, b with
  | Some x, Some y => Some (if Qle_bool x y then y else x)
  | Some x, None => Some x
  | None, Some y => Some y
  | None, None => None
  end.

(** Equality of cells up to the value of the rational. *)
Definition cell_equiv (a b : cell) : Prop :=
  match a, b with
  | Some x, Some y => (x == y)%Q
  | None, None => True
  | _, _ => False
  end.

(** ** Timestamps (calendar dates at midnight) *)

Record Timestamp := mkTimestamp { year : Z; month : Z; day : Z }.

Definition ts_compare (a b : Timestamp) : comparison :=
  match year a ?= year b with
  | Eq => match month a ?= month b with
          | Eq => day a ?= day b
          | c => c
          end
  | c => c
  end.

Definition ts_leb (a b : Timestamp) : bool :=
  match ts_compare a b with Gt => false | _ => true end.
Definition ts_ltb (a b : Timestamp) : bool :=
  match ts_compare a b with Lt => true | _ => false end.
Definition ts_eqb (a b : Timestamp) : bool :=
  match ts_compare a b with Eq => true | _ => false end.
Definition ts_geb (a b : Timestamp) : bool := ts_leb b a.

(** ** Data frames *)

Record DataFrame := mkDataFrame {
  columns : list string;
  rows : list (list cell)
}.

Definition in_columns (c : string) (cols : list string) : bool :=
  existsb (String.eqb c) cols.

Fixpoint index_of (c : string) (cols : list string) : option nat :=
  match cols with
  | [] => None
  | c' :: rest =>
      if String.eqb c c' then Some O
      else option_map S (index_of c rest)
  end.

(** [df[c]] at one row [r] of [df]. *)
Definition get_cell (cols : list string) (r : list cell) (c : string) : cell :=
  match index_of c cols with
  | Some i => nth i r None
  | None => None
  end.

(** ** Exceptions *)

(** The exceptions of the model are subclasses of Python's [Exception]. *)
Inductive exn :=
| ParserError
| RuntimeError (msg : string)
| TypeError (msg : string).

Inductive result (A : Type) :=
| Ok (a : A)
| Raise (e : exn).
Arguments Ok {A} a.
Arguments Raise {A} e.

(** ** Sorting and de-duplicating strings: [sorted(...)], [set(...)] *)

Module StringOrder <: TotalLeBool.
Definition t := string.
Definition leb := String.leb.
Lemma leb_total : forall a1 a2, leb a1 a2 = true \/ leb a2 a1 = true.
Proof. exact String.leb_total. Qed.
End StringOrder.

Module StringSort := Sort StringOrder.

(** [sorted(l)] on a list of strings. *)
Definition sorted (l : list string) : list string := StringSort.sort l.

(** [sorted(set(l))]: the distinct elements of [l], ascending. *)
Definition sorted_set (l : list string) : list string :=
  sorted (nodup string_dec l).

(** ** Digits of file and directory names *)

Definition is_digit (a : ascii) : bool :=
  let n := Z.of_nat (nat_of_ascii a) in (48 <=? n) && (n <=? 57).

Definition digit_val (a : ascii) : Z := Z.of_nat (nat_of_ascii a) - 48.

Definition digit_char (n : Z) : ascii := ascii_of_nat (Z.to_nat (48 + n mod 10)).

(** A zero-padded two-digit field of [strftime]: the last two digits. *)
Definition two_digits (n : Z) : string :=
  String (digit_char (n / 10)) (String (digit_char n) EmptyString).

(** Calendar validity of a date, as [strptime] checks it. *)
Definition is_leap (y : Z) : bool :=
  (y mod 4 =? 0) && (negb (y mod 100 =? 0) || (y mod 400 =? 0)).

Definition days_in_month (y m : Z) : Z :=
  if m =? 2 then (if is_leap y then 29 else 28)
  else if (m =? 4) || (m =? 6) || (m =? 9) || (m =? 11) then 30
  else 31.

Definition valid_date (y m d : Z) : bool :=
  (1 <=? y) && (1 <=? m) && (m <=? 12) && (1 <=? d) && (d <=? days_in_month y m).

(** * build_full_panel.py *)

Module FullPanel.

(** The directory [BASE] as the script sees it: the names of its
    sub-directories, the file names the glob of [find_rc_file] matches in
    each, and what [pd.read_csv] does on a file of a directory. *)
Record FileSystem := mkFileSystem {
  subdirs : list string;
  glob_rc : string -> list string;
  read_csv : string -> string -> result DataFrame
}.

Definition to_num_series (df : DataFrame) (col : string) (r : list cell) : cell :=
  if in_columns col (columns df) then get_cell (columns df) r col else None.

Definition prefer_rcfd (df : DataFrame) (rcfd_col rcon_col : string)
    (r : list cell) : cell :=
  let a := to_num_series df rcfd_col r in
  let b := to_num_series df rcon_col r in
  let use_b :=
    (isna a || cell_eqb a (Some 0%Q)) && notna b && cell_neb b (Some 0%Q) in
  if use_b then b else a.

Definition find_rc_file (fs : FileSystem) (qdir : string) : option string :=
  match sorted (glob_rc fs qdir) with
  | [] => None
  | f :: _ => Some f
  end.

Fixpoint take_digits (n : nat) (s : string) : option (list Z) :=
  match n with
  | O => Some []
  | S n' =>
      match s with
      | EmptyString => None
      | String a s' =>
          if is_digit a
          then option_map (cons (digit_val a)) (take_digits n' s')
          else None
      end
  end.

(** [re.search(r"(\d{8})", fname)]: the leftmost run of eight digits. *)
Fixpoint search_8_digits (s : string) : option (list Z) :=
  match take_digits 8 s with
  | Some ds => Some ds
  | None =>
      match s with
      | EmptyString => None
      | String _ s' => search_8_digits s'
      end
  end.

(** A [pd.Timestamp] counts nanoseconds from 1970 in 64 bits: it spans
    1677-09-21 00:12:43.145224193 to 2262-04-11 23:47:16.854775807, so the
    first midnight it holds is 1677-09-22 and the last is 2262-04-11. *)
Definition Timestamp_min_day : Timestamp := mkTimestamp 1677 9 22.
Definition Timestamp_max_day : Timestamp := mkTimestamp 2262 4 11.

Definition in_Timestamp_range (t : Timestamp) : bool :=
  ts_leb Timestamp_min_day t && ts_leb t Timestamp_max_day.

(** [pd.to_datetime(m.group(1), format="%m%d%Y", errors="coerce")]: NaT, and
    so [None], for digits that are no calendar date and for a date outside
    the range of a Timestamp. *)
Definition parse_date_from_filename (fname : string) : option Timestamp :=
  match search_8_digits fname with
  | Some [m1; m2; d1; d2; y1; y2; y3; y4] =>
      let m := 10 * m1 + m2 in
      let d := 10 * d1 + d2 in
      let y := 1000 * y1 + 100 * y2 + 10 * y3 + y4 in
      if valid_date y m d && in_Timestamp_range (mkTimestamp y m d)
      then Some (mkTimestamp y m d) else None
  | _ => None
  end.

Definition compute_cash (df : DataFrame) (r : list cell) : cell :=
  let cash_nonint := fillna0 (prefer_rcfd df "RCFD0081" "RCON0081" r) in
  let cash_int := fillna0 (prefer_rcfd df "RCFD0071" "RCON0071" r) in
  cell_add cash_nonint cash_int.

Definition compute_securities (df : DataFrame) (report_date : Timestamp)
    (r : list cell) : cell :=
  let htm :=
    if ts_geb report_date (mkTimestamp 2019 3 31)
    then fillna0 (prefer_rcfd df "RCFDJJ34" "RCONJJ34" r)
    else fillna0 (prefer_rcfd df "RCFD1754" "RCON1754" r) in
  let afs := fillna0 (prefer_rcfd df "RCFD1773" "RCON1773" r) in
  if ts_geb report_date (mkTimestamp 2018 3 31)
  then
    let equity := fillna0 (prefer_rcfd df "RCFDJA22" "RCONJA22" r) in
    cell_add (cell_add htm afs) equity
  else cell_add htm afs.

Definition compute_ffsrepo (df : DataFrame) (report_date : Timestamp)
    (r : list cell) : cell :=
  if ts_eqb report_date (mkTimestamp 1996 12 31) then
    let ffs := fillna0 (prefer_rcfd df "RCFD0276" "RCON0276" r) in
    let repo := fillna0 (prefer_rcfd df "RCFD0277" "RCON0277" r) in
    cell_add ffs repo
  else if ts_leb (mkTimestamp 1997 3 31) report_date
          && ts_leb report_date (mkTimestamp 2001 12 31) then
    fillna0 (prefer_rcfd df "RCFD1350" "RCON1350" r)
  else if ts_geb report_date (mkTimestamp 2002 3 31) then
    let ffs := fillna0 (prefer_rcfd df "RCFDB987" "RCONB987" r) in
    let repo := fillna0 (prefer_rcfd df "RCFDB989" "RCONB989" r) in
    cell_add ffs repo
  else fillna0 (prefer_rcfd df "RCFD1350" "RCON1350" r).

Definition compute_loans (df : DataFrame) (report_date : Timestamp)
    (r : list cell) : cell :=
  if ts_leb report_date (mkTimestamp 2000 12 31) then
    fillna0 (prefer_rcfd df "RCFD2125" "RCON2125" r)
  else
    let loan_net := fillna0 (prefer_rcfd df "RCFDB529" "RCONB529" r) in
    let loan_afs := fillna0 (prefer_rcfd df "RCFD5369" "RCON5369" r) in
    cell_add loan_net loan_afs.

Definition compute_item9 (df : DataFrame) (report_date : Timestamp)
    (r : list cell) : cell :=
  if ts_leb report_date (mkTimestamp 2005 12 31) then
    fillna0 (prefer_rcfd df "RCFD2155" "RCON2155" r)
  else if ts_leb (mkTimestamp 2006 3 31) report_date
          && ts_leb report_date (mkTimestamp 2009 3 31) then
    Some 0%Q
  else if ts_geb report_date (mkTimestamp 2009 6 30) then
    fillna0 (prefer_rcfd df "RCFD3656" "RCON3656" r)
  else Some 0%Q.

Definition compute_intangibles (df : DataFrame) (report_date : Timestamp)
    (r : list cell) : cell :=
  if ts_leb report_date (mkTimestamp 2000 12 31) then
    fillna0 (prefer_rcfd df "RCFD2143" "RCON2143" r)
  else if ts_leb (mkTimestamp 2001 3 31) report_date
          && ts_leb report_date (mkTimestamp 2018 3 31) then
    let goodwill := fillna0 (prefer_rcfd df "RCFD3163" "RCON3163" r) in
    let other_intang := fillna0 (prefer_rcfd df "RCFD0426" "RCON0426" r) in
    cell_add goodwill other_intang
  else if ts_geb report_date (mkTimestamp 2018 6 30) then
    fillna0 (prefer_rcfd df "RCFD2143" "RCON2143" r)
  else
    let goodwill := fillna0 (prefer_rcfd df "RCFD3163" "RCON3163" r) in
    let other_intang := fillna0 (prefer_rcfd df "RCFD0426" "RCON0426" r) in
    cell_add goodwill other_intang.

(** The columns [process_quarter] adds to [df], for one row. *)
Record Row := mkRow {
  bankid : cell;
  date : Timestamp;
  assets : cell;
  cash_tot : cell;
  sec_tot : cell;
  ffsrepo_tot : cell;
  loan_tot : cell;
  tradingassets : cell;
  fixedassets : cell;
  otherrealestate : cell;
  equitystakes : cell;
  item9 : cell;
  intangibles : cell;
  otherassets : cell;
  assetcheck : cell;
  asset_diff : cell;
  pass_flag : bool
}.

(** The columns kept in [out], with the quarter directory name. *)
Record PanelRow := mkPanelRow {
  p_bankid : cell;
  p_date : Timestamp;
  p_assets : cell;
  p_assetcheck : cell;
  p_asset_diff : cell;
  p_pass_flag : bool;
  p_quarter : string
}.

Fixpoint select_mask (mask : list bool) (r : list cell) : list cell :=
  match mask, r with
  | m :: ms, x :: xs => if m then x :: select_mask ms xs else select_mask ms xs
  | _, _ => []
  end.

(** Drop the columns whose label starts with "Unnamed:", when there are any. *)
Definition drop_unnamed (df : DataFrame) : DataFrame :=
  let extra_cols := filter (String.prefix "Unnamed:") (columns df) in
  match extra_cols with
  | [] => df
  | _ =>
      let keep := map (fun c => negb (String.prefix "Unnamed:" c)) (columns df) in
      mkDataFrame
        (filter (fun c => negb (String.prefix "Unnamed:" c)) (columns df))
        (map (select_mask keep) (rows df))
  end.

(** The body of [process_quarter] from the assignment of [bankid] to that of
    [pass_flag], for a row [r] that survived [dropna(subset=["assets"])]. *)
Definition compute_row (df : DataFrame) (report_date : Timestamp)
    (r : list cell) : Row :=
  let bankid := get_cell (columns df) r "IDRSSD" in
  let assets := prefer_rcfd df "RCFD2170" "RCON2170" r in
  let cash_tot := compute_cash df r in
  let sec_tot := compute_securities df report_date r in
  let ffsrepo_tot := compute_ffsrepo df report_date r in
  let loan_tot := compute_loans df report_date r in
  let tradingassets := fillna0 (prefer_rcfd df "RCFD3545" "RCON3545" r) in
  let fixedassets := fillna0 (prefer_rcfd df "RCFD2145" "RCON2145" r) in
  let otherrealestate := fillna0 (prefer_rcfd df "RCFD2150" "RCON2150" r) in
  let equitystakes := fillna0 (prefer_rcfd df "RCFD2130" "RCON2130" r) in
  let item9 := compute_item9 df report_date r in
  let intangibles := compute_intangibles df report_date r in
  let otherassets := fillna0 (prefer_rcfd df "RCFD2160" "RCON2160" r) in
  let assetcheck :=
    cell_add (cell_add (cell_add (cell_add (cell_add (cell_add (cell_add
      (cell_add (cell_add (cell_add
        cash_tot sec_tot) ffsrepo_tot) loan_tot) tradingassets) fixedassets)
        otherrealestate) equitystakes) item9) intangibles) otherassets in
  let asset_diff := cell_sub assetcheck assets in
  let pass_flag := cell_leb (cell_abs asset_diff) (Some 1%Q) in
  mkRow bankid report_date assets cash_tot sec_tot ffsrepo_tot loan_tot
        tradingassets fixedassets otherrealestate equitystakes item9
        intangibles otherassets assetcheck asset_diff pass_flag.

(** [df] after [dropna(subset=["assets"])] and the assignments. *)
Definition standardized_rows (df : DataFrame) (report_date : Timestamp)
    : list Row :=
  map (compute_row df report_date)
      (filter (fun r => notna (prefer_rcfd df "RCFD2170" "RCON2170" r))
              (rows df)).

Definition out_row (qdir : string) (x : Row) : PanelRow :=
  mkPanelRow (bankid x) (date x) (assets x) (assetcheck x) (asset_diff x)
             (pass_flag x) qdir.

Definition process_quarter (fs : FileSystem) (qdir : string)
    : result (option (list PanelRow)) :=
  match find_rc_file fs qdir with
  | None => Ok None
  | Some rc_path =>
      match parse_date_from_filename rc_path with
      | None => Ok None
      | Some report_date =>
          match read_csv fs qdir rc_path with
          | Raise e => Raise e
          | Ok df0 =>
              let df := drop_unnamed df0 in
              if negb (in_columns "IDRSSD" (columns df)) then Ok None
              else Ok (Some (map (out_row qdir)
                                 (standardized_rows df report_date)))
          end
      end
  end.

(** One row of the per-quarter summary. *)
Record SummaryRow := mkSummaryRow {
  s_quarter : string;
  s_date : option Timestamp;
  s_n_banks : nat;
  s_pass_rate : Q;
  s_mean_abs_diff : cell;
  s_min_diff : cell;
  s_max_diff : cell
}.

(** [Series.mean()], [Series.min()], [Series.max()]: NaN entries are skipped,
    and the result is NaN when nothing is left. *)
Definition present (l : list cell) : list Q :=
  flat_map (fun c => match c with Some x => [x] | None => [] end) l.

Definition series_mean (l : list cell) : cell :=
  match present l with
  | [] => None
  | xs => Some (fold_left Qplus xs 0%Q / inject_Z (Z.of_nat (List.length xs)))%Q
  end.

Definition series_min (l : list cell) : cell :=
  match present l with
  | [] => None
  | x :: xs => Some (fold_left (fun m y => if Qle_bool y m then y else m) xs x)
  end.

Definition series_max (l : list cell) : cell :=
  match present l with
  | [] => None
  | x :: xs => Some (fold_left (fun m y => if Qle_bool m y then y else m) xs x)
  end.

Definition summarise (qdir : string) (dfq : list PanelRow) : SummaryRow :=
  mkSummaryRow qdir
    (option_map p_date (hd_error dfq))
    (List.length dfq)
    (inject_Z (Z.of_nat (List.length (filter p_pass_flag dfq)))
       / inject_Z (Z.of_nat (List.length dfq)))%Q
    (series_mean (map (fun x => cell_abs (p_asset_diff x)) dfq))
    (series_min (map p_asset_diff dfq))
    (series_max (map p_asset_diff dfq)).

Module SummaryOrder <: TotalLeBool.
Definition t := SummaryRow.
Definition leb (a b : SummaryRow) := String.leb (s_quarter a) (s_quarter b).
Lemma leb_total_summary : forall a1 a2, leb a1 a2 = true \/ leb a2 a1 = true.
Proof. intros a1 a2. apply String.leb_total. Qed.
Definition leb_total := leb_total_summary.
End SummaryOrder.

Module SummarySort := Sort SummaryOrder.

(** How a run of the script ends: it writes its outputs, an exception leaves
    [main], or [main] raises [SystemExit]. *)
Inductive run (A : Type) :=
| Finished (a : A)
| Uncaught (e : exn)
| SystemExit (msg : string).
Arguments Finished {A} a.
Arguments Uncaught {A} e.
Arguments SystemExit {A} msg.

(** The loop of [main] over the sorted quarter directories: an exception of
    [process_quarter] leaves the loop. *)
Fixpoint run_quarters (fs : FileSystem) (qdirs : list string)
    (frames : list (list PanelRow)) (summary_rows : list SummaryRow)
    : result (list (list PanelRow) * list SummaryRow) :=
  match qdirs with
  | [] => Ok (frames, summary_rows)
  | qdir :: rest =>
      match process_quarter fs qdir with
      | Raise e => Raise e
      | Ok None => run_quarters fs rest frames summary_rows
      | Ok (Some dfq) =>
          match dfq with
          | [] => run_quarters fs rest frames summary_rows
          | _ =>
              run_quarters fs rest (frames ++ [dfq])
                           (summary_rows ++ [summarise qdir dfq])
          end
      end
  end.

(** [main]: the panel and the summary it writes, or the exception that ends
    the run. *)
Definition main (fs : FileSystem)
    : run (list PanelRow * list SummaryRow) :=
  match run_quarters fs (sorted (subdirs fs)) [] [] with
  | Raise e => Uncaught e
  | Ok (frames, summary_rows) =>
      match frames with
      | [] => SystemExit
                "No quarters processed successfully. Check your data folders."
      | _ => Finished (List.concat frames, SummarySort.sort summary_rows)
      end
  end.

End FullPanel.

(** * build_rc_assets_panel.py *)

Module RcAssets.

(** The raw-data root as the script sees it: whether a quarter directory
    exists, the file names its glob matches there, and the two attempts of
    [read_schedule_rc] at reading a file (strict, then forgiving). *)
Record FileSystem := mkFileSystem {
  isdir : string -> bool;
  glob_schedule_rc : string -> list string;
  read_csv_strict : string -> string -> result DataFrame;
  read_csv_forgiving : string -> string -> result DataFrame
}.

(** [d.strftime("%m%d%y")]. *)
Definition qdir_from_date (d : Timestamp) : string :=
  two_digits (month d) ++ two_digits (day d) ++ two_digits (year d).

(** The end of the [k]-th quarter, counting four quarters a year. *)
Definition quarter_end_of (k : Z) : Timestamp :=
  let q := k mod 4 in
  mkTimestamp (k / 4) (3 * q + 3) (if (q =? 0) || (q =? 3) then 31 else 30).

(** [pd.date_range(start=start, end=end, freq="Q-DEC")]: the quarter ends
    from [start] to [end_] inclusive, in ascending order. *)
Definition quarter_ends (start end_ : Timestamp) : list Timestamp :=
  let k0 := 4 * year start + (month start - 1) / 3 in
  let first := if ts_leb start (quarter_end_of k0) then k0 else k0 + 1 in
  let k1 := 4 * year end_ + (month end_ - 1) / 3 in
  let last := if ts_leb (quarter_end_of k1) end_ then k1 else k1 - 1 in
  map (fun i => quarter_end_of (first + Z.of_nat i))
      (seq 0 (Z.to_nat (last - first + 1))).

Definition find_schedule_rc_file (fs : FileSystem) (qdir : string)
    : option string :=
  match sorted (glob_schedule_rc fs qdir) with
  | [] => None
  | f :: _ => Some f
  end.

(** The strict read, then the forgiving one; when both raise, a
    RuntimeError (its message is abridged here). *)
Definition read_schedule_rc (fs : FileSystem) (qdir file : string)
    : result DataFrame :=
  match read_csv_strict fs qdir file with
  | Ok df => Ok df
  | Raise e1 =>
      match read_csv_forgiving fs qdir file with
      | Ok df => Ok df
      | Raise e2 => Raise (RuntimeError ("Could not parse " ++ file))
      end
  end.

(** [str.strip()], [str.lower()] on ASCII labels. *)
Definition is_space (a : ascii) : bool :=
  let n := nat_of_ascii a in
  ((9 <=? n) && (n <=? 13) || (28 <=? n) && (n <=? 32))%nat.

Fixpoint lstrip (l : list ascii) : list ascii :=
  match l with
  | a :: l' => if is_space a then lstrip l' else l
  | [] => []
  end.

Definition strip (l : list ascii) : list ascii :=
  rev (lstrip (rev (lstrip l))).

Definition lower_ascii (a : ascii) : ascii :=
  let n := nat_of_ascii a in
  if ((65 <=? n) && (n <=? 90))%nat then ascii_of_nat (n + 32) else a.

Definition quote_char : ascii := ascii_of_nat 34.

(** [c2[1:-1]] when [c2] has at least two characters and is wrapped in
    double quotes. *)
Definition unquote (l : list ascii) : list ascii :=
  match l with
  | a :: rest =>
      match rev rest with
      | z :: mid =>
          if Ascii.eqb a quote_char && Ascii.eqb z quote_char
          then rev mid else l
      | [] => l
      end
  | [] => l
  end.

Definition normalize_label (c : string) : string :=
  string_of_list_ascii
    (map lower_ascii (unquote (strip (list_ascii_of_string c)))).

Definition normalize_columns (df : DataFrame) : DataFrame :=
  mkDataFrame (map normalize_label (columns df)) (rows df).

(** A column of [cols] that is missing is added, filled with NaN; one that is
    there is converted to numbers, which the cells of the model already are. *)
Fixpoint ensure_numeric_cols (df : DataFrame) (cols : list string) : DataFrame :=
  match cols with
  | [] => df
  | c :: rest =>
      let out :=
        if negb (in_columns c (columns df))
        then mkDataFrame (columns df ++ [c])%list
               (map (fun r => (r ++ [None])%list) (rows df))
        else df in
      ensure_numeric_cols out rest
  end.

Definition rowwise_max (df : DataFrame) (a b : string) (r : list cell) : cell :=
  max_skipna (get_cell (columns df) r a) (get_cell (columns df) r b).

Definition is_leq (d : Timestamp) (y m day : Z) : bool :=
  ts_leb d (mkTimestamp y m day).

Definition is_geq (d : Timestamp) (y m day : Z) : bool :=
  ts_geb d (mkTimestamp y m day).

Definition between (d : Timestamp) (y1 m1 day1 y2 m2 day2 : Z) : bool :=
  ts_leb (mkTimestamp y1 m1 day1) d && ts_leb d (mkTimestamp y2 m2 day2).

(** Every mnemonic the computation may touch, in the order of the source. *)
Definition needed : list string :=
  [ "rcfd0081"; "rcon0081"; "rcfd0071"; "rcon0071";
    "rcfd1754"; "rcon1754";
    "rcfdjj34"; "rconjj34";
    "rcfd1773"; "rcon1773";
    "rcfdja22"; "rconja22";
    "rcfd0276"; "rcon0276";
    "rconb987";
    "rcfd0277"; "rcon0277";
    "rcfdb989"; "rconb989";
    "rcfd1350"; "rcon1350";
    "rcfd2122"; "rcon2122";
    "rcfdb528"; "rconb528";
    "rcfd3128"; "rcon3128";
    "rcfd3123"; "rcon3123";
    "rcfd2125"; "rcon2125";
    "rcfdb529"; "rconb529";
    "rcfd5369"; "rcon5369";
    "rcfd3545"; "rcon3545";
    "rcfd2145"; "rcon2145";
    "rcfd2150"; "rcon2150";
    "rcfd2130"; "rcon2130";
    "rcfd2155"; "rcon2155";
    "rcfd3656"; "rcon3656";
    "rcfd2143"; "rcon2143";
    "rcfd3163"; "rcon3163";
    "rcfd0426"; "rcon0426";
    "rcfd2160"; "rcon2160";
    "rcfd2170"; "rcon2170" ].

(** One row of [out]. The column [qdate] holds the ISO text of the quarter
    date; the model keeps the date. *)
Record OutRow := mkOutRow {
  idrssd : option Z;
  qdate : Timestamp;
  qdir : string;
  cash_nonint : cell;
  cash_int : cell;
  cash_tot : cell;
  securities_htm_ac : cell;
  securities_afs_fv : cell;
  securities_equity_fv : cell;
  sec_tot : cell;
  ffs : cell;
  repo : cell;
  ffsrepo : cell;
  ffsrepo_tot : cell;
  loan_netunearnedinc : cell;
  loan_transriskreserve : cell;
  loan_alll : cell;
  loan_net : cell;
  loan_afs : cell;
  loan_tot : cell;
  tradingassets : cell;
  fixedassets : cell;
  otherrealestate : cell;
  equitystakes : cell;
  receivables : cell;
  invrealestatefunds : cell;
  item9 : cell;
  intangibles : cell;
  otherassets : cell;
  assets : cell;
  assetcheck : cell;
  assetcheck_ok : bool
}.

(** The item 9 slot: (receivables, invrealestatefunds, item9). *)
Definition compute_item9 (df2 : DataFrame) (qd : Timestamp) (r : list cell)
    : cell * cell * cell :=
  if between qd 1996 3 31 2005 12 31 then
    let receivables := rowwise_max df2 "rcfd2155" "rcon2155" r in
    (receivables, None, receivables)
  else if between qd 2006 3 31 2009 3 31 then (None, None, None)
  else if is_geq qd 2009 6 30 then
    let invrealestatefunds := rowwise_max df2 "rcfd3656" "rcon3656" r in
    (None, invrealestatefunds, invrealestatefunds)
  else (None, None, None).

(** The strict equality check, made only where both sides are present. *)
Definition check_ok (assetcheck assets : cell) : bool :=
  let both := notna assetcheck && notna assets in
  if both then cell_eqb assetcheck assets else false.

(** The component columns summed into [assetcheck]. *)
Definition components (x : OutRow) : list cell :=
  [ cash_tot x; sec_tot x; ffsrepo_tot x; loan_tot x; tradingassets x;
    fixedassets x; otherrealestate x; equitystakes x; item9 x; intangibles x;
    otherassets x ].

(** The assignments to [out] from [cash_nonint] to [assetcheck_ok], for the
    row [r] of [df2] whose identifier was cast to [id]. *)
Definition compute_out_row (df2 : DataFrame) (qd : Timestamp)
    (id : option Z) (r : list cell) : OutRow :=
  let cash_nonint := rowwise_max df2 "rcfd0081" "rcon0081" r in
  let cash_int := rowwise_max df2 "rcfd0071" "rcon0071" r in
  let cash_tot := cell_add cash_nonint cash_int in
  let securities_htm_ac :=
    if between qd 1996 12 31 2018 12 31 then rowwise_max df2 "rcfd1754" "rcon1754" r
    else if is_geq qd 2019 3 31 then rowwise_max df2 "rcfdjj34" "rconjj34" r
    else None in
  let securities_afs_fv := rowwise_max df2 "rcfd1773" "rcon1773" r in
  let securities_equity_fv :=
    if is_geq qd 2018 3 31 then rowwise_max df2 "rcfdja22" "rconja22" r
    else None in
  let sec_tot :=
    if is_leq qd 2017 12 31 then cell_add securities_htm_ac securities_afs_fv
    else cell_add (cell_add securities_htm_ac securities_afs_fv)
                  securities_equity_fv in
  let ffs :=
    if ts_eqb qd (mkTimestamp 1996 12 31) then rowwise_max df2 "rcfd0276" "rcon0276" r
    else if is_geq qd 2002 3 31 then get_cell (columns df2) r "rconb987"
    else None in
  let repo :=
    if ts_eqb qd (mkTimestamp 1996 12 31) then rowwise_max df2 "rcfd0277" "rcon0277" r
    else if is_geq qd 2002 3 31 then rowwise_max df2 "rcfdb989" "rconb989" r
    else None in
  let ffsrepo :=
    if between qd 1997 3 31 2001 12 31 then rowwise_max df2 "rcfd1350" "rcon1350" r
    else None in
  let ffsrepo_tot :=
    if ts_eqb qd (mkTimestamp 1996 12 31) then cell_add ffs repo
    else if between qd 1997 3 31 2001 12 31 then ffsrepo
    else if is_geq qd 2002 3 31 then cell_add ffs repo
    else None in
  let loan_netunearnedinc :=
    if is_leq qd 2000 12 31 then rowwise_max df2 "rcfd2122" "rcon2122" r
    else rowwise_max df2 "rcfdb528" "rconb528" r in
  let loan_transriskreserve :=
    if is_leq qd 2000 12 31 then rowwise_max df2 "rcfd3128" "rcon3128" r
    else None in
  let loan_alll := rowwise_max df2 "rcfd3123" "rcon3123" r in
  let loan_net :=
    if is_leq qd 2000 12 31 then rowwise_max df2 "rcfd2125" "rcon2125" r
    else rowwise_max df2 "rcfdb529" "rconb529" r in
  let loan_afs :=
    if is_geq qd 2001 3 31 then rowwise_max df2 "rcfd5369" "rcon5369" r
    else None in
  let loan_tot :=
    if is_leq qd 2000 12 31 then loan_net else cell_add loan_net loan_afs in
  let tradingassets := rowwise_max df2 "rcfd3545" "rcon3545" r in
  let fixedassets := rowwise_max df2 "rcfd2145" "rcon2145" r in
  let otherrealestate := rowwise_max df2 "rcfd2150" "rcon2150" r in
  let equitystakes := rowwise_max df2 "rcfd2130" "rcon2130" r in
  let slot9 := compute_item9 df2 qd r in
  let receivables := fst (fst slot9) in
  let invrealestatefunds := snd (fst slot9) in
  let item9 := snd slot9 in
  let intangibles :=
    if is_leq qd 2000 12 31 then rowwise_max df2 "rcfd2143" "rcon2143" r
    else if between qd 2001 3 31 2018 3 31 then
      cell_add (rowwise_max df2 "rcfd3163" "rcon3163" r)
               (rowwise_max df2 "rcfd0426" "rcon0426" r)
    else if is_geq qd 2018 6 30 then rowwise_max df2 "rcfd2143" "rcon2143" r
    else None in
  let otherassets := rowwise_max df2 "rcfd2160" "rcon2160" r in
  let assets := rowwise_max df2 "rcfd2170" "rcon2170" r in
  let assetcheck :=
    sum_skipna [ cash_tot; sec_tot; ffsrepo_tot; loan_tot; tradingassets;
                 fixedassets; otherrealestate; equitystakes; item9;
                 intangibles; otherassets ] in
  {| idrssd := id; qdate := qd; qdir := qdir_from_date qd;
     cash_nonint := cash_nonint; cash_int := cash_int; cash_tot := cash_tot;
     securities_htm_ac := securities_htm_ac;
     securities_afs_fv := securities_afs_fv;
     securities_equity_fv := securities_equity_fv; sec_tot := sec_tot;
     ffs := ffs; repo := repo; ffsrepo := ffsrepo; ffsrepo_tot := ffsrepo_tot;
     loan_netunearnedinc := loan_netunearnedinc;
     loan_transriskreserve := loan_transriskreserve; loan_alll := loan_alll;
     loan_net := loan_net; loan_afs := loan_afs; loan_tot := loan_tot;
     tradingassets := tradingassets; fixedassets := fixedassets;
     otherrealestate := otherrealestate; equitystakes := equitystakes;
     receivables := receivables; invrealestatefunds := invrealestatefunds;
     item9 := item9; intangibles := intangibles; otherassets := otherassets;
     assets := assets; assetcheck := assetcheck;
     assetcheck_ok := check_ok assetcheck assets |}.

(** The integers a 64-bit signed integer holds. *)
Definition fits_int64 (n : Z) : bool :=
  (- 2 ^ 63 <=? n) && (n <? 2 ^ 63).

(** [.astype("Int64")] on the coerced identifier column: NaN becomes the
    missing integer; a number that is not an integer, or is an integer that
    64 bits do not hold, does not survive the cast unchanged and raises. *)
Definition to_Int64 (c : cell) : result (option Z) :=
  match c with
  | None => Ok None
  | Some q =>
      if (Z.rem (Qnum q) (Zpos (Qden q)) =? 0)
         && fits_int64 (Z.quot (Qnum q) (Zpos (Qden q)))
      then Ok (Some (Z.quot (Qnum q) (Zpos (Qden q))))
      else Raise (TypeError "cannot safely cast non-equivalent object to int64")
  end.

Fixpoint astype_Int64 (l : list cell) : result (list (option Z)) :=
  match l with
  | [] => Ok []
  | c :: rest =>
      match to_Int64 c with
      | Raise e => Raise e
      | Ok i =>
          match astype_Int64 rest with
          | Raise e => Raise e
          | Ok is_ => Ok (i :: is_)
          end
      end
  end.

(** Two raw labels can normalise to one ("RCFD2170" and "rcfd2170"). Under a
    label that occurs twice [out[c]] and [df2["idrssd"]] are tables, not
    columns, and [pd.to_numeric] raises TypeError on a table. The labels read
    that way are those of [needed] that are present, and "idrssd". *)
Definition occurrences (c : string) (cols : list string) : nat :=
  List.length (filter (String.eqb c) cols).

Definition repeated_label (cols : list string) : bool :=
  existsb (fun c => Nat.ltb 1 (occurrences c cols)) (needed ++ ["idrssd"])%list.

Definition compute_items_for_quarter (df_raw : DataFrame) (qd : Timestamp)
    : result (list OutRow * list string) :=
  let df := normalize_columns df_raw in
  if negb (in_columns "idrssd" (columns df)) then
    Raise (RuntimeError
      "Schedule RC file does not contain IDRSSD column (cannot identify banks).")
  else if repeated_label (columns df) then
    Raise (TypeError "arg must be a list, tuple, 1-d array, or Series")
  else
    let df2 := ensure_numeric_cols df needed in
    let missing_cols := filter (fun c => negb (in_columns c (columns df))) needed in
    match astype_Int64 (map (fun r => get_cell (columns df2) r "idrssd") (rows df2)) with
    | Raise e => Raise e
    | Ok ids =>
        Ok (map (fun ir => compute_out_row df2 qd (fst ir) (snd ir))
                (combine ids (rows df2)),
            missing_cols)
    end.

(** The rows [main] appends to the summary and to the missing-column log. *)
Record SummaryRow := mkSummaryRow {
  s_qdir : string;
  s_date : Timestamp;
  s_banks : nat;
  s_missing_cols : string;
  s_pass_rate : cell;
  s_status : string
}.

Record MissingRow := mkMissingRow {
  m_qdir : string;
  m_date : Timestamp;
  m_missing_col : string;
  m_source_file : string
}.

Record RunState := mkRunState {
  panel_parts : list (list OutRow);
  summary_rows : list SummaryRow;
  missing_rows : list MissingRow
}.

Definition count_true {A : Type} (f : A -> bool) (l : list A) : nat :=
  List.length (filter f l).

(** The summary row of a quarter that is skipped, with its status. *)
Definition skipped_row (qd : Timestamp) (status : string) : SummaryRow :=
  mkSummaryRow (qdir_from_date qd) qd 0 EmptyString None status.

(** The summary row of a quarter that went through. *)
Definition ok_row (qd : Timestamp) (df_out : list OutRow)
    (missing_cols : list string) : SummaryRow :=
  let banks := count_true (fun x => match idrssd x with Some _ => true | None => false end)
                          df_out in
  let denom := count_true (fun x => notna (assets x) && notna (assetcheck x)) df_out in
  let num := count_true assetcheck_ok df_out in
  let pass_rate :=
    if (0 <? denom)%nat
    then Some (inject_Z (Z.of_nat num) / inject_Z (Z.of_nat denom))%Q
    else None in
  let missing_str := String.concat "," (sorted_set missing_cols) in
  mkSummaryRow (qdir_from_date qd) qd banks missing_str pass_rate "ok".

(** The rows of the missing-column log of a quarter that went through. *)
Definition missing_log (qd : Timestamp) (rcfile : string)
    (missing_cols : list string) : list MissingRow :=
  map (fun c => mkMissingRow (qdir_from_date qd) qd c rcfile)
      (sorted_set missing_cols).

Definition skipped (st : RunState) (qd : Timestamp) (status : string) : RunState :=
  mkRunState (panel_parts st)
             (summary_rows st ++ [skipped_row qd status])
             (missing_rows st).

Definition completed (st : RunState) (qd : Timestamp) (rcfile : string)
    (df_out : list OutRow) (missing_cols : list string) : RunState :=
  mkRunState (panel_parts st ++ [df_out])
             (summary_rows st ++ [ok_row qd df_out missing_cols])
             (missing_rows st ++ missing_log qd rcfile missing_cols).

(** The body of the loop of [main] for the quarter date [qd]. *)
Definition quarter_step (fs : FileSystem) (qd : Timestamp) (st : RunState)
    : result RunState :=
  let qdir := qdir_from_date qd in
  if negb (isdir fs qdir) then Ok (skipped st qd "no_quarter_dir")
  else
    match find_schedule_rc_file fs qdir with
    | None => Ok (skipped st qd "no_schedule_rc")
    | Some rcfile =>
        match read_schedule_rc fs qdir rcfile with
        | Raise e => Ok (skipped st qd "parse_error")
        | Ok df_raw =>
            match compute_items_for_quarter df_raw qd with
            | Raise e => Ok (skipped st qd "compute_error")
            | Ok (df_out, missing_cols) =>
                Ok (completed st qd rcfile df_out missing_cols)
            end
        end
    end.

Fixpoint run_quarters (fs : FileSystem) (qs : list Timestamp) (st : RunState)
    : result RunState :=
  match qs with
  | [] => Ok st
  | qd :: rest =>
      match quarter_step fs qd st with
      | Raise e => Raise e
      | Ok st' => run_quarters fs rest st'
      end
  end.

(** [main]: the panel, the summary and the missing-column log it writes. *)
Definition main (fs : FileSystem) (start end_ : Timestamp)
    : result (list OutRow * list SummaryRow * list MissingRow) :=
  match run_quarters fs (quarter_ends start end_) (mkRunState [] [] []) with
  | Raise e => Raise e
  | Ok st => Ok (List.concat (panel_parts st), summary_rows st, missing_rows st)
  end.

End RcAssets.

(** * download_chicagofed_1976_2000.py: the quarter folders *)

Module ChicagoFed.

(** The dictionary [END_DAY]; [None] stands for a missing key. *)
Definition END_DAY (mm : string) : option string :=
  if String.eqb mm "03" then Some "31"
  else if String.eqb mm "06" then Some "30"
  else if String.eqb mm "09" then Some "30"
  else if String.eqb mm "12" then Some "31"
  else None.

(** [quarter_folder(yy, mm)]; [None] stands for the KeyError of
    [END_DAY[mm]]. *)
Definition quarter_folder (yy mm : string) : option string :=
  match END_DAY mm with
  | Some dd => Some (mm ++ dd ++ yy)
  | None => None
  end.

End ChicagoFed.

(** * Properties *)

(** A cell holds a number other than zero. *)
Definition present_nonzero (c : cell) : Prop :=
  match c with
  | Some x => ~ (x == 0)%Q
  | None => False
  end.

(** The three rows of the resolver scenario: (100, 0), (0, 50), (-, -). *)
Definition scenario_pairs : DataFrame :=
  mkDataFrame ["A"; "B"]
    [ [Some 100%Q; Some 0%Q]; [Some 0%Q; Some 50%Q]; [None; None] ].

(** The component columns build_full_panel.py adds up into [assetcheck]. *)
Definition full_components (x : FullPanel.Row) : list cell :=
  [ FullPanel.cash_tot x; FullPanel.sec_tot x; FullPanel.ffsrepo_tot x;
    FullPanel.loan_tot x; FullPanel.tradingassets x; FullPanel.fixedassets x;
    FullPanel.otherrealestate x; FullPanel.equitystakes x; FullPanel.item9 x;
    FullPanel.intangibles x; FullPanel.otherassets x ].

(** The value [prefer_rcfd] resolves for the mnemonic pair that ends in [m]:
    "0081" stands for RCFD0081 and RCON0081. *)
Definition resolved (df : DataFrame) (r : list cell) (m : string) : cell :=
  FullPanel.prefer_rcfd df ("RCFD" ++ m) ("RCON" ++ m) r.

(** The categories of build_full_panel.py, each with the operands the code
    adds up for it at the report date [d], read off [compute_cash] to
    [compute_intangibles] and the assignments of [process_quarter]. *)
Definition full_category_operands (d : Timestamp)
    : list ((FullPanel.Row -> cell) * list string) :=
  [ (FullPanel.cash_tot, ["0081"; "0071"]);
    (FullPanel.sec_tot,
     ((if ts_geb d (mkTimestamp 2019 3 31) then "JJ34" else "1754")
      :: "1773"
      :: (if ts_geb d (mkTimestamp 2018 3 31) then ["JA22"] else []))%list);
    (FullPanel.ffsrepo_tot,
     if ts_eqb d (mkTimestamp 1996 12 31) then ["0276"; "0277"]
     else if ts_leb (mkTimestamp 1997 3 31) d
             && ts_leb d (mkTimestamp 2001 12 31) then ["1350"]
     else if ts_geb d (mkTimestamp 2002 3 31) then ["B987"; "B989"]
     else ["1350"]);
    (FullPanel.loan_tot,
     if ts_leb d (mkTimestamp 2000 12 31) then ["2125"] else ["B529"; "5369"]);
    (FullPanel.tradingassets, ["3545"]);
    (FullPanel.fixedassets, ["2145"]);
    (FullPanel.otherrealestate, ["2150"]);
    (FullPanel.equitystakes, ["2130"]);
    (FullPanel.item9,
     if ts_leb d (mkTimestamp 2005 12 31) then ["2155"]
     else if ts_leb (mkTimestamp 2006 3 31) d
             && ts_leb d (mkTimestamp 2009 3 31) then []
     else if ts_geb d (mkTimestamp 2009 6 30) then ["3656"]
     else []);
    (FullPanel.intangibles,
     if ts_leb d (mkTimestamp 2000 12 31) then ["2143"]
     else if ts_leb (mkTimestamp 2001 3 31) d
             && ts_leb d (mkTimestamp 2018 3 31) then ["3163"; "0426"]
     else if ts_geb d (mkTimestamp 2018 6 30) then ["2143"]
     else ["3163"; "0426"]);
    (FullPanel.otherassets, ["2160"]) ].

(** An amount float64 computes with exactly: a whole or half unit of
    magnitude at most 2^40. Sums and differences of some dozens of such
    amounts are whole or half units below 2^52, which float64 holds, so on
    them the rational arithmetic of [cell_add] and [cell_sub] is the
    arithmetic of the code. *)
Definition exact_amount (c : cell) : bool :=
  match c with
  | None => true
  | Some q =>
      (Z.rem (2 * Qnum q) (Zpos (Qden q)) =? 0)
      && (Z.abs (Qnum q) <=? 2 ^ 40 * Zpos (Qden q))
  end.

(** A filing for build_rc_assets_panel.py whose components add up to
    1,000,000, with the reported total [total]. *)
Definition million_rc_filing (total : Q) : DataFrame :=
  mkDataFrame ["IDRSSD"; "RCFD3545"; "RCFD2145"; "RCFD2160"; "RCFD2170"]
    [ [Some 37%Q; Some 150000%Q; Some 800000%Q; Some 50000%Q; Some total] ].

(** The twelve standardized categories of a row of build_rc_assets_panel.py:
    the eleven components and total assets. *)
Definition twelve_categories (x : RcAssets.OutRow) : list cell :=
  (RcAssets.components x ++ [RcAssets.assets x])%list.

(** A filing whose components add up to 1,000,000, with the reported total
    [total]. *)
Definition million_filing (total : Q) : DataFrame :=
  mkDataFrame ["IDRSSD"; "RCFD0081"; "RCFD2125"; "RCFD2160"; "RCFD2170"]
    [ [Some 37%Q; Some 150000%Q; Some 800000%Q; Some 50000%Q; Some total] ].

(** A filing with one institution that reports cash and no total assets. *)
Definition no_total_filing : DataFrame :=
  mkDataFrame ["IDRSSD"; "RCFD0081"] [ [Some 37%Q; Some 5%Q] ].

(** A filing with one institution that reports only its total assets. *)
Definition total_only_filing : DataFrame :=
  mkDataFrame ["IDRSSD"; "RCFD2170"] [ [Some 37%Q; Some 10%Q] ].

(** What the loop body of build_rc_assets_panel.py does with one quarter,
    read off [RcAssets.quarter_step]. *)
Inductive outcome :=
| Skipped (status : string)
| Completed (rcfile : string) (df_out : list RcAssets.OutRow)
            (missing_cols : list string).

Definition quarter_outcome (fs : RcAssets.FileSystem) (qd : Timestamp) : outcome :=
  let qdir := RcAssets.qdir_from_date qd in
  if negb (RcAssets.isdir fs qdir) then Skipped "no_quarter_dir"
  else
    match RcAssets.find_schedule_rc_file fs qdir with
    | None => Skipped "no_schedule_rc"
    | Some rcfile =>
        match RcAssets.read_schedule_rc fs qdir rcfile with
        | Raise _ => Skipped "parse_error"
        | Ok df_raw =>
            match RcAssets.compute_items_for_quarter df_raw qd with
            | Raise _ => Skipped "compute_error"
            | Ok (df_out, missing_cols) => Completed rcfile df_out missing_cols
            end
        end
    end.

(** The frame one quarter appends to [panel_parts], if any. *)
Definition quarter_frames (fs : RcAssets.FileSystem) (qd : Timestamp)
    : list (list RcAssets.OutRow) :=
  match quarter_outcome fs qd with
  | Skipped _ => []
  | Completed _ df_out _ => [df_out]
  end.

(** The panel rows, the summary row and the log rows one quarter adds. *)
Definition quarter_rows (fs : RcAssets.FileSystem) (qd : Timestamp)
    : list RcAssets.OutRow :=
  match quarter_outcome fs qd with
  | Skipped _ => []
  | Completed _ df_out _ => df_out
  end.

Definition quarter_summary (fs : RcAssets.FileSystem) (qd : Timestamp)
    : RcAssets.SummaryRow :=
  match quarter_outcome fs qd with
  | Skipped status => RcAssets.skipped_row qd status
  | Completed _ df_out missing_cols => RcAssets.ok_row qd df_out missing_cols
  end.

Definition quarter_missing (fs : RcAssets.FileSystem) (qd : Timestamp)
    : list RcAssets.MissingRow :=
  match quarter_outcome fs qd with
  | Skipped _ => []
  | Completed rcfile _ missing_cols => RcAssets.missing_log qd rcfile missing_cols
  end.

(** The rows one quarter directory adds to the panel of build_full_panel.py
    when [process_quarter] returns. *)
Definition full_quarter_rows (fs : FullPanel.FileSystem) (qdir : string)
    : list FullPanel.PanelRow :=
  match FullPanel.process_quarter fs qdir with
  | Ok (Some dfq) => dfq
  | _ => []
  end.

(** A raw-data root for build_rc_assets_panel.py with two quarter
    directories: 033101 holds the filing [df], 063001 a file that cannot be
    read. *)
Definition rc_root (df : DataFrame) : RcAssets.FileSystem :=
  RcAssets.mkFileSystem
    (fun qdir => String.eqb qdir "033101" || String.eqb qdir "063001")
    (fun qdir =>
       if String.eqb qdir "033101"
       then ["FFIEC CDR Call Schedule RC 03312001.txt"]
       else if String.eqb qdir "063001"
       then ["FFIEC CDR Call Schedule RC 06302001.txt"]
       else [])
    (fun qdir _ => if String.eqb qdir "033101" then Ok df else Raise ParserError)
    (fun qdir _ => if String.eqb qdir "033101" then Ok df else Raise ParserError).

(** A filing with the cash and total-assets mnemonics only. *)
Definition small_filing : DataFrame :=
  mkDataFrame ["IDRSSD"; "RCFD0081"; "RCON0081"; "RCFD0071"; "RCON0071";
               "RCFD2170"; "RCON2170"]
    [ [Some 37%Q; Some 5%Q; None; Some 7%Q; None; Some 12%Q; None];
      [Some 38%Q; None; None; None; None; None; Some 9%Q] ].

(** A filing without the institution identifier. *)
Definition anonymous_filing : DataFrame :=
  mkDataFrame ["RCFD2170"] [ [Some 10%Q] ].

(** A data directory for build_full_panel.py: every directory of [dirs]
    holds one Schedule RC file, named after [name], read as [content]. *)
Definition full_root (dirs : list string) (name : string -> string)
    (content : string -> result DataFrame) : FullPanel.FileSystem :=
  FullPanel.mkFileSystem dirs (fun qdir => [name qdir])
                         (fun qdir _ => content qdir).

Definition rc_file_name (qdir : string) : string :=
  if String.eqb qdir "123100" then "FFIEC CDR Call Schedule RC 12312000.txt"
  else if String.eqb qdir "033101" then "FFIEC CDR Call Schedule RC 03312001.txt"
  else "FFIEC CDR Call Schedule RC 06302001.txt".

(** A string without decimal digit. *)
Fixpoint no_digit (s : string) : bool :=
  match s with
  | EmptyString => true
  | String a s' => negb (is_digit a) && no_digit s'
  end.

(** The eight digits MMDDYYYY of a date, as a Schedule RC file name shows
    them. *)
Definition mmddyyyy (y m d : Z) : string :=
  two_digits m ++ two_digits d ++ two_digits (y / 100) ++ two_digits y.

(** An upper-case ASCII letter. *)
Definition is_upper (a : ascii) : bool :=
  let n := nat_of_ascii a in ((65 <=? n) && (n <=? 90))%nat.

(** A label without white space and without double quote. *)
Definition plain_label (c : string) : Prop :=
  Forall (fun a => RcAssets.is_space a = false /\ a <> RcAssets.quote_char)
         (list_ascii_of_string c).

(** The columns [RcAssets.ensure_numeric_cols] appends to a frame whose
    columns are [have], when asked for [cols]. *)
Fixpoint added_cols (have cols : list string) : list string :=
  match cols with
  | [] => []
  | c :: rest =>
      if in_columns c have then added_cols have rest
      else c :: added_cols (have ++ [c]) rest
  end.

(** A cell [RcAssets.to_Int64] accepts: NaN, or a whole number that 64 bits
    hold. *)
Definition is_integral (c : cell) : bool :=
  match c with
  | None => true
  | Some q => (Z.rem (Qnum q) (Zpos (Qden q)) =? 0)
              && RcAssets.fits_int64 (Z.quot (Qnum q) (Zpos (Qden q)))
  end.

(** The summary row one quarter directory adds in build_full_panel.py. *)
Definition full_quarter_summary (fs : FullPanel.FileSystem) (qdir : string)
    : list FullPanel.SummaryRow :=
  match full_quarter_rows fs qdir with
  | [] => []
  | dfq => [FullPanel.summarise qdir dfq]
  end.

(** The index of the quarter that ends in month [m] (3, 6, 9 or 12) of year
    [y], as [RcAssets.quarter_end_of] counts quarters. *)
Definition quarter_index (y m : Z) : Z := 4 * y + (m - 1) / 3.

(** ** Cells *)

Lemma cell_add_present (a b : cell) :
  notna (cell_add a b) = notna a && notna b.
Proof. destruct a, b; reflexivity. Qed.

Lemma fillna0_present (c : cell) : exists q, fillna0 c = Some q.
Proof. destruct c as [x|]; simpl; eauto. Qed.

Lemma cell_add_fillna0 (a b : cell) :
  exists q, cell_add (fillna0 a) (fillna0 b) = Some q.
Proof. destruct a, b; simpl; eauto. Qed.

(** ** The field resolvers *)

Ltac prefer_cases df a b r x y :=
  unfold FullPanel.prefer_rcfd, cell_neb, cell_eqb, notna, isna;
  destruct (FullPanel.to_num_series df a r) as [x|],
           (FullPanel.to_num_series df b r) as [y|];
  cbn [present_nonzero orb andb negb].

Ltac qeq_case x E :=
  destruct (Qeq_bool x 0) eqn:E;
  [apply Qeq_bool_iff in E | apply Qeq_bool_neq in E];
  cbn [orb andb negb].

Lemma prefer_rcfd_first (df : DataFrame) (a b : string) (r : list cell) :
  present_nonzero (FullPanel.to_num_series df a r) ->
  FullPanel.prefer_rcfd df a b r = FullPanel.to_num_series df a r.
Proof.
  prefer_cases df a b r x y; try tauto; intros Hx; qeq_case x Ex;
    try reflexivity; contradiction.
Qed.

Lemma prefer_rcfd_second (df : DataFrame) (a b : string) (r : list cell) :
  ~ present_nonzero (FullPanel.to_num_series df a r) ->
  present_nonzero (FullPanel.to_num_series df b r) ->
  FullPanel.prefer_rcfd df a b r = FullPanel.to_num_series df b r.
Proof.
  prefer_cases df a b r x y; try tauto; intros Hx Hy.
  - qeq_case x Ex; [|contradiction]. qeq_case y Ey; [contradiction|reflexivity].
  - qeq_case y Ey; [contradiction|reflexivity].
Qed.

Lemma prefer_rcfd_neither (df : DataFrame) (a b : string) (r : list cell) :
  ~ present_nonzero (FullPanel.to_num_series df a r) ->
  ~ present_nonzero (FullPanel.to_num_series df b r) ->
  FullPanel.prefer_rcfd df a b r = FullPanel.to_num_series df a r.
Proof.
  prefer_cases df a b r x y; intros Hx Hy; try reflexivity.
  - qeq_case x Ex; [|reflexivity]. qeq_case y Ey; [reflexivity|contradiction].
  - qeq_case x Ex; reflexivity.
  - qeq_case y Ey; [reflexivity|contradiction].
Qed.

(** C1, counterexample: on the row (100, 200) the resolver of
    build_rc_assets_panel.py returns 200, although the first identifier is
    present and non-zero. *)
Lemma C1_rowwise_max_returns_second :
  let df := mkDataFrame ["rcfd2170"; "rcon2170"] [[Some 100%Q; Some 200%Q]] in
  let r := [Some 100%Q; Some 200%Q] in
  present_nonzero (get_cell (columns df) r "rcfd2170") /\
  RcAssets.rowwise_max df "rcfd2170" "rcon2170" r = Some 200%Q /\
  RcAssets.rowwise_max df "rcfd2170" "rcon2170" r
    <> get_cell (columns df) r "rcfd2170".
Proof.
  simpl. split; [|split].
  - intros H. discriminate H.
  - reflexivity.
  - vm_compute. intros H. discriminate H.
Qed.

(** C1, amended: [prefer_rcfd] of build_full_panel.py follows the preference
    rule (the first identifier's value when it is present and non-zero,
    whatever the second; otherwise the second's when that is present and
    non-zero; otherwise the first's).  [rowwise_max] of
    build_rc_assets_panel.py returns the one value that is present, the
    larger of the two when both are, and "no value" when neither is.  Both
    return 100 on (100, 0), 50 on (0, 50) and "no value" on two missing
    values. *)
Theorem C1_field_resolver :
  (forall (df : DataFrame) (a b : string) (r : list cell),
      let va := FullPanel.to_num_series df a r in
      let vb := FullPanel.to_num_series df b r in
      (present_nonzero va -> FullPanel.prefer_rcfd df a b r = va) /\
      (~ present_nonzero va -> present_nonzero vb ->
       FullPanel.prefer_rcfd df a b r = vb) /\
      (~ present_nonzero va -> ~ present_nonzero vb ->
       FullPanel.prefer_rcfd df a b r = va)) /\
  (forall (df : DataFrame) (a b : string) (r : list cell),
      let va := get_cell (columns df) r a in
      let vb := get_cell (columns df) r b in
      (vb = None -> RcAssets.rowwise_max df a b r = va) /\
      (va = None -> RcAssets.rowwise_max df a b r = vb) /\
      (forall x y, va = Some x -> vb = Some y -> (x <= y)%Q ->
                   RcAssets.rowwise_max df a b r = Some y) /\
      (forall x y, va = Some x -> vb = Some y -> ~ (x <= y)%Q ->
                   RcAssets.rowwise_max df a b r = Some x)) /\
  map (FullPanel.prefer_rcfd scenario_pairs "A" "B") (rows scenario_pairs)
    = [Some 100%Q; Some 50%Q; None] /\
  map (RcAssets.rowwise_max scenario_pairs "A" "B") (rows scenario_pairs)
    = [Some 100%Q; Some 50%Q; None].
Proof.
  split; [|split; [|split]].
  - intros df a b r va vb. subst va vb. split; [|split].
    + apply prefer_rcfd_first.
    + apply prefer_rcfd_second.
    + apply prefer_rcfd_neither.
  - intros df a b r va vb. subst va vb. unfold RcAssets.rowwise_max.
    destruct (get_cell (columns df) r a) as [x|],
             (get_cell (columns df) r b) as [y|]; simpl;
      repeat split; try congruence.
    + intros x' y' Hx Hy Hle. injection Hx as <-. injection Hy as <-.
      apply Qle_bool_iff in Hle. now rewrite Hle.
    + intros x' y' Hx Hy Hnle. injection Hx as <-. injection Hy as <-.
      destruct (Qle_bool x y) eqn:E; [|reflexivity].
      apply Qle_bool_iff in E. contradiction.
  - reflexivity.
  - reflexivity.
Qed.

(** The preference rule at work on the row (100, 200). *)
Lemma C1_field_resolver_witness :
  FullPanel.prefer_rcfd (mkDataFrame ["A"; "B"] [[Some 100%Q; Some 200%Q]])
                        "A" "B" [Some 100%Q; Some 200%Q]
  = Some 100%Q.
Proof.
  apply (proj1 (proj1 C1_field_resolver
                  (mkDataFrame ["A"; "B"] [[Some 100%Q; Some 200%Q]])
                  "A" "B" [Some 100%Q; Some 200%Q])).
  simpl. intros H. discriminate H.
Defined.

(** ** Dates *)

Ltac ts_unfold :=
  unfold RcAssets.between, RcAssets.is_leq, RcAssets.is_geq,
         ts_geb, ts_eqb, ts_ltb, ts_leb, ts_compare in *;
  cbn [year month day] in *.

Ltac ts_cases :=
  ts_unfold;
  repeat match goal with
         | |- context [Z.compare ?a ?b] => destruct (Z.compare_spec a b)
         | H : context [Z.compare ?a ?b] |- _ => destruct (Z.compare_spec a b)
         end;
  cbn [andb orb negb] in *;
  try discriminate; try reflexivity; try lia.

Lemma gap_after_acceptances (d : Timestamp) :
  RcAssets.between d 2006 3 31 2009 3 31 = true ->
  RcAssets.between d 1996 3 31 2005 12 31 = false /\
  ts_leb d (mkTimestamp 2005 12 31) = false.
Proof. destruct d as [y m dd]. intros H. split; ts_cases. Qed.

(** ** The category aggregators *)

Lemma compute_cash_present df r : exists q, FullPanel.compute_cash df r = Some q.
Proof. apply cell_add_fillna0. Qed.

Lemma compute_securities_present df d r :
  exists q, FullPanel.compute_securities df d r = Some q.
Proof.
  unfold FullPanel.compute_securities.
  repeat match goal with
         | |- context [if ?c then _ else _] => destruct c
         | |- context [fillna0 ?c] =>
             let q := fresh "q" in let E := fresh "E" in
             destruct (fillna0_present c) as [q E]; rewrite E
         end; simpl; eauto.
Qed.

Ltac present_by_cases :=
  repeat match goal with
         | |- context [if ?c then _ else _] => destruct c
         end;
  repeat match goal with
         | |- context [fillna0 ?c] =>
             let q := fresh "q" in let E := fresh "E" in
             destruct (fillna0_present c) as [q E]; rewrite E
         end; simpl; eauto.

Lemma compute_ffsrepo_present df d r :
  exists q, FullPanel.compute_ffsrepo df d r = Some q.
Proof. unfold FullPanel.compute_ffsrepo. present_by_cases. Qed.

Lemma compute_loans_present df d r :
  exists q, FullPanel.compute_loans df d r = Some q.
Proof. unfold FullPanel.compute_loans. present_by_cases. Qed.

Lemma compute_item9_present df d r :
  exists q, FullPanel.compute_item9 df d r = Some q.
Proof. unfold FullPanel.compute_item9. present_by_cases. Qed.

Lemma compute_intangibles_present df d r :
  exists q, FullPanel.compute_intangibles df d r = Some q.
Proof. unfold FullPanel.compute_intangibles. present_by_cases. Qed.

(** Every component column of build_full_panel.py holds a number. *)
Lemma full_components_present df d r :
  Forall (fun c => exists q, c = Some q)
         (full_components (FullPanel.compute_row df d r)).
Proof.
  unfold full_components. cbn [FullPanel.compute_row FullPanel.cash_tot
    FullPanel.sec_tot FullPanel.ffsrepo_tot FullPanel.loan_tot
    FullPanel.tradingassets FullPanel.fixedassets FullPanel.otherrealestate
    FullPanel.equitystakes FullPanel.item9 FullPanel.intangibles
    FullPanel.otherassets].
  repeat constructor;
    auto using compute_cash_present, compute_securities_present,
      compute_ffsrepo_present, compute_loans_present, compute_item9_present,
      compute_intangibles_present, fillna0_present.
Qed.

Ltac rc_fields :=
  unfold twelve_categories, RcAssets.components in *;
  cbn [RcAssets.compute_out_row RcAssets.idrssd RcAssets.qdate RcAssets.qdir
       RcAssets.cash_nonint RcAssets.cash_int RcAssets.cash_tot
       RcAssets.securities_htm_ac RcAssets.securities_afs_fv
       RcAssets.securities_equity_fv RcAssets.sec_tot RcAssets.ffs
       RcAssets.repo RcAssets.ffsrepo RcAssets.ffsrepo_tot
       RcAssets.loan_netunearnedinc RcAssets.loan_transriskreserve
       RcAssets.loan_alll RcAssets.loan_net RcAssets.loan_afs
       RcAssets.loan_tot RcAssets.tradingassets RcAssets.fixedassets
       RcAssets.otherrealestate RcAssets.equitystakes RcAssets.receivables
       RcAssets.invrealestatefunds RcAssets.item9 RcAssets.intangibles
       RcAssets.otherassets RcAssets.assets RcAssets.assetcheck
       RcAssets.assetcheck_ok] in *.

Ltac full_fields :=
  unfold full_components in *;
  cbn [FullPanel.compute_row FullPanel.bankid FullPanel.date FullPanel.assets
       FullPanel.cash_tot FullPanel.sec_tot FullPanel.ffsrepo_tot
       FullPanel.loan_tot FullPanel.tradingassets FullPanel.fixedassets
       FullPanel.otherrealestate FullPanel.equitystakes FullPanel.item9
       FullPanel.intangibles FullPanel.otherassets FullPanel.assetcheck
       FullPanel.asset_diff FullPanel.pass_flag] in *.

Lemma sum_skipna_all_missing (l : list cell) :
  Forall (fun c => c = None) l -> sum_skipna l = Some 0%Q.
Proof.
  unfold sum_skipna. generalize 0%Q as acc.
  induction l as [|c l IH]; intros acc H; [reflexivity|].
  apply Forall_cons_iff in H. destruct H as [-> H]. cbn [fold_left].
  now apply IH.
Qed.

Lemma sum_of_missing (c : cell) (f : string -> cell) (l : list string) :
  cell_equiv c (sum_skipna (map f l)) ->
  Forall (fun m => f m = None) l -> cell_equiv c (Some 0%Q).
Proof.
  intros H F. rewrite sum_skipna_all_missing in H; [exact H|].
  apply Forall_map. exact F.
Qed.

(** Every category of build_full_panel.py is the sum of its own operands,
    a missing operand counting for 0. *)
Lemma full_category_sums df d r :
  Forall (fun co =>
            cell_equiv (fst co (FullPanel.compute_row df d r))
                       (sum_skipna (map (resolved df r) (snd co))))
         (full_category_operands d).
Proof.
  unfold full_category_operands.
  repeat (apply Forall_cons; [|]); try apply Forall_nil;
    cbn [fst snd]; full_fields;
    unfold FullPanel.compute_cash, FullPanel.compute_securities,
      FullPanel.compute_ffsrepo, FullPanel.compute_loans,
      FullPanel.compute_item9, FullPanel.compute_intangibles;
    repeat match goal with
           | |- context [if ?c then _ else _] => destruct c
           end;
    unfold resolved, sum_skipna; cbn [map fold_left String.append];
    repeat match goal with
           | |- context [FullPanel.prefer_rcfd ?a ?b ?c ?e] =>
               destruct (FullPanel.prefer_rcfd a b c e)
           end;
    cbn [fillna0 cell_add cell_equiv]; lra.
Qed.

(** C2, counterexample: in build_rc_assets_panel.py a row that reports
    non-interest-bearing cash (5) and no interest-bearing cash has one operand
    of the cash category present, and its cash total is "no value"; in
    build_full_panel.py a row with no cash operand at all has cash total 0. *)
Lemma C2_category_missingness_differs :
  match RcAssets.compute_items_for_quarter no_total_filing
          (mkTimestamp 2001 3 31),
        FullPanel.standardized_rows total_only_filing (mkTimestamp 2001 3 31)
  with
  | Ok ([x], _), [y] =>
      RcAssets.cash_nonint x = Some 5%Q /\
      RcAssets.cash_int x = None /\
      RcAssets.cash_tot x = None /\
      FullPanel.prefer_rcfd total_only_filing "RCFD0081" "RCON0081"
                            [Some 37%Q; Some 10%Q] = None /\
      FullPanel.prefer_rcfd total_only_filing "RCFD0071" "RCON0071"
                            [Some 37%Q; Some 10%Q] = None /\
      FullPanel.cash_tot y = Some (0 + 0)%Q
  | _, _ => False
  end.
Proof. vm_compute. repeat split; reflexivity. Qed.

(** C2, amended: in build_rc_assets_panel.py a category that adds operands is
    a defined number exactly when every one of its operands is present (one
    missing operand makes it "no value"); in build_full_panel.py every operand
    is filled with 0 before the addition, so every category is a defined
    number: the sum of its own operands with "no value" counted as 0, and
    so 0 when all of its own operands are "no value", whatever the other
    columns of the row hold. *)
Theorem C2_category_aggregation :
  (forall (df2 : DataFrame) (qd : Timestamp) (id : option Z) (r : list cell),
      let x := RcAssets.compute_out_row df2 qd id r in
      notna (RcAssets.cash_tot x)
        = notna (RcAssets.cash_nonint x) && notna (RcAssets.cash_int x) /\
      notna (RcAssets.sec_tot x)
        = notna (RcAssets.securities_htm_ac x)
          && notna (RcAssets.securities_afs_fv x)
          && (RcAssets.is_leq qd 2017 12 31
              || notna (RcAssets.securities_equity_fv x)) /\
      (ts_eqb qd (mkTimestamp 1996 12 31) || RcAssets.is_geq qd 2002 3 31 = true ->
       notna (RcAssets.ffsrepo_tot x)
         = notna (RcAssets.ffs x) && notna (RcAssets.repo x)) /\
      notna (RcAssets.loan_tot x)
        = notna (RcAssets.loan_net x)
          && (RcAssets.is_leq qd 2000 12 31 || notna (RcAssets.loan_afs x)) /\
      (RcAssets.between qd 2001 3 31 2018 3 31 = true ->
       notna (RcAssets.intangibles x)
         = notna (RcAssets.rowwise_max df2 "rcfd3163" "rcon3163" r)
           && notna (RcAssets.rowwise_max df2 "rcfd0426" "rcon0426" r))) /\
  (forall (df : DataFrame) (d : Timestamp) (r : list cell),
      Forall (fun c => exists q, c = Some q)
             (full_components (FullPanel.compute_row df d r)) /\
      Forall (fun co =>
                let c := fst co (FullPanel.compute_row df d r) in
                cell_equiv c (sum_skipna (map (resolved df r) (snd co))) /\
                (Forall (fun m => resolved df r m = None) (snd co) ->
                 cell_equiv c (Some 0%Q)))
             (full_category_operands d)).
Proof.
  split.
  - intros df2 qd id r x. subst x. rc_fields. repeat split.
    + apply cell_add_present.
    + destruct (RcAssets.is_leq qd 2017 12 31).
      * rewrite cell_add_present, orb_true_l, andb_true_r. reflexivity.
      * rewrite !cell_add_present. reflexivity.
    + intros Hd.
      assert (Hb : ts_eqb qd (mkTimestamp 1996 12 31) = false ->
                   RcAssets.between qd 1997 3 31 2001 12 31 = false
                   /\ RcAssets.is_geq qd 2002 3 31 = true).
      { destruct qd as [y m dd]. intros He. rewrite He in Hd.
        split; ts_cases. }
      destruct (ts_eqb qd (mkTimestamp 1996 12 31)).
      * apply cell_add_present.
      * destruct (Hb eq_refl) as [-> ->]. apply cell_add_present.
    + destruct (RcAssets.is_leq qd 2000 12 31).
      * rewrite orb_true_l, andb_true_r. reflexivity.
      * apply cell_add_present.
    + intros Hd.
      assert (Hb : RcAssets.is_leq qd 2000 12 31 = false).
      { destruct qd as [y m dd]. ts_cases. }
      rewrite Hb, Hd. apply cell_add_present.
  - intros df d r. split.
    + apply full_components_present.
    + eapply Forall_impl; [|apply full_category_sums].
      intros co H. split; [exact H|]. apply sum_of_missing. exact H.
Qed.

(** The institution of [total_only_filing] reports total assets 10 and no
    cash operand: its row is kept, and its cash total is 0. *)
Lemma C2_category_aggregation_witness :
  FullPanel.assets (FullPanel.compute_row total_only_filing
                      (mkTimestamp 2001 3 31) [Some 37%Q; Some 10%Q])
  = Some 10%Q /\
  cell_equiv
    (FullPanel.cash_tot (FullPanel.compute_row total_only_filing
                           (mkTimestamp 2001 3 31) [Some 37%Q; Some 10%Q]))
    (Some 0%Q).
Proof.
  split; [reflexivity|].
  apply (proj2 (Forall_inv (proj2 (proj2 C2_category_aggregation
                                     total_only_filing (mkTimestamp 2001 3 31)
                                     [Some 37%Q; Some 10%Q])))).
  repeat constructor.
Defined.

(** ** The reconciliation check *)

Lemma tolerance_check (c t : cell) (k : Q) :
  cell_leb (cell_abs (cell_sub c t)) (Some k) = true <->
  exists x y, c = Some x /\ t = Some y /\ (Qabs (x - y) <= k)%Q.
Proof.
  destruct c as [x|], t as [y|]; simpl; split.
  - intros H. exists x, y. repeat split. now apply Qle_bool_iff.
  - intros (x' & y' & Hx & Hy & H). injection Hx as <-. injection Hy as <-.
    now apply Qle_bool_iff.
  - discriminate.
  - intros (x' & y' & _ & Hy & _). discriminate Hy.
  - discriminate.
  - intros (x' & y' & Hx & _). discriminate Hx.
  - discriminate.
  - intros (x' & y' & Hx & _). discriminate Hx.
Qed.

Lemma Qabs_diff_zero (x y : Q) : (Qabs (x - y) <= 0)%Q <-> (x == y)%Q.
Proof.
  rewrite Qabs_Qle_condition. split.
  - intros [H1 H2]. lra.
  - intros H. split; lra.
Qed.

Lemma strict_check (c t : cell) :
  RcAssets.check_ok c t = true <->
  exists x y, c = Some x /\ t = Some y /\ (x == y)%Q.
Proof.
  unfold RcAssets.check_ok. destruct c as [x|], t as [y|]; simpl; split.
  - intros H. exists x, y. repeat split. now apply Qeq_bool_iff.
  - intros (x' & y' & Hx & Hy & H). injection Hx as <-. injection Hy as <-.
    now apply Qeq_bool_iff.
  - discriminate.
  - intros (x' & y' & _ & Hy & _). discriminate Hy.
  - discriminate.
  - intros (x' & y' & Hx & _). discriminate Hx.
  - discriminate.
  - intros (x' & y' & Hx & _). discriminate Hx.
Qed.

(** C3, counterexample: in build_rc_assets_panel.py the components of the
    institution add up to 1,000,000 and its reported total is 1,000,000.50:
    both are present and they differ by half a unit, within a tolerance of 1,
    and the flag assetcheck_ok is false. *)
Lemma C3_rc_assets_requires_equality :
  match RcAssets.main (rc_root (million_rc_filing (2000001 # 2)))
                      (mkTimestamp 2001 3 31) (mkTimestamp 2001 3 31) with
  | Ok (panel, _, _) =>
      map (fun x => (RcAssets.assetcheck x, RcAssets.assets x,
                     RcAssets.assetcheck_ok x)) panel
      = [(Some 1000000%Q, Some (2000001 # 2)%Q, false)] /\
      (Qabs (1000000 - (2000001 # 2)) <= 1)%Q
  | Raise _ => False
  end.
Proof. vm_compute. split; [reflexivity | discriminate]. Qed.

(** C3, amended: for a row whose amounts are whole or half units (of
    magnitude at most 2^40, which float64 adds and subtracts exactly), the
    pass flag of build_full_panel.py is true if and only if assetcheck and
    the reported total are both present and |assetcheck - total| is at most
    1, and the flag assetcheck_ok of build_rc_assets_panel.py is true if and
    only if both are present and equal: its tolerance is 0. In either script
    a row with either side absent has the flag false. With components adding
    up to 1,000,000, a total of 1,000,000.50 passes in build_full_panel.py
    and fails in build_rc_assets_panel.py, a total of 1,000,005 fails in
    both, and a total of 1,000,000 passes in build_rc_assets_panel.py. *)
Theorem C3_pass_flag :
  (forall (df : DataFrame) (d : Timestamp) (r : list cell),
      forallb exact_amount r = true ->
      let x := FullPanel.compute_row df d r in
      (FullPanel.pass_flag x = true <->
       exists c t, FullPanel.assetcheck x = Some c /\
                   FullPanel.assets x = Some t /\ (Qabs (c - t) <= 1)%Q) /\
      (FullPanel.assets x = None -> FullPanel.pass_flag x = false)) /\
  (forall (df2 : DataFrame) (qd : Timestamp) (id : option Z) (r : list cell),
      forallb exact_amount r = true ->
      let x := RcAssets.compute_out_row df2 qd id r in
      (RcAssets.assetcheck_ok x = true <->
       exists c t, RcAssets.assetcheck x = Some c /\
                   RcAssets.assets x = Some t /\ (c == t)%Q) /\
      (RcAssets.assets x = None -> RcAssets.assetcheck_ok x = false)) /\
  (forall c t,
      (cell_leb (cell_abs (cell_sub c t)) (Some 1%Q) = true ->
       c <> None /\ t <> None) /\
      (RcAssets.check_ok c t = true -> c <> None /\ t <> None)) /\
  map (fun x => (FullPanel.assetcheck x, FullPanel.pass_flag x))
      (FullPanel.standardized_rows (million_filing (2000001 # 2))
                                   (mkTimestamp 2000 12 31))
    = [(Some (1000000 # 1)%Q, true)] /\
  map (fun x => (FullPanel.assetcheck x, FullPanel.pass_flag x))
      (FullPanel.standardized_rows (million_filing 1000005)
                                   (mkTimestamp 2000 12 31))
    = [(Some (1000000 # 1)%Q, false)] /\
  map (fun total =>
         map (fun x => (RcAssets.assetcheck x, RcAssets.assetcheck_ok x))
             (quarter_rows (rc_root (million_rc_filing total))
                           (mkTimestamp 2001 3 31)))
      [(2000001 # 2)%Q; 1000005%Q; 1000000%Q]
    = [ [(Some (1000000 # 1)%Q, false)];
        [(Some (1000000 # 1)%Q, false)];
        [(Some (1000000 # 1)%Q, true)] ].
Proof.
  split; [|split; [|split; [|split; [|split]]]].
  - intros df d r _ x. subst x. split.
    + apply tolerance_check.
    + intros Ha.
      destruct (FullPanel.pass_flag (FullPanel.compute_row df d r)) eqn:E;
        [|reflexivity].
      destruct (proj1 (tolerance_check
                         (FullPanel.assetcheck (FullPanel.compute_row df d r))
                         (FullPanel.assets (FullPanel.compute_row df d r)) 1)
                      E) as (c & t & _ & Ht & _).
      congruence.
  - intros df2 qd id r _ x. subst x. split.
    + apply strict_check.
    + intros Ha.
      destruct (RcAssets.assetcheck_ok (RcAssets.compute_out_row df2 qd id r))
        eqn:E; [|reflexivity].
      destruct (proj1 (strict_check
                         (RcAssets.assetcheck (RcAssets.compute_out_row df2 qd id r))
                         (RcAssets.assets (RcAssets.compute_out_row df2 qd id r)))
                      E) as (c & t & _ & Ht & _).
      congruence.
  - intros c t. split; intros H.
    + apply tolerance_check in H.
      destruct H as (x & y & -> & -> & _). split; discriminate.
    + apply strict_check in H.
      destruct H as (x & y & -> & -> & _). split; discriminate.
  - vm_compute. reflexivity.
  - vm_compute. reflexivity.
  - vm_compute. reflexivity.
Qed.

(** The filing with total 1,000,000.50 is made of whole and half units, and
    it passes the check of build_full_panel.py. *)
Lemma C3_pass_flag_witness :
  let r := [Some 37%Q; Some 150000%Q; Some 800000%Q; Some 50000%Q;
            Some (2000001 # 2)%Q] in
  let x := FullPanel.compute_row (million_filing (2000001 # 2))
             (mkTimestamp 2000 12 31) r in
  forallb exact_amount r = true /\
  exists c t, FullPanel.assetcheck x = Some c /\
              FullPanel.assets x = Some t /\ (Qabs (c - t) <= 1)%Q.
Proof.
  split; [reflexivity|].
  apply (proj1 (proj1 (proj1 C3_pass_flag (million_filing (2000001 # 2))
                         (mkTimestamp 2000 12 31)
                         [Some 37%Q; Some 150000%Q; Some 800000%Q;
                          Some 50000%Q; Some (2000001 # 2)%Q]
                         eq_refl))).
  vm_compute. reflexivity.
Defined.

(** ** The item 9 slot *)

(** C4, counterexample: for the quarter 2006-03-31, inside the undefined
    window, build_full_panel.py gives item 9 the value 0. *)
Lemma C4_item9_is_zero_in_full_panel :
  RcAssets.between (mkTimestamp 2006 3 31) 2006 3 31 2009 3 31 = true /\
  map FullPanel.item9
      (FullPanel.standardized_rows total_only_filing (mkTimestamp 2006 3 31))
    = [Some 0%Q] /\
  Some 0%Q <> (None : cell).
Proof.
  split; [reflexivity|]. split; [vm_compute; reflexivity | discriminate].
Qed.

(** C4, amended: for every reporting date from 2006-03-31 to 2009-03-31 and
    every row, item 9 is "no value" in build_rc_assets_panel.py and is 0 in
    build_full_panel.py. *)
Theorem C4_item9_gap (d : Timestamp) :
  RcAssets.between d 2006 3 31 2009 3 31 = true ->
  (forall (df2 : DataFrame) (id : option Z) (r : list cell),
      RcAssets.item9 (RcAssets.compute_out_row df2 d id r) = None) /\
  (forall (df : DataFrame) (r : list cell),
      FullPanel.item9 (FullPanel.compute_row df d r) = Some 0%Q).
Proof.
  intros Hd. destruct (gap_after_acceptances d Hd) as [H1 H2]. split.
  - intros df2 id r. rc_fields. unfold RcAssets.compute_item9.
    rewrite H1, Hd. reflexivity.
  - intros df r. full_fields. unfold FullPanel.compute_item9.
    rewrite H2. unfold RcAssets.between in Hd. rewrite Hd. reflexivity.
Qed.

(** The quarter 2007-12-31 lies in the window. *)
Lemma C4_item9_gap_witness :
  (forall (df2 : DataFrame) (id : option Z) (r : list cell),
      RcAssets.item9 (RcAssets.compute_out_row df2 (mkTimestamp 2007 12 31) id r)
      = None) /\
  (forall (df : DataFrame) (r : list cell),
      FullPanel.item9 (FullPanel.compute_row df (mkTimestamp 2007 12 31) r)
      = Some 0%Q).
Proof. apply (C4_item9_gap (mkTimestamp 2007 12 31)). reflexivity. Defined.

(** ** The stored assetcheck *)

(** C5, counterexample: a row of build_rc_assets_panel.py that reports only
    total assets (10) stores assetcheck 0, while its twelve category columns
    add up to 10. *)
Lemma C5_twelve_columns_differ :
  match RcAssets.compute_items_for_quarter total_only_filing
          (mkTimestamp 2001 3 31) with
  | Ok ([x], _) =>
      RcAssets.assetcheck x = Some 0%Q /\
      sum_skipna (twelve_categories x) = Some (0 + 10)%Q /\
      ~ cell_equiv (RcAssets.assetcheck x) (sum_skipna (twelve_categories x))
  | _ => False
  end.
Proof.
  vm_compute. repeat split. intros H. discriminate H.
Qed.

(** C5, amended: the stored assetcheck of a row equals the sum of its eleven
    component category columns (all standardized categories but total
    assets), a "no value" entry contributing 0; recomputing that sum from the
    stored columns reproduces assetcheck, in both scripts. *)
Theorem C5_assetcheck_recomputed :
  (forall (df2 : DataFrame) (qd : Timestamp) (id : option Z) (r : list cell),
      let x := RcAssets.compute_out_row df2 qd id r in
      RcAssets.assetcheck x = sum_skipna (RcAssets.components x)) /\
  (forall (df : DataFrame) (d : Timestamp) (r : list cell),
      let x := FullPanel.compute_row df d r in
      cell_equiv (FullPanel.assetcheck x) (sum_skipna (full_components x))).
Proof.
  split.
  - intros df2 qd id r x. reflexivity.
  - intros df d r x. subst x.
    pose proof (full_components_present df d r) as H.
    full_fields.
    repeat match goal with
           | H : Forall _ (_ :: _) |- _ =>
               let q := fresh "q" in let E := fresh "E" in
               let H' := fresh "H" in
               apply Forall_cons_iff in H; destruct H as [[q E] H'];
               rewrite E
           end.
    simpl. ring.
Qed.

(** ** Orders on dates and on names *)

Lemma ts_compare_refl (a : Timestamp) : ts_compare a a = Eq.
Proof. unfold ts_compare. now rewrite !Z.compare_refl. Qed.

Lemma ts_leb_refl (a : Timestamp) : ts_leb a a = true.
Proof. unfold ts_leb. now rewrite ts_compare_refl. Qed.

Lemma ts_eqb_eq (a b : Timestamp) : ts_eqb a b = true <-> a = b.
Proof.
  split.
  - destruct a as [y m d], b as [y' m' d']. intros H.
    assert (y = y' /\ m = m' /\ d = d') as (-> & -> & ->) by ts_cases.
    reflexivity.
  - intros ->. unfold ts_eqb. now rewrite ts_compare_refl.
Qed.

Lemma ts_ltb_leb (a b : Timestamp) : ts_ltb a b = true -> ts_leb a b = true.
Proof. unfold ts_ltb, ts_leb. destruct (ts_compare a b); congruence. Qed.

Lemma ts_ltb_irrefl (a : Timestamp) : ts_ltb a a = false.
Proof. unfold ts_ltb. now rewrite ts_compare_refl. Qed.

Lemma quarter_end_of_lt (k k' : Z) :
  k < k' -> ts_ltb (RcAssets.quarter_end_of k) (RcAssets.quarter_end_of k') = true.
Proof.
  intros H. unfold RcAssets.quarter_end_of, ts_ltb, ts_compare.
  cbn [year month day].
  destruct (Z.compare_spec (k / 4) (k' / 4)) as [E|E|E];
    [| reflexivity | exfalso; Z.div_mod_to_equations; lia].
  destruct (Z.compare_spec (3 * (k mod 4) + 3) (3 * (k' mod 4) + 3)) as [F|F|F];
    [exfalso | reflexivity | exfalso]; Z.div_mod_to_equations; lia.
Qed.

Lemma quarter_ends_from_sorted (first : Z) (n s : nat) :
  StronglySorted (fun a b => ts_ltb a b = true)
    (map (fun i => RcAssets.quarter_end_of (first + Z.of_nat i)) (seq s n)).
Proof.
  revert s. induction n as [|n IH]; intros s; simpl; constructor.
  - apply IH.
  - apply Forall_forall. intros d Hd. apply in_map_iff in Hd.
    destruct Hd as (i & <- & Hi). apply in_seq in Hi.
    apply quarter_end_of_lt. lia.
Qed.

(** The quarter dates of a run are strictly ascending. *)
Lemma quarter_ends_sorted (start end_ : Timestamp) :
  StronglySorted (fun a b => ts_ltb a b = true)
                 (RcAssets.quarter_ends start end_).
Proof. unfold RcAssets.quarter_ends. apply quarter_ends_from_sorted. Qed.

Lemma strictly_sorted_NoDup (l : list Timestamp) :
  StronglySorted (fun a b => ts_ltb a b = true) l -> NoDup l.
Proof.
  induction 1 as [|a l Hs IH Ha]; constructor; [|exact IH].
  intros Hin. rewrite Forall_forall in Ha. specialize (Ha a Hin).
  now rewrite ts_ltb_irrefl in Ha.
Qed.

Lemma ascii_compare_eq (a b : ascii) : Ascii.compare a b = Eq -> a = b.
Proof.
  unfold Ascii.compare. intros H. apply N.compare_eq in H.
  rewrite <- (ascii_N_embedding a), <- (ascii_N_embedding b). now rewrite H.
Qed.

Lemma ascii_compare_lt_trans (a b c : ascii) :
  Ascii.compare a b = Lt -> Ascii.compare b c = Lt -> Ascii.compare a c = Lt.
Proof.
  unfold Ascii.compare. rewrite !N.compare_lt_iff. apply N.lt_trans.
Qed.

Lemma string_compare_trans (s1 : string) :
  forall s2 s3 c,
    String.compare s1 s2 <> Gt -> String.compare s2 s3 <> Gt ->
    String.compare s1 s3 = c -> c <> Gt.
Proof.
  induction s1 as [|a1 s1 IH]; intros [|a2 s2] [|a3 s3] c; simpl;
    try congruence.
  destruct (Ascii.compare a1 a2) eqn:E12; try congruence;
    destruct (Ascii.compare a2 a3) eqn:E23; try congruence.
  - apply ascii_compare_eq in E12. apply ascii_compare_eq in E23. subst.
    assert (Ascii.compare a3 a3 = Eq) as ->
        by (unfold Ascii.compare; apply N.compare_refl).
    apply IH.
  - apply ascii_compare_eq in E12. subst. rewrite E23. congruence.
  - apply ascii_compare_eq in E23. subst. rewrite E12. congruence.
  - rewrite (ascii_compare_lt_trans _ _ _ E12 E23). congruence.
Qed.

Lemma string_leb_trans (s1 s2 s3 : string) :
  String.leb s1 s2 = true -> String.leb s2 s3 = true -> String.leb s1 s3 = true.
Proof.
  unfold String.leb. intros H12 H23.
  assert (String.compare s1 s3 <> Gt) as H.
  { apply (string_compare_trans s1 s2 s3); [| |reflexivity].
    - destruct (String.compare s1 s2); congruence.
    - destruct (String.compare s2 s3); congruence. }
  destruct (String.compare s1 s3); congruence.
Qed.

Lemma string_leb_refl (s : string) : String.leb s s = true.
Proof. destruct (String.leb_total s s); assumption. Qed.

(** [sorted] returns its argument in ascending order. *)
Lemma sorted_ascending (l : list string) :
  StronglySorted (fun a b => String.leb a b = true) (sorted l).
Proof.
  unfold sorted.
  assert (T : Relations_1.Transitive (fun a b => is_true (StringOrder.leb a b))).
  { intros a b c. apply string_leb_trans. }
  exact (StringSort.StronglySorted_sort l T).
Qed.

Lemma sorted_set_NoDup (l : list string) : NoDup (sorted_set l).
Proof.
  unfold sorted_set, sorted.
  apply (Permutation_NoDup (StringSort.Permuted_sort _)).
  apply NoDup_nodup.
Qed.

Lemma sorted_set_In (l : list string) (c : string) :
  In c (sorted_set l) <-> In c l.
Proof.
  unfold sorted_set, sorted. split; intros H.
  - apply (nodup_In string_dec).
    eapply Permutation_in; [apply Permutation_sym, StringSort.Permuted_sort|].
    exact H.
  - eapply Permutation_in; [apply StringSort.Permuted_sort|].
    apply nodup_In. exact H.
Qed.

(** ** Sorted concatenations *)

Section SortedConcat.

Context {A B : Type} (R : A -> A -> Prop) (key : B -> A) (f : A -> list B).
Hypothesis R_refl : forall a, R a a.
Hypothesis key_f : forall q x, In x (f q) -> key x = q.

Lemma StronglySorted_app (S : B -> B -> Prop) (l1 l2 : list B) :
  StronglySorted S l1 -> StronglySorted S l2 ->
  (forall x y, In x l1 -> In y l2 -> S x y) ->
  StronglySorted S (l1 ++ l2).
Proof.
  induction l1 as [|x l1 IH]; simpl; intros H1 H2 H12; [exact H2|].
  apply StronglySorted_inv in H1. destruct H1 as [H1 Hx]. constructor.
  - apply IH; auto.
  - apply Forall_app. split; [exact Hx|].
    apply Forall_forall. intros y Hy. apply H12; auto.
Qed.

Lemma StronglySorted_clique (S : B -> B -> Prop) (l : list B) :
  (forall x y, In x l -> In y l -> S x y) -> StronglySorted S l.
Proof.
  induction l as [|x l IH]; intros H; constructor.
  - apply IH. intros; apply H; simpl; auto.
  - apply Forall_forall. intros y Hy. apply H; simpl; auto.
Qed.

Lemma flat_map_sorted (qs : list A) :
  StronglySorted R qs ->
  StronglySorted (fun x y => R (key x) (key y)) (flat_map f qs).
Proof.
  induction 1 as [|q qs Hs IH Hq]; simpl; [constructor|].
  apply StronglySorted_app.
  - apply StronglySorted_clique. intros x y Hx Hy.
    rewrite (key_f q x Hx), (key_f q y Hy). apply R_refl.
  - exact IH.
  - intros x y Hx Hy. apply in_flat_map in Hy. destruct Hy as (q' & Hq' & Hy).
    rewrite (key_f q x Hx), (key_f q' y Hy).
    rewrite Forall_forall in Hq. auto.
Qed.

End SortedConcat.

Lemma StronglySorted_weaken {A : Type} (R S : A -> A -> Prop) (l : list A) :
  (forall a b, R a b -> S a b) -> StronglySorted R l -> StronglySorted S l.
Proof.
  intros HRS. induction 1 as [|a l Hs IH Ha]; constructor; [exact IH|].
  eapply Forall_impl; [|exact Ha]. intros b. apply HRS.
Qed.

(** ** The run of build_rc_assets_panel.py *)

Lemma quarter_step_outcome (fs : RcAssets.FileSystem) (qd : Timestamp)
    (st : RcAssets.RunState) :
  RcAssets.quarter_step fs qd st
  = Ok (match quarter_outcome fs qd with
        | Skipped status => RcAssets.skipped st qd status
        | Completed rcfile df_out missing_cols =>
            RcAssets.completed st qd rcfile df_out missing_cols
        end).
Proof.
  unfold RcAssets.quarter_step, quarter_outcome.
  destruct (negb (RcAssets.isdir fs (RcAssets.qdir_from_date qd)));
    [reflexivity|].
  destruct (RcAssets.find_schedule_rc_file fs (RcAssets.qdir_from_date qd))
    as [rcfile|]; [|reflexivity].
  destruct (RcAssets.read_schedule_rc fs (RcAssets.qdir_from_date qd) rcfile)
    as [df_raw|e]; [|reflexivity].
  destruct (RcAssets.compute_items_for_quarter df_raw qd) as [[df_out m]|e];
    reflexivity.
Qed.

Lemma run_quarters_spec (fs : RcAssets.FileSystem) (qs : list Timestamp) :
  forall st,
    RcAssets.run_quarters fs qs st
    = Ok (RcAssets.mkRunState
            (RcAssets.panel_parts st ++ flat_map (quarter_frames fs) qs)
            (RcAssets.summary_rows st ++ map (quarter_summary fs) qs)
            (RcAssets.missing_rows st ++ flat_map (quarter_missing fs) qs)).
Proof.
  induction qs as [|qd qs IH]; intros st;
    cbn [RcAssets.run_quarters flat_map map].
  - rewrite !app_nil_r. destruct st; reflexivity.
  - rewrite quarter_step_outcome, IH.
    unfold quarter_frames, quarter_summary, quarter_missing.
    destruct (quarter_outcome fs qd) as [status|rcfile df_out m];
      unfold RcAssets.skipped, RcAssets.completed;
      cbn [RcAssets.panel_parts RcAssets.summary_rows RcAssets.missing_rows app];
      rewrite <- ?app_assoc, ?app_nil_r; reflexivity.
Qed.

Lemma concat_quarter_frames (fs : RcAssets.FileSystem) (qs : list Timestamp) :
  List.concat (flat_map (quarter_frames fs) qs) = flat_map (quarter_rows fs) qs.
Proof.
  induction qs as [|qd qs IH]; cbn [flat_map]; [reflexivity|].
  rewrite concat_app, IH. unfold quarter_frames, quarter_rows.
  destruct (quarter_outcome fs qd); cbn [List.concat app];
    rewrite ?app_nil_r; reflexivity.
Qed.

(** What [main] writes: each quarter date of the range adds its own rows. *)
Lemma main_spec (fs : RcAssets.FileSystem) (start end_ : Timestamp) :
  RcAssets.main fs start end_
  = Ok (flat_map (quarter_rows fs) (RcAssets.quarter_ends start end_),
        map (quarter_summary fs) (RcAssets.quarter_ends start end_),
        flat_map (quarter_missing fs) (RcAssets.quarter_ends start end_)).
Proof.
  unfold RcAssets.main. rewrite run_quarters_spec.
  cbn [RcAssets.panel_parts RcAssets.summary_rows RcAssets.missing_rows app].
  now rewrite concat_quarter_frames.
Qed.

Lemma Ok_pair_inj {A B : Type} (a a' : A) (b b' : B) :
  Ok (a, b) = Ok (a', b') -> a = a' /\ b = b'.
Proof. intros H. injection H. auto. Qed.

(** Every row of a computed quarter comes from [compute_out_row] at that
    quarter's date. *)
Lemma compute_items_rows (df_raw : DataFrame) (qd : Timestamp)
    (df_out : list RcAssets.OutRow) (missing_cols : list string) :
  RcAssets.compute_items_for_quarter df_raw qd = Ok (df_out, missing_cols) ->
  Forall (fun x => exists df2 id r, x = RcAssets.compute_out_row df2 qd id r)
         df_out.
Proof.
  unfold RcAssets.compute_items_for_quarter.
  destruct (negb _); [discriminate|].
  destruct (RcAssets.repeated_label _); [discriminate|].
  destruct (RcAssets.astype_Int64 _) as [ids|e]; [|discriminate].
  intros H. apply Ok_pair_inj in H. destruct H as [<- _].
  apply Forall_forall. intros x Hx.
  apply in_map_iff in Hx. destruct Hx as ([id r] & <- & _). eauto.
Qed.

Lemma quarter_rows_computed (fs : RcAssets.FileSystem) (qd : Timestamp) :
  Forall (fun x => exists df2 id r, x = RcAssets.compute_out_row df2 qd id r)
         (quarter_rows fs qd).
Proof.
  unfold quarter_rows, quarter_outcome.
  destruct (negb _); [constructor|].
  destruct (RcAssets.find_schedule_rc_file _ _) as [rcfile|]; [|constructor].
  destruct (RcAssets.read_schedule_rc _ _ _) as [df_raw|e]; [|constructor].
  destruct (RcAssets.compute_items_for_quarter df_raw qd) as [[df_out m]|e] eqn:E;
    [|constructor].
  eapply compute_items_rows; eauto.
Qed.

Lemma quarter_rows_qdate (fs : RcAssets.FileSystem) (qd : Timestamp)
    (x : RcAssets.OutRow) :
  In x (quarter_rows fs qd) -> RcAssets.qdate x = qd.
Proof.
  intros Hx. pose proof (quarter_rows_computed fs qd) as H.
  rewrite Forall_forall in H. destruct (H x Hx) as (df2 & id & r & ->).
  reflexivity.
Qed.

(** Every row of the panel comes from [compute_out_row]. *)
Lemma panel_rows_computed (fs : RcAssets.FileSystem) (start end_ : Timestamp)
    panel summary missing :
  RcAssets.main fs start end_ = Ok (panel, summary, missing) ->
  Forall (fun x => exists df2 qd id r, x = RcAssets.compute_out_row df2 qd id r)
         panel.
Proof.
  rewrite main_spec. intros H.
  assert (panel = flat_map (quarter_rows fs) (RcAssets.quarter_ends start end_))
    as -> by congruence.
  apply Forall_forall. intros x Hx. apply in_flat_map in Hx.
  destruct Hx as (qd & _ & Hx). pose proof (quarter_rows_computed fs qd) as Hq.
  rewrite Forall_forall in Hq. destruct (Hq x Hx) as (df2 & id & r & ->). eauto.
Qed.

(** ** The run of build_full_panel.py *)

Lemma full_run_spec (fs : FullPanel.FileSystem) (qs : list string) :
  forall frames summary frames' summary',
    FullPanel.run_quarters fs qs frames summary = Ok (frames', summary') ->
    List.concat frames'
    = (List.concat frames ++ flat_map (full_quarter_rows fs) qs)%list.
Proof.
  induction qs as [|q qs IH]; intros frames summary frames' summary';
    cbn [FullPanel.run_quarters flat_map].
  - intros H. apply Ok_pair_inj in H. destruct H as [<- _].
    now rewrite app_nil_r.
  - unfold full_quarter_rows at 1.
    destruct (FullPanel.process_quarter fs q) as [[[|x dfq]|]|e];
      try discriminate; intros H; apply IH in H; rewrite H;
      rewrite ?concat_app; cbn [List.concat app];
      rewrite ?app_nil_r, <- ?app_assoc; reflexivity.
Qed.

Lemma full_main_spec (fs : FullPanel.FileSystem) panel summary :
  FullPanel.main fs = FullPanel.Finished (panel, summary) ->
  panel = flat_map (full_quarter_rows fs) (sorted (FullPanel.subdirs fs)).
Proof.
  unfold FullPanel.main.
  destruct (FullPanel.run_quarters fs (sorted (FullPanel.subdirs fs)) [] [])
    as [[frames summary_rows]|e] eqn:E; [|discriminate].
  apply full_run_spec in E. cbn [List.concat app] in E.
  destruct frames as [|f frames]; [discriminate|].
  intros H. injection H as <- _. exact E.
Qed.

Lemma full_quarter_rows_inv (fs : FullPanel.FileSystem) (q : string)
    (x : FullPanel.PanelRow) :
  In x (full_quarter_rows fs q) ->
  exists df d r,
    x = FullPanel.out_row q (FullPanel.compute_row df d r) /\
    notna (FullPanel.prefer_rcfd df "RCFD2170" "RCON2170" r) = true.
Proof.
  unfold full_quarter_rows, FullPanel.process_quarter.
  destruct (FullPanel.find_rc_file fs q) as [f|]; [|intros []].
  destruct (FullPanel.parse_date_from_filename f) as [d|]; [|intros []].
  destruct (FullPanel.read_csv fs q f) as [df0|e]; [|intros []].
  destruct (negb _); [intros []|].
  intros Hx. apply in_map_iff in Hx. destruct Hx as (y & <- & Hy).
  unfold FullPanel.standardized_rows in Hy.
  apply in_map_iff in Hy. destruct Hy as (r & <- & Hr).
  apply filter_In in Hr. destruct Hr as [_ Hr]. eauto.
Qed.

Lemma full_quarter_rows_quarter (fs : FullPanel.FileSystem) (q : string)
    (x : FullPanel.PanelRow) :
  In x (full_quarter_rows fs q) -> FullPanel.p_quarter x = q.
Proof.
  intros Hx. destruct (full_quarter_rows_inv fs q x Hx) as (df & d & r & -> & _).
  reflexivity.
Qed.

Lemma full_quarter_rows_total (fs : FullPanel.FileSystem) (q : string)
    (x : FullPanel.PanelRow) :
  In x (full_quarter_rows fs q) -> FullPanel.p_assets x <> None.
Proof.
  intros Hx. destruct (full_quarter_rows_inv fs q x Hx) as (df & d & r & -> & H).
  unfold FullPanel.out_row. cbn [FullPanel.p_assets]. full_fields.
  destruct (FullPanel.prefer_rcfd df "RCFD2170" "RCON2170" r);
    [discriminate|discriminate H].
Qed.

(** ** Failing quarters *)

(** C6, counterexample: in build_full_panel.py an exception of [pd.read_csv]
    on the file of the first quarter ends the run, although the second
    quarter is readable; and a quarter whose file has no IDRSSD column leaves
    no record in the summary. *)
Lemma C6_full_panel_aborts_on_parse_error :
  FullPanel.main
    (full_root ["033101"; "063001"] rc_file_name
       (fun q => if String.eqb q "033101" then Raise ParserError
                 else Ok small_filing))
  = FullPanel.Uncaught ParserError /\
  match FullPanel.main
          (full_root ["033101"; "063001"] rc_file_name
             (fun q => if String.eqb q "033101" then Ok anonymous_filing
                       else Ok small_filing))
  with
  | FullPanel.Finished (panel, summary) =>
      map FullPanel.s_quarter summary = ["063001"] /\
      map FullPanel.p_quarter panel = ["063001"; "063001"]
  | _ => False
  end.
Proof. split; vm_compute; [reflexivity | split; reflexivity]. Qed.

(** C6, amended: in build_rc_assets_panel.py a quarter whose directory or
    file cannot be located, whose file cannot be parsed, or whose table has
    no institution-id column adds no row to the panel and one row to the
    summary, with zero banks and a status flag ("no_quarter_dir",
    "no_schedule_rc", "parse_error", "compute_error"); the loop goes on with
    the next quarter and the run never ends with an exception.  In
    build_full_panel.py a quarter directory without a Schedule RC file,
    without a date in the file name or without an IDRSSD column adds no row
    and no summary record, and the loop goes on with the next directory. *)
Theorem C6_failing_quarters :
  (forall fs start end_, exists out, RcAssets.main fs start end_ = Ok out) /\
  (forall fs qd rest st,
      let qdir := RcAssets.qdir_from_date qd in
      (RcAssets.isdir fs qdir = false ->
       RcAssets.run_quarters fs (qd :: rest) st
       = RcAssets.run_quarters fs rest (RcAssets.skipped st qd "no_quarter_dir")) /\
      (RcAssets.isdir fs qdir = true ->
       RcAssets.find_schedule_rc_file fs qdir = None ->
       RcAssets.run_quarters fs (qd :: rest) st
       = RcAssets.run_quarters fs rest (RcAssets.skipped st qd "no_schedule_rc")) /\
      (forall rcfile e,
          RcAssets.isdir fs qdir = true ->
          RcAssets.find_schedule_rc_file fs qdir = Some rcfile ->
          RcAssets.read_schedule_rc fs qdir rcfile = Raise e ->
          RcAssets.run_quarters fs (qd :: rest) st
          = RcAssets.run_quarters fs rest (RcAssets.skipped st qd "parse_error")) /\
      (forall rcfile df_raw,
          RcAssets.isdir fs qdir = true ->
          RcAssets.find_schedule_rc_file fs qdir = Some rcfile ->
          RcAssets.read_schedule_rc fs qdir rcfile = Ok df_raw ->
          in_columns "idrssd" (columns (RcAssets.normalize_columns df_raw)) = false ->
          RcAssets.run_quarters fs (qd :: rest) st
          = RcAssets.run_quarters fs rest (RcAssets.skipped st qd "compute_error"))) /\
  (forall st qd status,
      RcAssets.panel_parts (RcAssets.skipped st qd status) = RcAssets.panel_parts st /\
      RcAssets.missing_rows (RcAssets.skipped st qd status) = RcAssets.missing_rows st /\
      RcAssets.summary_rows (RcAssets.skipped st qd status)
      = (RcAssets.summary_rows st ++ [RcAssets.skipped_row qd status])%list /\
      RcAssets.s_date (RcAssets.skipped_row qd status) = qd /\
      RcAssets.s_banks (RcAssets.skipped_row qd status) = 0%nat /\
      RcAssets.s_status (RcAssets.skipped_row qd status) = status) /\
  (forall fs qdir,
      (FullPanel.find_rc_file fs qdir = None \/
       (exists f, FullPanel.find_rc_file fs qdir = Some f /\
                  FullPanel.parse_date_from_filename f = None) \/
       (exists f d df, FullPanel.find_rc_file fs qdir = Some f /\
                       FullPanel.parse_date_from_filename f = Some d /\
                       FullPanel.read_csv fs qdir f = Ok df /\
                       in_columns "IDRSSD" (columns (FullPanel.drop_unnamed df))
                       = false)) ->
      FullPanel.process_quarter fs qdir = Ok None /\
      forall rest frames summary,
        FullPanel.run_quarters fs (qdir :: rest) frames summary
        = FullPanel.run_quarters fs rest frames summary).
Proof.
  split; [|split; [|split]].
  - intros fs start end_. rewrite main_spec. eauto.
  - intros fs qd rest st qdir. subst qdir.
    cbn [RcAssets.run_quarters]. unfold RcAssets.quarter_step.
    repeat split.
    + intros ->. reflexivity.
    + intros -> ->. reflexivity.
    + intros rcfile e -> -> ->. reflexivity.
    + intros rcfile df_raw -> -> -> H.
      unfold RcAssets.compute_items_for_quarter. rewrite H. reflexivity.
  - intros st qd status. repeat split.
  - intros fs qdir H.
    assert (E : FullPanel.process_quarter fs qdir = Ok None).
    { unfold FullPanel.process_quarter.
      destruct H as [-> | [(f & -> & ->) | (f & d & df & -> & -> & -> & ->)]];
        reflexivity. }
    split; [exact E|]. intros rest frames summary.
    cbn [FullPanel.run_quarters]. rewrite E. reflexivity.
Qed.

(** The quarter 2001-06-30 of [rc_root], whose file cannot be read, is
    skipped with the status "parse_error". *)
Lemma C6_failing_quarters_witness :
  RcAssets.run_quarters (rc_root small_filing) [mkTimestamp 2001 6 30]
                        (RcAssets.mkRunState [] [] [])
  = RcAssets.run_quarters (rc_root small_filing) []
      (RcAssets.skipped (RcAssets.mkRunState [] [] []) (mkTimestamp 2001 6 30)
                        "parse_error").
Proof.
  apply (proj1 (proj2 (proj2 (proj1 (proj2 C6_failing_quarters)
                                (rc_root small_filing) (mkTimestamp 2001 6 30)
                                [] (RcAssets.mkRunState [] [] []))))
           "FFIEC CDR Call Schedule RC 06302001.txt"
           (RuntimeError
              ("Could not parse " ++ "FFIEC CDR Call Schedule RC 06302001.txt")));
    vm_compute; reflexivity.
Defined.

(** ** Rows without a reported total *)

Lemma astype_Int64_length (l : list cell) (ids : list (option Z)) :
  RcAssets.astype_Int64 l = Ok ids -> List.length ids = List.length l.
Proof.
  revert ids. induction l as [|c l IH]; intros ids; cbn [RcAssets.astype_Int64].
  - intros H. injection H as <-. reflexivity.
  - destruct (RcAssets.to_Int64 c) as [i|e]; [|discriminate].
    destruct (RcAssets.astype_Int64 l) as [ids'|e]; [|discriminate].
    intros H. injection H as <-. cbn [List.length]. now rewrite (IH ids').
Qed.

Lemma ensure_numeric_cols_rows (cols : list string) :
  forall df,
    List.length (rows (RcAssets.ensure_numeric_cols df cols))
    = List.length (rows df).
Proof.
  induction cols as [|c cols IH]; intros df;
    cbn [RcAssets.ensure_numeric_cols]; [reflexivity|].
  rewrite IH. destruct (negb _); cbn [rows]; [apply length_map|reflexivity].
Qed.

Lemma compute_items_length (df_raw : DataFrame) (qd : Timestamp)
    (df_out : list RcAssets.OutRow) (missing_cols : list string) :
  RcAssets.compute_items_for_quarter df_raw qd = Ok (df_out, missing_cols) ->
  List.length df_out = List.length (rows df_raw).
Proof.
  unfold RcAssets.compute_items_for_quarter.
  destruct (negb _); [discriminate|].
  destruct (RcAssets.repeated_label _); [discriminate|].
  destruct (RcAssets.astype_Int64 _) as [ids|e] eqn:E; [|discriminate].
  intros H. apply Ok_pair_inj in H. destruct H as [<- _].
  apply astype_Int64_length in E. rewrite length_map in E.
  rewrite length_map, length_combine, E, Nat.min_id.
  now rewrite ensure_numeric_cols_rows.
Qed.

(** C7, counterexample: the panel of build_rc_assets_panel.py keeps the
    institution that reports no total assets; its row has total assets
    "no value". *)
Lemma C7_rc_assets_keeps_rows_without_total :
  match RcAssets.main (rc_root no_total_filing)
                      (mkTimestamp 2001 3 31) (mkTimestamp 2001 3 31) with
  | Ok (panel, _, _) =>
      map (fun x => (RcAssets.idrssd x, RcAssets.assets x)) panel
      = [(Some 37, None)]
  | Raise _ => False
  end.
Proof. vm_compute. reflexivity. Qed.

(** C7, amended: in build_full_panel.py every institution row whose reported
    total-assets value is "no value" is dropped before the categories are
    computed, so every row of its panel has a present total-assets value;
    build_rc_assets_panel.py drops no row: a computed quarter has as many
    rows as its filing table, with or without a total. *)
Theorem C7_rows_without_total :
  (forall (df : DataFrame) (d : Timestamp),
      FullPanel.standardized_rows df d
      = map (FullPanel.compute_row df d)
            (filter (fun r => notna (FullPanel.prefer_rcfd df "RCFD2170" "RCON2170" r))
                    (rows df)) /\
      Forall (fun x => FullPanel.assets x <> None)
             (FullPanel.standardized_rows df d)) /\
  (forall fs panel summary,
      FullPanel.main fs = FullPanel.Finished (panel, summary) ->
      Forall (fun x => FullPanel.p_assets x <> None) panel) /\
  (forall df_raw qd df_out missing_cols,
      RcAssets.compute_items_for_quarter df_raw qd = Ok (df_out, missing_cols) ->
      List.length df_out = List.length (rows df_raw)).
Proof.
  split; [|split].
  - intros df d. split; [reflexivity|].
    unfold FullPanel.standardized_rows. apply Forall_forall. intros x Hx.
    apply in_map_iff in Hx. destruct Hx as (r & <- & Hr).
    apply filter_In in Hr. destruct Hr as [_ Hr]. full_fields.
    destruct (FullPanel.prefer_rcfd df "RCFD2170" "RCON2170" r);
      [discriminate|discriminate Hr].
  - intros fs panel summary H. apply full_main_spec in H. subst panel.
    apply Forall_forall. intros x Hx. apply in_flat_map in Hx.
    destruct Hx as (q & _ & Hx). eapply full_quarter_rows_total; eauto.
  - apply compute_items_length.
Qed.

(** The panel of build_full_panel.py over two quarters that hold
    [small_filing]. *)
Lemma C7_rows_without_total_witness :
  exists panel summary,
    FullPanel.main (full_root ["123100"; "033101"] rc_file_name
                              (fun _ => Ok small_filing))
    = FullPanel.Finished (panel, summary) /\
    Forall (fun x => FullPanel.p_assets x <> None) panel.
Proof.
  eexists. eexists. split.
  - vm_compute. reflexivity.
  - eapply (proj1 (proj2 C7_rows_without_total)
              (full_root ["123100"; "033101"] rc_file_name
                         (fun _ => Ok small_filing))).
    vm_compute. reflexivity.
Defined.

(** ** The order of the quarters in the panel *)

(** C8, counterexample: with the quarter directories 123100 (file dated
    2000-12-31) and 033101 (file dated 2001-03-31), build_full_panel.py
    visits 033101 first, and the rows of 2001-03-31 precede those of
    2000-12-31 in its panel. *)
Lemma C8_full_panel_orders_by_directory_name :
  match FullPanel.main (full_root ["123100"; "033101"] rc_file_name
                                  (fun _ => Ok small_filing)) with
  | FullPanel.Finished (panel, _) =>
      map FullPanel.p_date panel
      = [mkTimestamp 2001 3 31; mkTimestamp 2001 3 31;
         mkTimestamp 2000 12 31; mkTimestamp 2000 12 31] /\
      ts_ltb (mkTimestamp 2000 12 31) (mkTimestamp 2001 3 31) = true
  | _ => False
  end.
Proof. vm_compute. split; reflexivity. Qed.

(** C8, amended: in the panel of build_rc_assets_panel.py quarters appear in
    ascending reporting-date order: a row never precedes a row of an earlier
    quarter.  In the panel of build_full_panel.py quarters appear in
    ascending order of the names of their directories. *)
Theorem C8_panel_order :
  (forall fs start end_ panel summary missing,
      RcAssets.main fs start end_ = Ok (panel, summary, missing) ->
      StronglySorted
        (fun x y => ts_leb (RcAssets.qdate x) (RcAssets.qdate y) = true) panel) /\
  (forall fs panel summary,
      FullPanel.main fs = FullPanel.Finished (panel, summary) ->
      StronglySorted
        (fun x y => String.leb (FullPanel.p_quarter x) (FullPanel.p_quarter y) = true)
        panel).
Proof.
  split.
  - intros fs start end_ panel summary missing. rewrite main_spec. intros H.
    assert (panel = flat_map (quarter_rows fs) (RcAssets.quarter_ends start end_))
      as -> by congruence.
    apply (flat_map_sorted (fun a b => ts_leb a b = true)).
    + apply ts_leb_refl.
    + apply quarter_rows_qdate.
    + eapply StronglySorted_weaken; [|apply quarter_ends_sorted].
      apply ts_ltb_leb.
  - intros fs panel summary H. apply full_main_spec in H. subst panel.
    apply (flat_map_sorted (fun a b => String.leb a b = true)).
    + apply string_leb_refl.
    + apply full_quarter_rows_quarter.
    + apply sorted_ascending.
Qed.

(** The panel of build_rc_assets_panel.py from 2000-12-31 to 2001-09-30 over
    [rc_root]. *)
Lemma C8_panel_order_witness :
  exists panel summary missing,
    RcAssets.main (rc_root small_filing)
                  (mkTimestamp 2000 12 31) (mkTimestamp 2001 9 30)
    = Ok (panel, summary, missing) /\
    StronglySorted
      (fun x y => ts_leb (RcAssets.qdate x) (RcAssets.qdate y) = true) panel.
Proof.
  do 3 eexists. split.
  - vm_compute. reflexivity.
  - eapply (proj1 C8_panel_order (rc_root small_filing)
              (mkTimestamp 2000 12 31) (mkTimestamp 2001 9 30)).
    vm_compute. reflexivity.
Defined.

(** ** The missing-column log *)

Lemma in_columns_In (c : string) (l : list string) :
  in_columns c l = true <-> In c l.
Proof.
  unfold in_columns. rewrite existsb_exists. split.
  - intros (c' & Hin & E). apply String.eqb_eq in E. now subst.
  - intros H. exists c. split; [exact H|apply String.eqb_refl].
Qed.

Lemma filter_over_flat_map {A B : Type} (p : B -> bool) (f : A -> list B)
    (l : list A) :
  filter p (flat_map f l) = flat_map (fun a => filter p (f a)) l.
Proof.
  induction l as [|a l IH]; cbn [flat_map]; [reflexivity|].
  now rewrite filter_app, IH.
Qed.

Lemma flat_map_all_nil {A B : Type} (g : A -> list B) (l : list A) :
  (forall x, In x l -> g x = []) -> flat_map g l = [].
Proof.
  induction l as [|x l IH]; intros H; cbn [flat_map]; [reflexivity|].
  rewrite (H x) by (now left). rewrite IH; [reflexivity|].
  intros y Hy. apply H. now right.
Qed.

Lemma flat_map_single {A B : Type} (g : A -> list B) (a : A) (l : list A) :
  NoDup l -> In a l -> (forall x, In x l -> x <> a -> g x = []) ->
  flat_map g l = g a.
Proof.
  induction 1 as [|x l Hx Hnd IH]; intros Ha Hg; [destruct Ha|].
  cbn [flat_map]. destruct Ha as [->|Ha].
  - rewrite flat_map_all_nil; [apply app_nil_r|].
    intros y Hy. apply Hg; [now right|]. intros ->. contradiction.
  - rewrite (Hg x); [|now left|intros ->; contradiction].
    apply IH; [exact Ha|]. intros y Hy. apply Hg. now right.
Qed.

Lemma filter_missing_log (qd : Timestamp) (rcfile c : string) (l : list string) :
  NoDup l ->
  filter (fun e => ts_eqb (RcAssets.m_date e) qd
                   && String.eqb (RcAssets.m_missing_col e) c)
         (map (fun c' => RcAssets.mkMissingRow (RcAssets.qdir_from_date qd) qd c' rcfile) l)
  = if in_columns c l
    then [RcAssets.mkMissingRow (RcAssets.qdir_from_date qd) qd c rcfile]
    else [].
Proof.
  assert (Hqd : ts_eqb qd qd = true) by now apply ts_eqb_eq.
  induction 1 as [|c' l Hc' Hnd IH]; [reflexivity|].
  cbn [map filter RcAssets.m_date RcAssets.m_missing_col in_columns existsb].
  rewrite Hqd, IH. cbn [andb]. rewrite (String.eqb_sym c c').
  destruct (String.eqb c' c) eqn:E; cbn [orb]; [|reflexivity].
  apply String.eqb_eq in E. subst c'.
  destruct (in_columns c l) eqn:F; [|reflexivity].
  apply in_columns_In in F. contradiction.
Qed.

Lemma quarter_missing_date (fs : RcAssets.FileSystem) (q : Timestamp)
    (e : RcAssets.MissingRow) :
  In e (quarter_missing fs q) -> RcAssets.m_date e = q.
Proof.
  unfold quarter_missing. destruct (quarter_outcome fs q); [intros []|].
  unfold RcAssets.missing_log. intros H. apply in_map_iff in H.
  destruct H as (c & <- & _). reflexivity.
Qed.

Lemma missing_cols_computed (df_raw : DataFrame) (qd : Timestamp)
    (df_out : list RcAssets.OutRow) (missing_cols : list string) :
  RcAssets.compute_items_for_quarter df_raw qd = Ok (df_out, missing_cols) ->
  missing_cols
  = filter (fun c => negb (in_columns c (columns (RcAssets.normalize_columns df_raw))))
           RcAssets.needed.
Proof.
  unfold RcAssets.compute_items_for_quarter.
  destruct (negb _); [discriminate|].
  destruct (RcAssets.repeated_label _); [discriminate|].
  destruct (RcAssets.astype_Int64 _) as [ids|e]; [|discriminate].
  intros H. apply Ok_pair_inj in H. destruct H as [_ <-]. reflexivity.
Qed.

(** In [small_filing] the column RCON0071 exists and is blank in every row:
    the log of the run has no entry for it. *)
Example blank_column_is_not_logged :
  match RcAssets.main (rc_root small_filing)
                      (mkTimestamp 2001 3 31) (mkTimestamp 2001 3 31) with
  | Ok (_, _, missing) =>
      in_columns "rcon0071" (columns (RcAssets.normalize_columns small_filing))
      = true /\
      map (fun r => get_cell (columns (RcAssets.normalize_columns small_filing))
                             r "rcon0071")
          (rows small_filing) = [None; None] /\
      filter (fun e => String.eqb (RcAssets.m_missing_col e) "rcon0071") missing = []
  | Raise _ => False
  end.
Proof. vm_compute. repeat split. Qed.

(** C9: for every quarter that was processed (directory and file found, file
    read, items computed) the missing-column log holds exactly one entry
    (quarter, identifier, source file) for each declared identifier that is
    not among the columns of the quarter's table, and none for any other
    identifier, so none for a column that exists; the rows play no part: two
    tables with the same columns give the same missing columns, whatever
    their cells. *)
Theorem C9_missing_field_log :
  (forall fs start end_ panel summary missing qd rcfile df_raw df_out
          missing_cols c,
      RcAssets.main fs start end_ = Ok (panel, summary, missing) ->
      In qd (RcAssets.quarter_ends start end_) ->
      RcAssets.isdir fs (RcAssets.qdir_from_date qd) = true ->
      RcAssets.find_schedule_rc_file fs (RcAssets.qdir_from_date qd) = Some rcfile ->
      RcAssets.read_schedule_rc fs (RcAssets.qdir_from_date qd) rcfile = Ok df_raw ->
      RcAssets.compute_items_for_quarter df_raw qd = Ok (df_out, missing_cols) ->
      filter (fun e => ts_eqb (RcAssets.m_date e) qd
                       && String.eqb (RcAssets.m_missing_col e) c)
             missing
      = if in_columns c RcAssets.needed
           && negb (in_columns c (columns (RcAssets.normalize_columns df_raw)))
        then [RcAssets.mkMissingRow (RcAssets.qdir_from_date qd) qd c rcfile]
        else []) /\
  (forall cols rows1 rows2 qd out1 out2 missing1 missing2,
      RcAssets.compute_items_for_quarter (mkDataFrame cols rows1) qd
      = Ok (out1, missing1) ->
      RcAssets.compute_items_for_quarter (mkDataFrame cols rows2) qd
      = Ok (out2, missing2) ->
      missing1 = missing2).
Proof.
  split.
  - intros fs start end_ panel summary missing qd rcfile df_raw df_out
           missing_cols c Hmain Hqd Hdir Hfile Hread Hcomp.
    rewrite main_spec in Hmain.
    assert (missing = flat_map (quarter_missing fs) (RcAssets.quarter_ends start end_))
      as -> by congruence.
    rewrite filter_over_flat_map.
    rewrite (flat_map_single _ qd).
    + assert (Ho : quarter_outcome fs qd = Completed rcfile df_out missing_cols).
      { unfold quarter_outcome. now rewrite Hdir, Hfile, Hread, Hcomp. }
      unfold quarter_missing. rewrite Ho. unfold RcAssets.missing_log.
      rewrite filter_missing_log by apply sorted_set_NoDup.
      replace (in_columns c (sorted_set missing_cols))
        with (in_columns c RcAssets.needed
              && negb (in_columns c (columns (RcAssets.normalize_columns df_raw))));
        [reflexivity|].
      apply eq_true_iff_eq.
      rewrite andb_true_iff, !in_columns_In, sorted_set_In.
      rewrite (missing_cols_computed _ _ _ _ Hcomp), filter_In.
      reflexivity.
    + apply strictly_sorted_NoDup, quarter_ends_sorted.
    + exact Hqd.
    + intros q _ Hne.
      destruct (filter _ (quarter_missing fs q)) as [|e l] eqn:E; [reflexivity|].
      assert (He : In e (e :: l)) by now left.
      rewrite <- E in He. apply filter_In in He. destruct He as [He Hp].
      apply quarter_missing_date in He. rewrite He in Hp.
      apply andb_true_iff in Hp. destruct Hp as [Hp _].
      apply ts_eqb_eq in Hp. contradiction.
  - intros cols rows1 rows2 qd out1 out2 missing1 missing2 H1 H2.
    rewrite (missing_cols_computed _ _ _ _ H1), (missing_cols_computed _ _ _ _ H2).
    reflexivity.
Qed.

(** In the first quarter of 2001 the file of [rc_root] has no column
    RCFD1754: the log holds one entry for it. *)
Lemma C9_missing_field_log_witness :
  exists missing,
    (exists panel summary,
        RcAssets.main (rc_root small_filing)
                      (mkTimestamp 2001 3 31) (mkTimestamp 2001 3 31)
        = Ok (panel, summary, missing)) /\
    filter (fun e => ts_eqb (RcAssets.m_date e) (mkTimestamp 2001 3 31)
                     && String.eqb (RcAssets.m_missing_col e) "rcfd1754")
           missing
    = (if in_columns "rcfd1754" RcAssets.needed
          && negb (in_columns "rcfd1754"
                     (columns (RcAssets.normalize_columns small_filing)))
       then [RcAssets.mkMissingRow
               (RcAssets.qdir_from_date (mkTimestamp 2001 3 31))
               (mkTimestamp 2001 3 31) "rcfd1754"
               "FFIEC CDR Call Schedule RC 03312001.txt"]
       else []) /\
    in_columns "rcfd1754" RcAssets.needed
    && negb (in_columns "rcfd1754"
               (columns (RcAssets.normalize_columns small_filing))) = true.
Proof.
  eexists. split; [|split].
  - do 2 eexists. vm_compute. reflexivity.
  - eapply (proj1 C9_missing_field_log (rc_root small_filing)
              (mkTimestamp 2001 3 31) (mkTimestamp 2001 3 31)
              _ _ _ (mkTimestamp 2001 3 31)
              "FFIEC CDR Call Schedule RC 03312001.txt" small_filing
              _ _ "rcfd1754").
    + vm_compute. reflexivity.
    + vm_compute. left. reflexivity.
    + vm_compute. reflexivity.
    + vm_compute. reflexivity.
    + vm_compute. reflexivity.
    + vm_compute. reflexivity.
  - vm_compute. reflexivity.
Defined.

(** ** The assetcheck of build_rc_assets_panel.py *)

(** C10: in the panel of build_rc_assets_panel.py the assetcheck of every row
    is a defined number; it is exactly 0 when all eleven summed components
    are "no value"; so the rows the pass-flag computation evaluates (both
    sides present) are those with a present reported total, and for them the
    flag is the outcome of the comparison. *)
Theorem C10_assetcheck_defined :
  forall fs start end_ panel summary missing,
    RcAssets.main fs start end_ = Ok (panel, summary, missing) ->
    Forall (fun x =>
              (exists v, RcAssets.assetcheck x = Some v) /\
              (Forall (fun c => c = None) (RcAssets.components x) ->
               RcAssets.assetcheck x = Some 0%Q) /\
              notna (RcAssets.assetcheck x) && notna (RcAssets.assets x)
              = notna (RcAssets.assets x) /\
              (RcAssets.assets x <> None ->
               RcAssets.assetcheck_ok x
               = cell_eqb (RcAssets.assetcheck x) (RcAssets.assets x)))
           panel.
Proof.
  intros fs start end_ panel summary missing H.
  apply panel_rows_computed in H. eapply Forall_impl; [|exact H].
  intros x (df2 & qd & id & r & ->).
  assert (E : RcAssets.assetcheck (RcAssets.compute_out_row df2 qd id r)
              = sum_skipna (RcAssets.components
                              (RcAssets.compute_out_row df2 qd id r)))
    by reflexivity.
  split; [|split; [|split]].
  - rewrite E. unfold sum_skipna. eauto.
  - intros Hall. rewrite E. now apply sum_skipna_all_missing.
  - rewrite E. reflexivity.
  - intros Ha.
    change (RcAssets.assetcheck_ok (RcAssets.compute_out_row df2 qd id r))
      with (RcAssets.check_ok
              (RcAssets.assetcheck (RcAssets.compute_out_row df2 qd id r))
              (RcAssets.assets (RcAssets.compute_out_row df2 qd id r))).
    rewrite E. unfold RcAssets.check_ok, sum_skipna.
    destruct (RcAssets.assets (RcAssets.compute_out_row df2 qd id r));
      [reflexivity|contradiction].
Qed.

(** The panel of [rc_root] over [no_total_filing]: its one row has every
    component missing and assetcheck 0. *)
Lemma C10_assetcheck_defined_witness :
  exists panel,
    (exists summary missing,
        RcAssets.main (rc_root no_total_filing)
                      (mkTimestamp 2001 3 31) (mkTimestamp 2001 6 30)
        = Ok (panel, summary, missing)) /\
    Forall (fun x =>
              (exists v, RcAssets.assetcheck x = Some v) /\
              (Forall (fun c => c = None) (RcAssets.components x) ->
               RcAssets.assetcheck x = Some 0%Q) /\
              notna (RcAssets.assetcheck x) && notna (RcAssets.assets x)
              = notna (RcAssets.assets x) /\
              (RcAssets.assets x <> None ->
               RcAssets.assetcheck_ok x
               = cell_eqb (RcAssets.assetcheck x) (RcAssets.assets x)))
           panel.
Proof.
  eexists. split.
  - do 2 eexists. vm_compute. reflexivity.
  - eapply (C10_assetcheck_defined (rc_root no_total_filing)
              (mkTimestamp 2001 3 31) (mkTimestamp 2001 6 30)).
    vm_compute. reflexivity.
Defined.

(** * Further properties of the two scripts *)

(** ** The resolvers at missing and zero values *)

(** [prefer_rcfd] gives "no value" exactly when the first identifier is
    missing and the second is missing or zero (a lone zero in the second
    column is not taken over), and gives zero exactly when the first
    identifier is zero and the second is missing or zero. *)
Theorem prefer_rcfd_missing_or_zero (df : DataFrame) (a b : string)
    (r : list cell) :
  let va := FullPanel.to_num_series df a r in
  let vb := FullPanel.to_num_series df b r in
  (FullPanel.prefer_rcfd df a b r = None <->
   va = None /\ ~ present_nonzero vb) /\
  ((exists z, FullPanel.prefer_rcfd df a b r = Some z /\ (z == 0)%Q) <->
   (exists x, va = Some x /\ (x == 0)%Q) /\ ~ present_nonzero vb).
Proof.
  intros va vb. subst va vb.
  prefer_cases df a b r x y; split; split;
    try (qeq_case x Ex); try (qeq_case y Ey); intros H;
    repeat match goal with
           | H : _ /\ _ |- _ => destruct H
           | H : exists _, _ |- _ => destruct H
           | H : Some _ = None |- _ => discriminate H
           | H : None = Some _ |- _ => discriminate H
           | H : Some _ = Some _ |- _ => injection H as H; subst
           end;
    try contradiction; try reflexivity;
    try (split; [eauto | tauto]); eauto; tauto.
Qed.

(** [rowwise_max] does not depend on the order of its two identifiers, is one
    of the two values, and is at least every value that is present. *)
Theorem rowwise_max_symmetric_bound (df : DataFrame) (a b : string)
    (r : list cell) :
  let va := get_cell (columns df) r a in
  let vb := get_cell (columns df) r b in
  cell_equiv (RcAssets.rowwise_max df a b r) (RcAssets.rowwise_max df b a r) /\
  (RcAssets.rowwise_max df a b r = va \/ RcAssets.rowwise_max df a b r = vb) /\
  (forall x, va = Some x \/ vb = Some x ->
             exists m, RcAssets.rowwise_max df a b r = Some m /\ (x <= m)%Q).
Proof.
  intros va vb. subst va vb. unfold RcAssets.rowwise_max.
  destruct (get_cell (columns df) r a) as [x|],
           (get_cell (columns df) r b) as [y|]; cbn [max_skipna cell_equiv].
  - destruct (Qle_bool x y) eqn:E, (Qle_bool y x) eqn:F;
      try apply Qle_bool_iff in E; try apply Qle_bool_iff in F;
      cbv beta iota.
    + split; [lra|split; [auto|]].
      intros z [H|H]; injection H as <-; exists y; split; auto; lra.
    + split; [lra|split; [auto|]].
      intros z [H|H]; injection H as <-; exists y; split; auto; lra.
    + split; [lra|split; [auto|]].
      assert (~ (x <= y)%Q) by (intros G; apply Qle_bool_iff in G; congruence).
      intros z [H'|H']; injection H' as <-; exists x; split; auto; lra.
    + exfalso.
      assert (~ (x <= y)%Q) by (intros G; apply Qle_bool_iff in G; congruence).
      assert (~ (y <= x)%Q) by (intros G; apply Qle_bool_iff in G; congruence).
      lra.
  - split; [lra|split; [auto|]].
    intros z [H|H]; [|discriminate H]. injection H as <-. exists x.
    split; [reflexivity|lra].
  - split; [lra|split; [auto|]].
    intros z [H|H]; [discriminate H|]. injection H as <-. exists y.
    split; [reflexivity|lra].
  - split; [exact I|split; [auto|]]. intros z [H|H]; discriminate H.
Qed.

(** On a row with 80 in column A and nothing in column B the maximum is 80. *)
Lemma rowwise_max_symmetric_bound_witness :
  exists m, RcAssets.rowwise_max scenario_pairs "A" "B" [Some 80%Q; None]
            = Some m /\ (80 <= m)%Q.
Proof.
  apply (proj2 (proj2 (rowwise_max_symmetric_bound scenario_pairs "A" "B"
                         [Some 80%Q; None])) 80%Q).
  left. reflexivity.
Defined.

(** ** Every row of the panel of build_full_panel.py is evaluated *)

(** In build_full_panel.py, on a table whose amounts are whole or half units
    (of magnitude at most 2^40, which float64 adds and subtracts exactly),
    every row that survives the dropping has a present total, a present
    assetcheck and a present difference, the difference is assetcheck minus
    total, and the pass flag says whether its absolute value is at most 1: no
    row is left unevaluated. *)
Theorem full_panel_rows_evaluated (df : DataFrame) (d : Timestamp) :
  forallb (forallb exact_amount) (rows df) = true ->
  Forall (fun x =>
            exists t c,
              FullPanel.assets x = Some t /\
              FullPanel.assetcheck x = Some c /\
              FullPanel.asset_diff x = Some (c - t)%Q /\
              (FullPanel.pass_flag x = true <-> (Qabs (c - t) <= 1)%Q))
         (FullPanel.standardized_rows df d).
Proof.
  intros _.
  unfold FullPanel.standardized_rows. apply Forall_forall. intros x Hx.
  apply in_map_iff in Hx. destruct Hx as (r & <- & Hr).
  apply filter_In in Hr. destruct Hr as [_ Hr].
  pose proof (full_components_present df d r) as H.
  full_fields.
  destruct (FullPanel.prefer_rcfd df "RCFD2170" "RCON2170" r) as [t|];
    [|discriminate Hr].
  repeat match goal with
         | H : Forall _ (_ :: _) |- _ =>
             let q := fresh "q" in let E := fresh "E" in
             let H' := fresh "H" in
             apply Forall_cons_iff in H; destruct H as [[q E] H'];
             rewrite E
         end.
  cbn [cell_add cell_sub cell_abs cell_leb].
  eexists. eexists. repeat split.
  - apply Qle_bool_iff.
  - apply Qle_bool_iff.
Qed.

(** The two institutions of [small_filing] report whole amounts; both rows
    are kept and evaluated. *)
Lemma full_panel_rows_evaluated_witness :
  forallb (forallb exact_amount) (rows small_filing) = true /\
  List.length (FullPanel.standardized_rows small_filing (mkTimestamp 2001 3 31))
  = 2%nat /\
  Forall (fun x =>
            exists t c,
              FullPanel.assets x = Some t /\
              FullPanel.assetcheck x = Some c /\
              FullPanel.asset_diff x = Some (c - t)%Q /\
              (FullPanel.pass_flag x = true <-> (Qabs (c - t) <= 1)%Q))
         (FullPanel.standardized_rows small_filing (mkTimestamp 2001 3 31)).
Proof.
  split; [reflexivity|]. split; [reflexivity|].
  apply (full_panel_rows_evaluated small_filing (mkTimestamp 2001 3 31)).
  reflexivity.
Defined.

(** ** The date in a file name *)

Lemma digit_char_code (n : Z) :
  Z.of_nat (nat_of_ascii (digit_char n)) = 48 + n mod 10.
Proof.
  unfold digit_char. pose proof (Z.mod_pos_bound n 10 ltac:(lia)) as H.
  rewrite nat_ascii_embedding by lia. lia.
Qed.

Lemma digit_char_is_digit (n : Z) : is_digit (digit_char n) = true.
Proof.
  unfold is_digit. rewrite digit_char_code.
  pose proof (Z.mod_pos_bound n 10 ltac:(lia)). 
  apply andb_true_iff. split; apply Z.leb_le; lia.
Qed.

Lemma digit_char_val (n : Z) : digit_val (digit_char n) = n mod 10.
Proof. unfold digit_val. rewrite digit_char_code. lia. Qed.

Lemma take_digits_mmddyyyy (y m d : Z) (suffix : string) :
  FullPanel.take_digits 8 (mmddyyyy y m d ++ suffix)
  = Some [ (m / 10) mod 10; m mod 10; (d / 10) mod 10; d mod 10;
           (y / 100 / 10) mod 10; (y / 100) mod 10; (y / 10) mod 10; y mod 10 ].
Proof.
  unfold mmddyyyy, two_digits.
  cbn [String.append FullPanel.take_digits].
  rewrite !digit_char_is_digit. cbn [option_map].
  rewrite !digit_char_val. reflexivity.
Qed.

Lemma search_skips_no_digit (prefix s : string) :
  no_digit prefix = true ->
  FullPanel.search_8_digits (prefix ++ s) = FullPanel.search_8_digits s.
Proof.
  induction prefix as [|a p IH]; intros H; [reflexivity|].
  cbn [no_digit] in H. apply andb_true_iff in H. destruct H as [Ha Hp].
  apply negb_true_iff in Ha.
  cbn [String.append FullPanel.search_8_digits FullPanel.take_digits].
  rewrite Ha. now apply IH.
Qed.

Lemma valid_date_bounds (y m d : Z) :
  valid_date y m d = true -> 1 <= y /\ 1 <= m <= 12 /\ 1 <= d <= 31.
Proof.
  unfold valid_date, days_in_month. intros H.
  repeat (apply andb_true_iff in H; destruct H as [H ?]).
  repeat match goal with
         | H : (_ <=? _) = true |- _ => apply Z.leb_le in H
         end.
  repeat match goal with
         | H : context [if ?c then _ else _] |- _ => destruct c
         end; lia.
Qed.

Lemma in_Timestamp_range_year (t : Timestamp) :
  FullPanel.in_Timestamp_range t = true -> 1677 <= year t <= 2262.
Proof.
  destruct t as [y m d].
  unfold FullPanel.in_Timestamp_range, FullPanel.Timestamp_min_day,
         FullPanel.Timestamp_max_day.
  intros H. apply andb_true_iff in H. destruct H as [H1 H2].
  split; ts_cases.
Qed.

Lemma parse_date_is_valid (fname : string) (t : Timestamp) :
  FullPanel.parse_date_from_filename fname = Some t ->
  valid_date (year t) (month t) (day t) = true /\
  FullPanel.in_Timestamp_range t = true.
Proof.
  unfold FullPanel.parse_date_from_filename.
  destruct (FullPanel.search_8_digits fname)
    as [[|m1 [|m2 [|d1 [|d2 [|y1 [|y2 [|y3 [|y4 [|z l]]]]]]]]]|];
    try discriminate.
  destruct (valid_date _ _ _ && _) eqn:E; [|discriminate].
  intros H. injection H as <-.
  apply andb_true_iff in E. exact E.
Qed.

(** What [parse_date_from_filename] does with a name whose leftmost digits are
    the eight of [mmddyyyy y m d]. *)
Lemma parse_date_of_mmddyyyy (prefix suffix : string) (y m d : Z) :
  no_digit prefix = true ->
  0 <= y <= 9999 -> 0 <= m <= 99 -> 0 <= d <= 99 ->
  FullPanel.parse_date_from_filename (prefix ++ mmddyyyy y m d ++ suffix)
  = if valid_date y m d && FullPanel.in_Timestamp_range (mkTimestamp y m d)
    then Some (mkTimestamp y m d) else None.
Proof.
  intros Hp Hy Hm Hd.
  unfold FullPanel.parse_date_from_filename.
  rewrite search_skips_no_digit by exact Hp.
  replace (FullPanel.search_8_digits (mmddyyyy y m d ++ suffix))
    with (FullPanel.take_digits 8 (mmddyyyy y m d ++ suffix)).
  - rewrite take_digits_mmddyyyy.
    replace (10 * ((m / 10) mod 10) + m mod 10) with m
      by (Z.div_mod_to_equations; lia).
    replace (10 * ((d / 10) mod 10) + d mod 10) with d
      by (Z.div_mod_to_equations; lia).
    replace (1000 * ((y / 100 / 10) mod 10) + 100 * ((y / 100) mod 10)
             + 10 * ((y / 10) mod 10) + y mod 10) with y
      by (Z.div_mod_to_equations; lia).
    reflexivity.
  - rewrite take_digits_mmddyyyy.
    unfold mmddyyyy, two_digits.
    cbn [String.append FullPanel.search_8_digits].
    change (String (digit_char (m / 10))
              (String (digit_char m)
                 (String (digit_char (d / 10))
                    (String (digit_char d)
                       (String (digit_char (y / 100 / 10))
                          (String (digit_char (y / 100))
                             (String (digit_char (y / 10))
                                (String (digit_char y) suffix))))))))
      with (mmddyyyy y m d ++ suffix).
    now rewrite take_digits_mmddyyyy.
Qed.

(** [parse_date_from_filename] only returns calendar dates that a Timestamp
    holds (1677-09-22 to 2262-04-11), and it reads the leftmost run of eight
    digits as MMDDYYYY: a name made of a part without digits, the eight digits
    of a date and anything after gives that date back when it is a calendar
    date within the range of a Timestamp, and gives nothing when it is a
    calendar date outside that range (years 1 to 1676 and 2263 to 9999, and
    the days of 1677 and 2262 beyond the two ends). *)
Theorem parse_date_from_filename_reads_date :
  (forall fname t,
      FullPanel.parse_date_from_filename fname = Some t ->
      valid_date (year t) (month t) (day t) = true /\
      ts_leb (mkTimestamp 1677 9 22) t = true /\
      ts_leb t (mkTimestamp 2262 4 11) = true) /\
  (forall prefix suffix y m d,
      no_digit prefix = true ->
      valid_date y m d = true ->
      ts_leb (mkTimestamp 1677 9 22) (mkTimestamp y m d) = true ->
      ts_leb (mkTimestamp y m d) (mkTimestamp 2262 4 11) = true ->
      FullPanel.parse_date_from_filename (prefix ++ mmddyyyy y m d ++ suffix)
      = Some (mkTimestamp y m d)) /\
  (forall prefix suffix y m d,
      no_digit prefix = true ->
      valid_date y m d = true -> y <= 9999 ->
      ts_leb (mkTimestamp 1677 9 22) (mkTimestamp y m d) = false \/
      ts_leb (mkTimestamp y m d) (mkTimestamp 2262 4 11) = false ->
      FullPanel.parse_date_from_filename (prefix ++ mmddyyyy y m d ++ suffix)
      = None).
Proof.
  split; [|split].
  - intros fname t H. apply parse_date_is_valid in H. destruct H as [E R].
    apply andb_true_iff in R. destruct R as [R1 R2].
    split; [exact E | split; [exact R1 | exact R2]].
  - intros prefix suffix y m d Hp Hv H1 H2.
    pose proof (valid_date_bounds y m d Hv) as (Hy1 & Hm & Hd).
    assert (R : FullPanel.in_Timestamp_range (mkTimestamp y m d) = true).
    { unfold FullPanel.in_Timestamp_range, FullPanel.Timestamp_min_day,
             FullPanel.Timestamp_max_day. now rewrite H1, H2. }
    pose proof (in_Timestamp_range_year _ R) as Hy. cbn [year] in Hy.
    rewrite parse_date_of_mmddyyyy by (try exact Hp; lia).
    now rewrite Hv, R.
  - intros prefix suffix y m d Hp Hv Hy H.
    pose proof (valid_date_bounds y m d Hv) as (Hy1 & Hm & Hd).
    rewrite parse_date_of_mmddyyyy by (try exact Hp; lia).
    unfold FullPanel.in_Timestamp_range, FullPanel.Timestamp_min_day,
           FullPanel.Timestamp_max_day.
    destruct H as [-> | ->]; rewrite ?andb_false_r; cbn [andb];
      rewrite ?andb_false_r; reflexivity.
Qed.

(** The file name of the first quarter of 2001 is read; that of the first
    quarter of 1500 is not. *)
Lemma parse_date_from_filename_reads_date_witness :
  FullPanel.parse_date_from_filename
    ("FFIEC CDR Call Schedule RC " ++ mmddyyyy 2001 3 31 ++ ".txt")
  = Some (mkTimestamp 2001 3 31) /\
  FullPanel.parse_date_from_filename
    ("FFIEC CDR Call Schedule RC " ++ mmddyyyy 1500 3 31 ++ ".txt")
  = None.
Proof.
  split.
  - apply (proj1 (proj2 parse_date_from_filename_reads_date)
             "FFIEC CDR Call Schedule RC " ".txt" 2001 3 31); reflexivity.
  - apply (proj2 (proj2 parse_date_from_filename_reads_date)
             "FFIEC CDR Call Schedule RC " ".txt" 1500 3 31);
      [reflexivity | reflexivity | lia | left; reflexivity].
Defined.

(** ** The Schedule RC file of a quarter *)

Lemma sorted_nil_iff (l : list string) : sorted l = [] <-> l = [].
Proof.
  unfold sorted. split.
  - intros H. apply Permutation_nil.
    rewrite <- H. apply Permutation_sym, StringSort.Permuted_sort.
  - intros ->. reflexivity.
Qed.

Lemma sorted_head_least (l : list string) (f : string) (rest : list string) :
  sorted l = f :: rest ->
  In f l /\ forall g, In g l -> String.leb f g = true.
Proof.
  intros H. pose proof (sorted_ascending l) as Hs. rewrite H in Hs.
  assert (Hp : Permutation l (f :: rest)).
  { rewrite <- H. apply StringSort.Permuted_sort. }
  split.
  - eapply Permutation_in; [apply Permutation_sym, Hp|]. now left.
  - intros g Hg. apply (Permutation_in _ Hp) in Hg.
    destruct Hg as [<-|Hg]; [apply string_leb_refl|].
    apply StronglySorted_inv in Hs. destruct Hs as [_ Hs].
    rewrite Forall_forall in Hs. auto.
Qed.

(** Both scripts find no Schedule RC file exactly when the glob matches
    nothing, and otherwise pick the matching file whose name is the least in
    string order. *)
Theorem schedule_rc_file_is_least_match :
  (forall fs qdir,
      (FullPanel.find_rc_file fs qdir = None <-> FullPanel.glob_rc fs qdir = []) /\
      (forall f, FullPanel.find_rc_file fs qdir = Some f ->
                 In f (FullPanel.glob_rc fs qdir) /\
                 forall g, In g (FullPanel.glob_rc fs qdir) ->
                           String.leb f g = true)) /\
  (forall fs qdir,
      (RcAssets.find_schedule_rc_file fs qdir = None
       <-> RcAssets.glob_schedule_rc fs qdir = []) /\
      (forall f, RcAssets.find_schedule_rc_file fs qdir = Some f ->
                 In f (RcAssets.glob_schedule_rc fs qdir) /\
                 forall g, In g (RcAssets.glob_schedule_rc fs qdir) ->
                           String.leb f g = true)).
Proof.
  split; intros fs qdir.
  - unfold FullPanel.find_rc_file.
    destruct (sorted (FullPanel.glob_rc fs qdir)) as [|f0 rest] eqn:E; split.
    + split; [intros _; now apply sorted_nil_iff | reflexivity].
    + discriminate.
    + split; [discriminate|]. intros H. apply sorted_nil_iff in H. congruence.
    + intros f H. injection H as <-. eapply sorted_head_least; eauto.
  - unfold RcAssets.find_schedule_rc_file.
    destruct (sorted (RcAssets.glob_schedule_rc fs qdir)) as [|f0 rest] eqn:E;
      split.
    + split; [intros _; now apply sorted_nil_iff | reflexivity].
    + discriminate.
    + split; [discriminate|]. intros H. apply sorted_nil_iff in H. congruence.
    + intros f H. injection H as <-. eapply sorted_head_least; eauto.
Qed.

(** A quarter directory with two Schedule RC files: the one dated 03312001
    is chosen. *)
Lemma schedule_rc_file_is_least_match_witness :
  In "FFIEC CDR Call Schedule RC 03312001.txt"
     ["FFIEC CDR Call Schedule RC 06302001.txt";
      "FFIEC CDR Call Schedule RC 03312001.txt"] /\
  forall g, In g ["FFIEC CDR Call Schedule RC 06302001.txt";
                  "FFIEC CDR Call Schedule RC 03312001.txt"] ->
            String.leb "FFIEC CDR Call Schedule RC 03312001.txt" g = true.
Proof.
  apply (proj2 (proj1 schedule_rc_file_is_least_match
                  (FullPanel.mkFileSystem ["033101"]
                     (fun _ => ["FFIEC CDR Call Schedule RC 06302001.txt";
                                "FFIEC CDR Call Schedule RC 03312001.txt"])
                     (fun _ _ => Raise ParserError))
                  "033101")
           "FFIEC CDR Call Schedule RC 03312001.txt").
  vm_compute. reflexivity.
Defined.

(** ** Column labels *)

Lemma lower_ascii_not_upper (a : ascii) : is_upper (RcAssets.lower_ascii a) = false.
Proof.
  unfold RcAssets.lower_ascii, is_upper.
  destruct ((65 <=? nat_of_ascii a)%nat && (nat_of_ascii a <=? 90)%nat) eqn:E.
  - apply andb_true_iff in E. destruct E as [E1 E2].
    apply Nat.leb_le in E1. apply Nat.leb_le in E2.
    rewrite nat_ascii_embedding by lia.
    apply andb_false_iff. right. apply Nat.leb_gt. lia.
  - exact E.
Qed.

(** After [normalize_columns] no label holds an upper-case ASCII letter; the
    number of labels and the rows are unchanged. *)
Theorem normalize_columns_lowercase (df : DataFrame) :
  Forall (fun c => Forall (fun a => is_upper a = false) (list_ascii_of_string c))
         (columns (RcAssets.normalize_columns df)) /\
  List.length (columns (RcAssets.normalize_columns df)) = List.length (columns df) /\
  rows (RcAssets.normalize_columns df) = rows df.
Proof.
  unfold RcAssets.normalize_columns. cbn [columns rows]. split; [|split].
  - apply Forall_forall. intros c Hc. apply in_map_iff in Hc.
    destruct Hc as (c0 & <- & _). unfold RcAssets.normalize_label.
    rewrite list_ascii_of_string_of_list_ascii.
    apply Forall_forall. intros a Ha. apply in_map_iff in Ha.
    destruct Ha as (a0 & <- & _). apply lower_ascii_not_upper.
  - apply length_map.
  - reflexivity.
Qed.

Lemma lstrip_no_space (l : list ascii) :
  Forall (fun a => RcAssets.is_space a = false) l -> RcAssets.lstrip l = l.
Proof.
  destruct l as [|a l]; [reflexivity|]. intros H.
  apply Forall_inv in H. cbn [RcAssets.lstrip]. now rewrite H.
Qed.

Lemma strip_no_space (l : list ascii) :
  Forall (fun a => RcAssets.is_space a = false) l -> RcAssets.strip l = l.
Proof.
  intros H. unfold RcAssets.strip. rewrite (lstrip_no_space l H).
  rewrite lstrip_no_space; [apply rev_involutive|].
  apply Forall_rev. exact H.
Qed.

Lemma unquote_no_quote (l : list ascii) :
  Forall (fun a => a <> RcAssets.quote_char) l -> RcAssets.unquote l = l.
Proof.
  destruct l as [|a rest]; [reflexivity|]. intros H.
  apply Forall_inv in H. cbn [RcAssets.unquote].
  destruct (rev rest) as [|z mid]; [reflexivity|].
  destruct (Ascii.eqb a RcAssets.quote_char) eqn:E; [|reflexivity].
  apply Ascii.eqb_eq in E. contradiction.
Qed.

Lemma normalize_plain (c : string) :
  plain_label c ->
  RcAssets.normalize_label c
  = string_of_list_ascii (map RcAssets.lower_ascii (list_ascii_of_string c)).
Proof.
  intros H. unfold RcAssets.normalize_label.
  rewrite strip_no_space, unquote_no_quote; [reflexivity| |].
  - eapply Forall_impl; [|exact H]. intros a [_ Ha]. exact Ha.
  - eapply Forall_impl; [|exact H]. intros a [Ha _]. exact Ha.
Qed.

Lemma lower_ascii_plain (a : ascii) :
  RcAssets.is_space a = false /\ a <> RcAssets.quote_char ->
  RcAssets.is_space (RcAssets.lower_ascii a) = false /\ RcAssets.lower_ascii a <> RcAssets.quote_char.
Proof.
  intros [Hs Hq]. unfold RcAssets.lower_ascii.
  destruct ((65 <=? nat_of_ascii a)%nat && (nat_of_ascii a <=? 90)%nat) eqn:E;
    [|tauto].
  apply andb_true_iff in E. destruct E as [E1 E2].
  apply Nat.leb_le in E1. apply Nat.leb_le in E2. split.
  - unfold RcAssets.is_space. rewrite nat_ascii_embedding by lia.
    apply orb_false_iff. split; apply andb_false_iff.
    + right. apply Nat.leb_gt. lia.
    + right. apply Nat.leb_gt. lia.
  - intros H. apply (f_equal nat_of_ascii) in H.
    rewrite nat_ascii_embedding in H by lia.
    unfold RcAssets.quote_char in H. rewrite nat_ascii_embedding in H by lia.
    lia.
Qed.

Lemma lower_ascii_idempotent (a : ascii) :
  RcAssets.lower_ascii (RcAssets.lower_ascii a) = RcAssets.lower_ascii a.
Proof.
  pose proof (lower_ascii_not_upper a) as H. unfold is_upper in H.
  unfold RcAssets.lower_ascii at 1. now rewrite H.
Qed.

(** On a label without white space and without double quote,
    [normalize_columns] only lowers the case of the letters: two such labels
    that differ in case alone get the same name, and normalising twice
    changes nothing more. *)
Theorem normalize_label_case_insensitive (c c' : string) :
  plain_label c -> plain_label c' ->
  RcAssets.normalize_label c
  = string_of_list_ascii (map RcAssets.lower_ascii (list_ascii_of_string c)) /\
  (map RcAssets.lower_ascii (list_ascii_of_string c)
   = map RcAssets.lower_ascii (list_ascii_of_string c') ->
   RcAssets.normalize_label c = RcAssets.normalize_label c') /\
  RcAssets.normalize_label (RcAssets.normalize_label c)
  = RcAssets.normalize_label c.
Proof.
  intros H H'. split; [|split].
  - now apply normalize_plain.
  - intros E. rewrite (normalize_plain c H), (normalize_plain c' H').
    now rewrite E.
  - rewrite (normalize_plain c H). rewrite normalize_plain.
    + rewrite list_ascii_of_string_of_list_ascii, map_map.
      f_equal. apply map_ext. apply lower_ascii_idempotent.
    + unfold plain_label. rewrite list_ascii_of_string_of_list_ascii.
      apply Forall_map. eapply Forall_impl; [|exact H].
      intros a. apply lower_ascii_plain.
Qed.

(** The labels IDRSSD and Idrssd get the same name, idrssd. *)
Lemma normalize_label_case_insensitive_witness :
  RcAssets.normalize_label "IDRSSD" = "idrssd" /\
  RcAssets.normalize_label "IDRSSD" = RcAssets.normalize_label "Idrssd".
Proof.
  assert (P : forall s, forallb (fun a => negb (RcAssets.is_space a)
                                          && negb (Ascii.eqb a RcAssets.quote_char))
                                (list_ascii_of_string s) = true ->
                        plain_label s).
  { intros s Hs. unfold plain_label. apply Forall_forall. intros a Ha.
    rewrite forallb_forall in Hs. specialize (Hs a Ha).
    apply andb_true_iff in Hs. destruct Hs as [H1 H2].
    apply negb_true_iff in H1. apply negb_true_iff in H2.
    split; [exact H1|]. intros ->. now rewrite Ascii.eqb_refl in H2. }
  assert (P1 : plain_label "IDRSSD") by (apply P; vm_compute; reflexivity).
  assert (P2 : plain_label "Idrssd") by (apply P; vm_compute; reflexivity).
  pose proof (normalize_label_case_insensitive "IDRSSD" "Idrssd" P1 P2)
    as (H1 & H2 & _).
  split; [exact H1|]. apply H2. reflexivity.
Defined.

(** ** Filling in the missing columns *)

Lemma ensure_numeric_cols_spec (cols : list string) :
  forall df,
    RcAssets.ensure_numeric_cols df cols
    = mkDataFrame
        (columns df ++ added_cols (columns df) cols)
        (map (fun r => r ++ repeat None (List.length (added_cols (columns df) cols)))%list
             (rows df)).
Proof.
  induction cols as [|c cols IH]; intros [have rs];
    cbn [RcAssets.ensure_numeric_cols added_cols columns rows].
  - cbn [List.length repeat]. rewrite app_nil_r. f_equal.
    rewrite <- (map_id rs) at 1. apply map_ext. intros r. now rewrite app_nil_r.
  - destruct (in_columns c have); cbn [negb].
    + rewrite IH. reflexivity.
    + rewrite IH. cbn [columns rows List.length repeat].
      rewrite <- app_assoc. cbn [app]. f_equal.
      rewrite map_map. apply map_ext. intros r.
      rewrite <- app_assoc. reflexivity.
Qed.

Lemma in_added_cols (cols : list string) :
  forall have c, In c cols -> In c (have ++ added_cols have cols).
Proof.
  induction cols as [|c0 cols IH]; intros have c Hc; [destruct Hc|].
  cbn [added_cols]. destruct Hc as [->|Hc].
  - destruct (in_columns c have) eqn:E.
    + apply in_or_app. left. now apply in_columns_In.
    + apply in_or_app. right. now left.
  - destruct (in_columns c0 have) eqn:E; [now apply IH|].
    specialize (IH (have ++ [c0])%list c Hc). rewrite <- app_assoc in IH. exact IH.
Qed.

Lemma added_cols_from (cols : list string) :
  forall have c, In c (added_cols have cols) -> In c cols /\ ~ In c have.
Proof.
  induction cols as [|c0 cols IH]; intros have c Hc; [destruct Hc|].
  cbn [added_cols] in Hc. destruct (in_columns c0 have) eqn:E.
  - destruct (IH have c Hc). split; [now right|assumption].
  - destruct Hc as [<-|Hc].
    + split; [now left|]. intros H. apply in_columns_In in H. congruence.
    + destruct (IH _ c Hc) as [H1 H2]. split; [now right|].
      intros H. apply H2. apply in_or_app. now left.
Qed.

Lemma index_of_app_in (c : string) (l l' : list string) :
  in_columns c l = true -> index_of c (l ++ l') = index_of c l.
Proof.
  induction l as [|c0 l IH]; [discriminate|].
  cbn [in_columns existsb app index_of]. destruct (String.eqb c c0); [reflexivity|].
  cbn [orb]. intros H. now rewrite IH.
Qed.

Lemma index_of_app_notin (c : string) (l l' : list string) :
  in_columns c l = false ->
  index_of c (l ++ l') = option_map (Nat.add (List.length l)) (index_of c l').
Proof.
  induction l as [|c0 l IH]; cbn [in_columns existsb app index_of List.length].
  - intros _. destruct (index_of c l'); reflexivity.
  - destruct (String.eqb c c0); [discriminate|]. cbn [orb]. intros H.
    rewrite (IH H). destruct (index_of c l'); reflexivity.
Qed.

Lemma nth_padded (r : list cell) (k n : nat) :
  nth n (r ++ repeat None k) None = nth n r None.
Proof.
  destruct (Nat.lt_ge_cases n (List.length r)) as [H|H].
  - now apply app_nth1.
  - rewrite app_nth2 by exact H. rewrite nth_repeat.
    symmetry. now apply nth_overflow.
Qed.

(** After [ensure_numeric_cols] every requested column exists, no column has
    been added but requested ones, the frame has the same rows in the same
    order, and every column that was there reads the same cell in every
    row. *)
Theorem ensure_numeric_cols_keeps_columns (df : DataFrame) (cols : list string) :
  let df2 := RcAssets.ensure_numeric_cols df cols in
  (forall c, In c cols -> in_columns c (columns df2) = true) /\
  (forall c, in_columns c (columns df2) = true ->
             in_columns c (columns df) = true \/ In c cols) /\
  List.length (rows df2) = List.length (rows df) /\
  (forall i r, nth_error (rows df) i = Some r ->
     exists r2, nth_error (rows df2) i = Some r2 /\
                forall c, in_columns c (columns df) = true ->
                          get_cell (columns df2) r2 c = get_cell (columns df) r c).
Proof.
  intros df2. subst df2. rewrite ensure_numeric_cols_spec. cbn [columns rows].
  split; [|split; [|split]].
  - intros c Hc. apply in_columns_In. now apply in_added_cols.
  - intros c Hc. apply in_columns_In in Hc. apply in_app_or in Hc.
    destruct Hc as [Hc|Hc].
    + left. now apply in_columns_In.
    + right. now apply (added_cols_from cols (columns df)).
  - apply length_map.
  - intros i r Hr. eexists. split.
    + exact (map_nth_error _ _ _ Hr).
    + intros c Hc. unfold get_cell. rewrite index_of_app_in by exact Hc.
      destruct (index_of c (columns df)); [apply nth_padded|reflexivity].
Qed.

(** The column RCON0081, missing from a table, is there afterwards. *)
Lemma ensure_numeric_cols_keeps_columns_witness :
  in_columns "rcon0081"
    (columns (RcAssets.ensure_numeric_cols
                (RcAssets.normalize_columns no_total_filing) RcAssets.needed))
  = true.
Proof.
  apply (proj1 (ensure_numeric_cols_keeps_columns
                  (RcAssets.normalize_columns no_total_filing) RcAssets.needed)).
  vm_compute. tauto.
Defined.

(** A requested column that was missing reads "no value" in every row that is
    not longer than the header of the table. *)
Theorem ensure_numeric_cols_fills_nan (df : DataFrame) (cols : list string)
    (c : string) (i : nat) (r : list cell) :
  In c cols ->
  in_columns c (columns df) = false ->
  nth_error (rows df) i = Some r ->
  (List.length r <= List.length (columns df))%nat ->
  exists r2,
    nth_error (rows (RcAssets.ensure_numeric_cols df cols)) i = Some r2 /\
    get_cell (columns (RcAssets.ensure_numeric_cols df cols)) r2 c = None.
Proof.
  intros Hc Habs Hr Hlen. rewrite ensure_numeric_cols_spec. cbn [columns rows].
  eexists. split; [exact (map_nth_error _ _ _ Hr)|].
  unfold get_cell. rewrite index_of_app_notin by exact Habs.
  destruct (index_of c (added_cols (columns df) cols)) as [j|];
    cbn [option_map]; [|reflexivity].
  rewrite nth_padded. apply nth_overflow. lia.
Qed.

(** The first row of [no_total_filing] reads "no value" in the added column
    RCFD2170. *)
Lemma ensure_numeric_cols_fills_nan_witness :
  exists r2,
    nth_error (rows (RcAssets.ensure_numeric_cols
                       (RcAssets.normalize_columns no_total_filing)
                       RcAssets.needed)) 0 = Some r2 /\
    get_cell (columns (RcAssets.ensure_numeric_cols
                         (RcAssets.normalize_columns no_total_filing)
                         RcAssets.needed)) r2 "rcfd2170" = None.
Proof.
  apply (ensure_numeric_cols_fills_nan
           (RcAssets.normalize_columns no_total_filing) RcAssets.needed
           "rcfd2170" 0 [Some 37%Q; Some 5%Q]).
  - vm_compute. tauto.
  - reflexivity.
  - reflexivity.
  - vm_compute. lia.
Defined.

(** ** What [compute_items_for_quarter] raises *)

Lemma to_Int64_integral (c : cell) :
  (is_integral c = true -> exists i, RcAssets.to_Int64 c = Ok i) /\
  (is_integral c = false -> exists msg, RcAssets.to_Int64 c = Raise (TypeError msg)).
Proof.
  destruct c as [q|]; cbn [is_integral RcAssets.to_Int64].
  - destruct ((Z.rem (Qnum q) (Z.pos (Qden q)) =? 0) && _); split; intros H;
      try discriminate; eauto.
  - split; intros H; [eauto|discriminate].
Qed.

Lemma astype_Int64_ok (l : list cell) :
  forallb is_integral l = true ->
  exists ids, RcAssets.astype_Int64 l = Ok ids /\
              Forall2 (fun c i => RcAssets.to_Int64 c = Ok i) l ids.
Proof.
  induction l as [|c l IH]; cbn [forallb RcAssets.astype_Int64]; intros H.
  - exists []. split; [reflexivity|constructor].
  - apply andb_true_iff in H. destruct H as [Hc Hl].
    destruct (proj1 (to_Int64_integral c) Hc) as [i Hi].
    destruct (IH Hl) as (ids & E & F). rewrite Hi, E.
    exists (i :: ids). split; [reflexivity|now constructor].
Qed.

Lemma astype_Int64_fail (l : list cell) :
  forallb is_integral l = false ->
  exists msg, RcAssets.astype_Int64 l = Raise (TypeError msg).
Proof.
  induction l as [|c l IH]; cbn [forallb RcAssets.astype_Int64]; intros H;
    [discriminate|].
  destruct (is_integral c) eqn:Hc.
  - destruct (proj1 (to_Int64_integral c) Hc) as [i Hi]. rewrite Hi.
    cbn [andb] in H. destruct (IH H) as [msg ->]. eauto.
  - destruct (proj2 (to_Int64_integral c) Hc) as [msg ->]. eauto.
Qed.

Lemma idrssd_cells_kept (df : DataFrame) (cols : list string) (c : string) :
  in_columns c (columns df) = true ->
  map (fun r => get_cell (columns (RcAssets.ensure_numeric_cols df cols)) r c)
      (rows (RcAssets.ensure_numeric_cols df cols))
  = map (fun r => get_cell (columns df) r c) (rows df).
Proof.
  intros Hc. rewrite ensure_numeric_cols_spec. cbn [columns rows].
  rewrite map_map. apply map_ext. intros r. unfold get_cell.
  rewrite index_of_app_in by exact Hc.
  destruct (index_of c (columns df)); [apply nth_padded|reflexivity].
Qed.

Lemma map_fst_combine {A B : Type} (l : list A) :
  forall (l' : list B), List.length l = List.length l' ->
                        map fst (combine l l') = l.
Proof.
  induction l as [|a l IH]; intros [|b l'] H; try discriminate; [reflexivity|].
  cbn [combine map fst]. f_equal. apply IH. now injection H.
Qed.

(** [compute_items_for_quarter] raises a RuntimeError when the table has no
    institution-id column after normalisation. With that column, it raises a
    TypeError when "idrssd" or a label of [needed] occurs twice among the
    normalised labels, and when the identifier column holds a number that is
    not whole or that 64 bits do not hold (from -2^63 to 2^63 - 1).
    Otherwise it returns one row per row of the table, in the same order,
    each with the identifier of its row cast to an integer (a blank
    identifier stays blank). *)
Theorem compute_items_for_quarter_outcome (df_raw : DataFrame) (qd : Timestamp) :
  let df := RcAssets.normalize_columns df_raw in
  let ids := map (fun r => get_cell (columns df) r "idrssd") (rows df_raw) in
  (in_columns "idrssd" (columns df) = false ->
   exists msg, RcAssets.compute_items_for_quarter df_raw qd
               = Raise (RuntimeError msg)) /\
  (in_columns "idrssd" (columns df) = true ->
   RcAssets.repeated_label (columns df) = true ->
   exists msg, RcAssets.compute_items_for_quarter df_raw qd
               = Raise (TypeError msg)) /\
  (in_columns "idrssd" (columns df) = true ->
   RcAssets.repeated_label (columns df) = false ->
   forallb is_integral ids = false ->
   exists msg, RcAssets.compute_items_for_quarter df_raw qd
               = Raise (TypeError msg)) /\
  (in_columns "idrssd" (columns df) = true ->
   RcAssets.repeated_label (columns df) = false ->
   forallb is_integral ids = true ->
   exists df_out missing_cols,
     RcAssets.compute_items_for_quarter df_raw qd = Ok (df_out, missing_cols) /\
     Forall2 (fun c x => RcAssets.to_Int64 c = Ok (RcAssets.idrssd x)) ids df_out).
Proof.
  intros df ids. unfold RcAssets.compute_items_for_quarter. fold df.
  split; [|split; [|split]].
  - intros ->. cbn [negb]. eauto.
  - intros Hc ->. rewrite Hc. cbn [negb]. eauto.
  - intros Hc -> Hi. rewrite Hc. cbn [negb].
    rewrite (idrssd_cells_kept df RcAssets.needed "idrssd" Hc).
    change (rows df) with (rows df_raw). fold ids.
    destruct (astype_Int64_fail ids Hi) as [msg ->]. eauto.
  - intros Hc -> Hi. rewrite Hc. cbn [negb].
    rewrite (idrssd_cells_kept df RcAssets.needed "idrssd" Hc).
    change (rows df) with (rows df_raw). fold ids.
    destruct (astype_Int64_ok ids Hi) as (ints & -> & F).
    do 2 eexists. split; [reflexivity|].
    assert (L : List.length ints
                = List.length (rows (RcAssets.ensure_numeric_cols df RcAssets.needed))).
    { rewrite ensure_numeric_cols_rows. change (rows df) with (rows df_raw).
      apply Forall2_length in F. unfold ids in F. rewrite length_map in F.
      congruence. }
    assert (E : map RcAssets.idrssd
                    (map (fun ir => RcAssets.compute_out_row
                                      (RcAssets.ensure_numeric_cols df RcAssets.needed)
                                      qd (fst ir) (snd ir))
                         (combine ints
                            (rows (RcAssets.ensure_numeric_cols df RcAssets.needed))))
                = ints).
    { rewrite map_map. rewrite <- (map_fst_combine ints _ L) at 2.
      apply map_ext. intros ir. reflexivity. }
    revert E.
    generalize (map (fun ir => RcAssets.compute_out_row
                                 (RcAssets.ensure_numeric_cols df RcAssets.needed)
                                 qd (fst ir) (snd ir))
                    (combine ints
                       (rows (RcAssets.ensure_numeric_cols df RcAssets.needed)))).
    intros out E. rewrite <- E in F. clear E L.
    revert F. generalize ids. induction out as [|x out IH]; intros l F.
    + inversion F. constructor.
    + inversion F as [|c i l' ms Hci Hrest]; subst. constructor; auto.
Qed.

(** Three tables that make the computation raise a TypeError: the second
    institution has the identifier 38.5; the identifier is 2^63; the labels
    "RCFD2170" and "rcfd2170" become one. *)
Lemma compute_items_for_quarter_outcome_witness :
  (exists msg,
    RcAssets.compute_items_for_quarter
      (mkDataFrame ["IDRSSD"; "RCFD2170"]
                   [[Some 37%Q; Some 10%Q]; [Some (77 # 2)%Q; Some 12%Q]])
      (mkTimestamp 2001 3 31)
    = Raise (TypeError msg)) /\
  (exists msg,
    RcAssets.compute_items_for_quarter
      (mkDataFrame ["IDRSSD"; "RCFD2170"]
                   [[Some (9223372036854775808 # 1)%Q; Some 10%Q]])
      (mkTimestamp 2001 3 31)
    = Raise (TypeError msg)) /\
  (exists msg,
    RcAssets.compute_items_for_quarter
      (mkDataFrame ["IDRSSD"; "RCFD2170"; "rcfd2170"]
                   [[Some 37%Q; Some 10%Q; Some 10%Q]])
      (mkTimestamp 2001 3 31)
    = Raise (TypeError msg)).
Proof.
  split; [|split].
  - apply (proj1 (proj2 (proj2 (compute_items_for_quarter_outcome
                         (mkDataFrame ["IDRSSD"; "RCFD2170"]
                            [[Some 37%Q; Some 10%Q]; [Some (77 # 2)%Q; Some 12%Q]])
                         (mkTimestamp 2001 3 31)))));
      vm_compute; reflexivity.
  - apply (proj1 (proj2 (proj2 (compute_items_for_quarter_outcome
                         (mkDataFrame ["IDRSSD"; "RCFD2170"]
                            [[Some (9223372036854775808 # 1)%Q; Some 10%Q]])
                         (mkTimestamp 2001 3 31)))));
      vm_compute; reflexivity.
  - apply (proj1 (proj2 (compute_items_for_quarter_outcome
                         (mkDataFrame ["IDRSSD"; "RCFD2170"; "rcfd2170"]
                            [[Some 37%Q; Some 10%Q; Some 10%Q]])
                         (mkTimestamp 2001 3 31))));
      vm_compute; reflexivity.
Defined.

(** ** The summary of build_rc_assets_panel.py *)

Lemma count_true_le_length {A : Type} (f : A -> bool) (l : list A) :
  (RcAssets.count_true f l <= List.length l)%nat.
Proof. unfold RcAssets.count_true. apply filter_length_le. Qed.

Lemma count_true_mono {A : Type} (f g : A -> bool) (l : list A) :
  Forall (fun x => f x = true -> g x = true) l ->
  (RcAssets.count_true f l <= RcAssets.count_true g l)%nat.
Proof.
  unfold RcAssets.count_true. induction 1 as [|x l Hx Hl IH]; [reflexivity|].
  cbn [filter]. destruct (f x) eqn:E.
  - rewrite (Hx eq_refl). cbn [List.length]. lia.
  - destruct (g x); cbn [List.length]; lia.
Qed.

Lemma length_flat_map_sum {A B : Type} (f : A -> list B) (l : list A) :
  List.length (flat_map f l) = list_sum (map (fun a => List.length (f a)) l).
Proof.
  induction l as [|a l IH]; [reflexivity|].
  cbn [flat_map map list_sum]. now rewrite length_app, IH.
Qed.

Lemma quarter_summary_banks (fs : RcAssets.FileSystem) (qd : Timestamp) :
  (RcAssets.s_banks (quarter_summary fs qd) <= List.length (quarter_rows fs qd))%nat.
Proof.
  unfold quarter_summary, quarter_rows.
  destruct (quarter_outcome fs qd) as [status|rcfile df_out m].
  - reflexivity.
  - unfold RcAssets.ok_row. cbn [RcAssets.s_banks]. apply count_true_le_length.
Qed.

(** The summary of a run has one row for every quarter end of the range,
    processed or skipped, in ascending date order and under the directory
    code of its date; a row that is not "ok" counts zero banks and has no
    pass rate; and the banks counted over the summary never exceed the rows
    of the panel. *)
Theorem rc_summary_covers_range fs start end_ panel summary missing :
  RcAssets.main fs start end_ = Ok (panel, summary, missing) ->
  map RcAssets.s_date summary = RcAssets.quarter_ends start end_ /\
  map RcAssets.s_qdir summary
  = map RcAssets.qdir_from_date (RcAssets.quarter_ends start end_) /\
  Forall (fun s => RcAssets.s_status s = "ok" \/
                   (RcAssets.s_banks s = 0%nat /\ RcAssets.s_pass_rate s = None))
         summary /\
  (list_sum (map RcAssets.s_banks summary) <= List.length panel)%nat.
Proof.
  rewrite main_spec. intros H.
  assert (panel = flat_map (quarter_rows fs) (RcAssets.quarter_ends start end_))
    as -> by congruence.
  assert (summary = map (quarter_summary fs) (RcAssets.quarter_ends start end_))
    as -> by congruence.
  clear H. rewrite !map_map. split; [|split; [|split]].
  - rewrite <- (map_id (RcAssets.quarter_ends start end_)) at 2.
    apply map_ext. intros qd. unfold quarter_summary.
    destruct (quarter_outcome fs qd); reflexivity.
  - apply map_ext. intros qd. unfold quarter_summary.
    destruct (quarter_outcome fs qd); reflexivity.
  - apply Forall_forall. intros s Hs. apply in_map_iff in Hs.
    destruct Hs as (qd & <- & _). unfold quarter_summary.
    destruct (quarter_outcome fs qd); [right|left]; split; reflexivity.
  - rewrite length_flat_map_sum.
    induction (RcAssets.quarter_ends start end_) as [|qd qs IH]; [reflexivity|].
    cbn [map]. change (list_sum ?l) with (fold_right Nat.add 0%nat l) in *.
    cbn [fold_right]. pose proof (quarter_summary_banks fs qd). lia.
Qed.

(** The run over [rc_root] from 2000-12-31 to 2001-09-30 has four summary
    rows. *)
Lemma rc_summary_covers_range_witness :
  exists summary,
    (exists panel missing,
        RcAssets.main (rc_root small_filing)
                      (mkTimestamp 2000 12 31) (mkTimestamp 2001 9 30)
        = Ok (panel, summary, missing)) /\
    map RcAssets.s_date summary
    = RcAssets.quarter_ends (mkTimestamp 2000 12 31) (mkTimestamp 2001 9 30).
Proof.
  eexists. split.
  - do 2 eexists. vm_compute. reflexivity.
  - eapply (rc_summary_covers_range (rc_root small_filing)
              (mkTimestamp 2000 12 31) (mkTimestamp 2001 9 30)).
    vm_compute. reflexivity.
Defined.

Lemma check_ok_both (c t : cell) :
  RcAssets.check_ok c t = true -> notna t && notna c = true.
Proof. unfold RcAssets.check_ok. destruct c, t; cbn; congruence. Qed.

Lemma ratio_in_unit (num denom : nat) :
  (0 < denom)%nat -> (num <= denom)%nat ->
  (0 <= inject_Z (Z.of_nat num) / inject_Z (Z.of_nat denom) <= 1)%Q.
Proof.
  intros Hd Hn.
  assert (D : (0 < inject_Z (Z.of_nat denom))%Q).
  { change 0%Q with (inject_Z 0). rewrite <- Zlt_Qlt. lia. }
  assert (N : (0 <= inject_Z (Z.of_nat num))%Q).
  { change 0%Q with (inject_Z 0). rewrite <- Zle_Qle. lia. }
  assert (L : (inject_Z (Z.of_nat num) <= inject_Z (Z.of_nat denom))%Q).
  { rewrite <- Zle_Qle. lia. }
  split.
  - apply Qle_shift_div_l; [exact D|]. lra.
  - apply Qle_shift_div_r; [exact D|]. lra.
Qed.

(** Every pass rate of the summary of build_rc_assets_panel.py that is a
    number lies between 0 and 1. *)
Theorem rc_pass_rate_in_unit_interval fs start end_ panel summary missing :
  RcAssets.main fs start end_ = Ok (panel, summary, missing) ->
  Forall (fun s => forall p, RcAssets.s_pass_rate s = Some p -> (0 <= p <= 1)%Q)
         summary.
Proof.
  rewrite main_spec. intros H.
  assert (summary = map (quarter_summary fs) (RcAssets.quarter_ends start end_))
    as -> by congruence.
  clear H. apply Forall_forall. intros s Hs. apply in_map_iff in Hs.
  destruct Hs as (qd & <- & _). intros p.
  pose proof (quarter_rows_computed fs qd) as Hrows.
  unfold quarter_summary, quarter_rows in *.
  destruct (quarter_outcome fs qd) as [status|rcfile df_out m];
    [discriminate|].
  unfold RcAssets.ok_row. cbn [RcAssets.s_pass_rate].
  destruct (0 <? _)%nat eqn:E; [|discriminate].
  intros Hp. injection Hp as <-. apply Nat.ltb_lt in E.
  apply ratio_in_unit; [exact E|].
  apply count_true_mono. eapply Forall_impl; [|exact Hrows].
  intros x (df2 & id & r & ->). apply check_ok_both.
Qed.

(** The first quarter of 2001 of [rc_root] has the pass rate 1/2. *)
Lemma rc_pass_rate_in_unit_interval_witness :
  exists summary,
    (exists panel missing,
        RcAssets.main (rc_root small_filing)
                      (mkTimestamp 2001 3 31) (mkTimestamp 2001 3 31)
        = Ok (panel, summary, missing)) /\
    Forall (fun s => forall p, RcAssets.s_pass_rate s = Some p -> (0 <= p <= 1)%Q)
           summary.
Proof.
  eexists. split.
  - do 2 eexists. vm_compute. reflexivity.
  - eapply (rc_pass_rate_in_unit_interval (rc_root small_filing)
              (mkTimestamp 2001 3 31) (mkTimestamp 2001 3 31)).
    vm_compute. reflexivity.
Defined.

(** ** How a run of build_full_panel.py ends *)

Lemma full_run_frames (fs : FullPanel.FileSystem) (qs : list string) :
  forall frames summary frames' summary',
    FullPanel.run_quarters fs qs frames summary = Ok (frames', summary') ->
    frames' = (frames ++ flat_map (fun q => match full_quarter_rows fs q with
                                            | [] => []
                                            | dfq => [dfq]
                                            end) qs)%list /\
    summary' = (summary ++ flat_map (full_quarter_summary fs) qs)%list.
Proof.
  induction qs as [|q qs IH]; intros frames summary frames' summary';
    cbn [FullPanel.run_quarters flat_map].
  - intros H. apply Ok_pair_inj in H. destruct H as [<- <-].
    now rewrite !app_nil_r.
  - pose proof (eq_refl : full_quarter_rows fs q
                          = match FullPanel.process_quarter fs q with
                            | Ok (Some dfq) => dfq
                            | _ => []
                            end) as R.
    unfold full_quarter_summary.
    destruct (FullPanel.process_quarter fs q) as [[[|x dfq]|]|e];
      try discriminate; rewrite R; intros H; apply IH in H;
      destruct H as [-> ->]; cbn [app]; rewrite <- ?app_assoc;
      split; reflexivity.
Qed.

Lemma full_run_raise (fs : FullPanel.FileSystem) (qs : list string) :
  forall frames summary e,
    FullPanel.run_quarters fs qs frames summary = Raise e ->
    exists q, In q qs /\ FullPanel.process_quarter fs q = Raise e.
Proof.
  induction qs as [|q qs IH]; intros frames summary e;
    cbn [FullPanel.run_quarters]; [discriminate|].
  destruct (FullPanel.process_quarter fs q) as [[[|x dfq]|]|e'] eqn:E.
  - intros H. destruct (IH _ _ _ H) as (q' & Hq & Hr). exists q'.
    split; [now right|exact Hr].
  - intros H. destruct (IH _ _ _ H) as (q' & Hq & Hr). exists q'.
    split; [now right|exact Hr].
  - intros H. destruct (IH _ _ _ H) as (q' & Hq & Hr). exists q'.
    split; [now right|exact Hr].
  - intros H. injection H as <-. exists q. split; [now left|exact E].
Qed.

Lemma list_sum_permutation {A : Type} (f : A -> nat) (l l' : list A) :
  Permutation l l' -> list_sum (map f l) = list_sum (map f l').
Proof.
  induction 1 as [|x l l' Hp IH|x y l|l l' l'' H1 IH1 H2 IH2];
    cbn [map]; change (list_sum ?l) with (fold_right Nat.add 0%nat l) in *;
    cbn [fold_right]; lia.
Qed.

Lemma sorted_In (l : list string) (q : string) : In q (sorted l) <-> In q l.
Proof.
  unfold sorted. split.
  - apply Permutation_in, Permutation_sym, StringSort.Permuted_sort.
  - apply Permutation_in, StringSort.Permuted_sort.
Qed.

Lemma full_quarter_summary_banks (fs : FullPanel.FileSystem) (q : string) :
  list_sum (map FullPanel.s_n_banks (full_quarter_summary fs q))
  = List.length (full_quarter_rows fs q) /\
  Forall (fun s => (0 < FullPanel.s_n_banks s)%nat /\
                   (0 <= FullPanel.s_pass_rate s <= 1)%Q)
         (full_quarter_summary fs q).
Proof.
  unfold full_quarter_summary.
  destruct (full_quarter_rows fs q) as [|x dfq]; [split; [reflexivity|constructor]|].
  split; [cbn; lia|]. constructor; [|constructor].
  unfold FullPanel.summarise. cbn [FullPanel.s_n_banks FullPanel.s_pass_rate].
  split; [cbn [List.length]; lia|].
  apply ratio_in_unit; [cbn [List.length]; lia|apply filter_length_le].
Qed.

(** A run of build_full_panel.py that finishes wrote a panel that is not
    empty; its summary holds one row per quarter directory that contributed
    rows, with a positive number of banks and a pass rate between 0 and 1,
    and the numbers of banks add up to the number of panel rows.  A run that
    ends with SystemExit found no row in any directory.  A run that ends
    with an exception got it from [process_quarter] on one of the
    directories. *)
Theorem full_panel_run_outcomes (fs : FullPanel.FileSystem) :
  (forall panel summary,
      FullPanel.main fs = FullPanel.Finished (panel, summary) ->
      panel <> [] /\
      Permutation (flat_map (full_quarter_summary fs)
                            (sorted (FullPanel.subdirs fs)))
                  summary /\
      list_sum (map FullPanel.s_n_banks summary) = List.length panel /\
      Forall (fun s => (0 < FullPanel.s_n_banks s)%nat /\
                       (0 <= FullPanel.s_pass_rate s <= 1)%Q)
             summary) /\
  (forall msg,
      FullPanel.main fs = FullPanel.SystemExit msg ->
      forall q, In q (FullPanel.subdirs fs) -> full_quarter_rows fs q = []) /\
  (forall e,
      FullPanel.main fs = FullPanel.Uncaught e ->
      exists q, In q (FullPanel.subdirs fs) /\
                FullPanel.process_quarter fs q = Raise e).
Proof.
  unfold FullPanel.main.
  destruct (FullPanel.run_quarters fs (sorted (FullPanel.subdirs fs)) [] [])
    as [[frames summary_rows]|e] eqn:E.
  - pose proof (full_run_spec _ _ _ _ _ _ E) as Hpanel.
    apply full_run_frames in E. destruct E as [Hf Hs].
    cbn [app List.concat] in Hf, Hs, Hpanel.
    destruct frames as [|f frames].
    + split; [discriminate|]. split; [|discriminate].
      intros msg _ q Hq. apply sorted_In in Hq.
      cbn [List.concat] in Hpanel. symmetry in Hpanel.
      revert Hq. generalize (sorted (FullPanel.subdirs fs)) as qs, Hpanel.
      induction qs as [|q0 qs IH]; [intros _ []|].
      cbn [flat_map]. intros H0 [->|Hq].
      * now apply app_eq_nil in H0.
      * apply IH; [now apply app_eq_nil in H0|exact Hq].
    + split; [|split; discriminate].
      intros panel summary H.
      assert (panel = flat_map (full_quarter_rows fs)
                               (sorted (FullPanel.subdirs fs))) as ->
          by (rewrite <- Hpanel; congruence).
      assert (summary = FullPanel.SummarySort.sort summary_rows) as ->
          by congruence.
      clear H.
      assert (P : Permutation summary_rows (FullPanel.SummarySort.sort summary_rows))
        by apply FullPanel.SummarySort.Permuted_sort.
      assert (B : list_sum (map FullPanel.s_n_banks summary_rows)
                  = List.length (flat_map (full_quarter_rows fs)
                                          (sorted (FullPanel.subdirs fs))) /\
                  Forall (fun s => (0 < FullPanel.s_n_banks s)%nat /\
                                   (0 <= FullPanel.s_pass_rate s <= 1)%Q)
                         summary_rows).
      { rewrite Hs. clear.
        induction (sorted (FullPanel.subdirs fs)) as [|q qs [IH1 IH2]];
          [split; [reflexivity|constructor]|].
        cbn [flat_map]. destruct (full_quarter_summary_banks fs q) as [H1 H2].
        split.
        - rewrite map_app, length_app, <- IH1, <- H1.
          generalize (map FullPanel.s_n_banks (full_quarter_summary fs q)) as l1.
          generalize (map FullPanel.s_n_banks
                          (flat_map (full_quarter_summary fs) qs)) as l2.
          intros l2 l1. induction l1 as [|a l1 IHl]; [reflexivity|].
          cbn [app]. change (list_sum ?l) with (fold_right Nat.add 0%nat l) in *.
          cbn [fold_right]. lia.
        - apply Forall_app. split; assumption. }
      destruct B as [B1 B2]. split; [|split; [|split]].
      * intros Hnil.
        assert (Hin : In f (f :: frames)) by now left.
        rewrite Hf in Hin. apply in_flat_map in Hin.
        destruct Hin as (q & Hq & Hfq).
        assert (Hz : full_quarter_rows fs q = []).
        { clear - Hnil Hq. revert Hq Hnil.
          induction (sorted (FullPanel.subdirs fs)) as [|q0 qs IH]; [intros []|].
          cbn [flat_map]. intros [->|Hq] H0.
          - now apply app_eq_nil in H0.
          - apply IH; [exact Hq|now apply app_eq_nil in H0]. }
        rewrite Hz in Hfq. destruct Hfq.
      * rewrite <- Hs. exact P.
      * rewrite <- (list_sum_permutation _ _ _ P), B1. reflexivity.
      * eapply Permutation_Forall; [exact P|exact B2].
  - split; [discriminate|]. split; [discriminate|].
    intros e' H. injection H as <-.
    destruct (full_run_raise _ _ _ _ _ E) as (q & Hq & Hr).
    exists q. split; [now apply sorted_In|exact Hr].
Qed.

(** The run over two quarter directories that hold [small_filing]. *)
Lemma full_panel_run_outcomes_witness :
  exists panel summary,
    FullPanel.main (full_root ["123100"; "033101"] rc_file_name
                              (fun _ => Ok small_filing))
    = FullPanel.Finished (panel, summary) /\
    list_sum (map FullPanel.s_n_banks summary) = List.length panel.
Proof.
  do 2 eexists. split.
  - vm_compute. reflexivity.
  - eapply (proj1 (full_panel_run_outcomes
                     (full_root ["123100"; "033101"] rc_file_name
                                (fun _ => Ok small_filing)))).
    vm_compute. reflexivity.
Defined.

(** ** The quarter ends of a range *)

Ltac ts_cases_div :=
  ts_unfold;
  repeat match goal with
         | |- context [Z.compare ?a ?b] => destruct (Z.compare_spec a b)
         | H : context [Z.compare ?a ?b] |- _ => destruct (Z.compare_spec a b)
         end;
  cbn [andb orb negb] in *;
  try discriminate; try reflexivity;
  try (exfalso; Z.div_mod_to_equations; lia).

Lemma ts_compare_antisym (a b : Timestamp) :
  ts_compare b a = CompOpp (ts_compare a b).
Proof.
  unfold ts_compare.
  rewrite (Z.compare_antisym (year a) (year b)),
          (Z.compare_antisym (month a) (month b)),
          (Z.compare_antisym (day a) (day b)).
  destruct (year a ?= year b), (month a ?= month b), (day a ?= day b);
    reflexivity.
Qed.

Lemma ts_ltb_not_leb (a b : Timestamp) : ts_ltb a b = true -> ts_leb b a = false.
Proof.
  unfold ts_ltb, ts_leb. rewrite (ts_compare_antisym a b).
  destruct (ts_compare a b); cbn; congruence.
Qed.

Lemma ts_leb_quarter_ends (k k' : Z) :
  ts_leb (RcAssets.quarter_end_of k) (RcAssets.quarter_end_of k') = (k <=? k').
Proof.
  destruct (Z.leb_spec k k') as [H|H].
  - destruct (Z.eq_dec k k') as [->|Hne]; [apply ts_leb_refl|].
    apply ts_ltb_leb, quarter_end_of_lt. lia.
  - apply ts_ltb_not_leb, quarter_end_of_lt. exact H.
Qed.

Lemma quarter_end_of_side (t : Timestamp) (k : Z) :
  1 <= month t <= 12 ->
  (k < 4 * year t + (month t - 1) / 3 ->
   ts_ltb (RcAssets.quarter_end_of k) t = true) /\
  (4 * year t + (month t - 1) / 3 < k ->
   ts_ltb t (RcAssets.quarter_end_of k) = true).
Proof.
  destruct t as [y m dd]. cbn [year month]. intros Hm.
  unfold RcAssets.quarter_end_of. split; intros Hk; ts_cases_div.
Qed.

Lemma quarter_ends_first (start : Timestamp) (k : Z) :
  1 <= month start <= 12 ->
  let k0 := 4 * year start + (month start - 1) / 3 in
  ((if ts_leb start (RcAssets.quarter_end_of k0) then k0 else k0 + 1) <= k
   <-> ts_leb start (RcAssets.quarter_end_of k) = true).
Proof.
  intros Hm k0. destruct (quarter_end_of_side start k Hm) as [Hlo Hhi].
  fold k0 in Hlo, Hhi.
  destruct (Z.lt_trichotomy k k0) as [H|[->|H]].
  - rewrite (ts_ltb_not_leb _ _ (Hlo H)).
    destruct (ts_leb start (RcAssets.quarter_end_of k0)); split;
      (lia || discriminate).
  - destruct (ts_leb start (RcAssets.quarter_end_of k0)); split;
      (lia || discriminate || reflexivity).
  - rewrite (ts_ltb_leb _ _ (Hhi H)).
    destruct (ts_leb start (RcAssets.quarter_end_of k0)); split;
      (lia || reflexivity).
Qed.

Lemma quarter_ends_last (end_ : Timestamp) (k : Z) :
  1 <= month end_ <= 12 ->
  let k1 := 4 * year end_ + (month end_ - 1) / 3 in
  (k <= (if ts_leb (RcAssets.quarter_end_of k1) end_ then k1 else k1 - 1)
   <-> ts_leb (RcAssets.quarter_end_of k) end_ = true).
Proof.
  intros Hm k1. destruct (quarter_end_of_side end_ k Hm) as [Hlo Hhi].
  fold k1 in Hlo, Hhi.
  destruct (Z.lt_trichotomy k k1) as [H|[->|H]].
  - rewrite (ts_ltb_leb _ _ (Hlo H)).
    destruct (ts_leb (RcAssets.quarter_end_of k1) end_); split;
      (lia || reflexivity).
  - destruct (ts_leb (RcAssets.quarter_end_of k1) end_); split;
      (lia || discriminate || reflexivity).
  - rewrite (ts_ltb_not_leb _ _ (Hhi H)).
    destruct (ts_leb (RcAssets.quarter_end_of k1) end_); split;
      (lia || discriminate).
Qed.

(** [quarter_ends start end_] lists, in strictly ascending order, exactly the
    quarter-end dates from [start] to [end_] inclusive (the months of the two
    bounds being months of the calendar); it is empty when no quarter ends in
    the range. *)
Theorem quarter_ends_exact (start end_ : Timestamp) :
  1 <= month start <= 12 -> 1 <= month end_ <= 12 ->
  (forall d,
      In d (RcAssets.quarter_ends start end_) <->
      (exists k, d = RcAssets.quarter_end_of k) /\
      ts_leb start d = true /\ ts_leb d end_ = true) /\
  StronglySorted (fun a b => ts_ltb a b = true)
                 (RcAssets.quarter_ends start end_).
Proof.
  intros Hs He. split; [|apply quarter_ends_sorted].
  intros d. unfold RcAssets.quarter_ends.
  set (first := if ts_leb start _ then _ else _).
  set (last := if ts_leb _ end_ then _ else _).
  rewrite in_map_iff. split.
  - intros (i & <- & Hi). apply in_seq in Hi. split; [eauto|]. split.
    + apply (quarter_ends_first start _ Hs). fold first. lia.
    + apply (quarter_ends_last end_ _ He). fold last. lia.
  - intros ((k & ->) & H1 & H2).
    apply (quarter_ends_first start _ Hs) in H1. fold first in H1.
    apply (quarter_ends_last end_ _ He) in H2. fold last in H2.
    exists (Z.to_nat (k - first)). split.
    + f_equal. lia.
    + apply in_seq. lia.
Qed.

(** The range from 2000-11-15 to 2001-07-04 holds the quarter end
    2001-03-31. *)
Lemma quarter_ends_exact_witness :
  In (mkTimestamp 2001 3 31)
     (RcAssets.quarter_ends (mkTimestamp 2000 11 15) (mkTimestamp 2001 7 4)).
Proof.
  apply (proj1 (quarter_ends_exact (mkTimestamp 2000 11 15) (mkTimestamp 2001 7 4)
                  ltac:(cbn; lia) ltac:(cbn; lia))).
  split; [exists 8004; reflexivity|split; reflexivity].
Defined.

(** ** Directory codes *)

Lemma digit_char_inj (n n' : Z) :
  digit_char n = digit_char n' -> n mod 10 = n' mod 10.
Proof.
  intros H. apply (f_equal (fun a => Z.of_nat (nat_of_ascii a))) in H.
  rewrite !digit_char_code in H. lia.
Qed.

Lemma two_digits_inj (n n' : Z) :
  two_digits n = two_digits n' -> n mod 100 = n' mod 100.
Proof.
  unfold two_digits. intros H. injection H as H1 H2.
  apply digit_char_inj in H1. apply digit_char_inj in H2.
  Z.div_mod_to_equations. lia.
Qed.

Lemma qdir_from_date_fields (d d' : Timestamp) :
  RcAssets.qdir_from_date d = RcAssets.qdir_from_date d' ->
  month d mod 100 = month d' mod 100 /\
  day d mod 100 = day d' mod 100 /\
  year d mod 100 = year d' mod 100.
Proof.
  unfold RcAssets.qdir_from_date, two_digits. cbn [String.append].
  intros H. injection H as M1 M2 D1 D2 Y1 Y2.
  repeat split; apply two_digits_inj; unfold two_digits; congruence.
Qed.

(** The directory code MMDDYY keeps the last two digits of the year only:
    two different quarter ends less than a hundred years apart never share a
    code, and two quarter ends exactly a hundred years apart always do. *)
Theorem qdir_from_date_unique_within_century (k k' : Z) :
  (k <> k' -> Z.abs (k - k') < 400 ->
   RcAssets.qdir_from_date (RcAssets.quarter_end_of k)
   <> RcAssets.qdir_from_date (RcAssets.quarter_end_of k')) /\
  RcAssets.qdir_from_date (RcAssets.quarter_end_of (k + 400))
  = RcAssets.qdir_from_date (RcAssets.quarter_end_of k).
Proof.
  split.
  - intros Hne Hk H. apply Hne. apply qdir_from_date_fields in H.
    unfold RcAssets.quarter_end_of in H. cbn [year month day] in H.
    destruct H as (Hm & _ & Hy).
    Z.div_mod_to_equations. lia.
  - unfold RcAssets.qdir_from_date, RcAssets.quarter_end_of.
    cbn [year month day].
    replace ((k + 400) mod 4) with (k mod 4)
      by (Z.div_mod_to_equations; lia).
    f_equal. f_equal. unfold two_digits, digit_char.
    replace (((k + 400) / 4 / 10) mod 10) with ((k / 4 / 10) mod 10)
      by (Z.div_mod_to_equations; lia).
    replace (((k + 400) / 4) mod 10) with ((k / 4) mod 10)
      by (Z.div_mod_to_equations; lia).
    reflexivity.
Qed.

(** The quarters 2001-03-31 and 1990-03-31 have different codes. *)
Lemma qdir_from_date_unique_within_century_witness :
  RcAssets.qdir_from_date (RcAssets.quarter_end_of 8004)
  <> RcAssets.qdir_from_date (RcAssets.quarter_end_of 7960).
Proof.
  apply (proj1 (qdir_from_date_unique_within_century 8004 7960)); cbn; lia.
Defined.

Lemma END_DAY_quarter (q : Z) :
  0 <= q <= 3 ->
  ChicagoFed.END_DAY (two_digits (3 * q + 3))
  = Some (two_digits (if (q =? 0) || (q =? 3) then 31 else 30)).
Proof.
  intros H. assert (q = 0 \/ q = 1 \/ q = 2 \/ q = 3) as [->|[->|[->| ->]]] by lia;
    reflexivity.
Qed.

(** The folder the Chicago Fed downloader creates for the quarter that ends
    in month [mm] of year [yy] bears the directory code under which
    build_rc_assets_panel.py looks that quarter up; a month that ends no
    quarter has no folder. *)
Theorem quarter_folder_is_qdir :
  (forall k,
      let d := RcAssets.quarter_end_of k in
      ChicagoFed.quarter_folder (two_digits (year d)) (two_digits (month d))
      = Some (RcAssets.qdir_from_date d)) /\
  (forall yy mm,
      mm <> "03" -> mm <> "06" -> mm <> "09" -> mm <> "12" ->
      ChicagoFed.quarter_folder yy mm = None).
Proof.
  split.
  - intros k d. subst d. unfold ChicagoFed.quarter_folder, RcAssets.quarter_end_of.
    cbn [year month day].
    rewrite END_DAY_quarter
      by (pose proof (Z.mod_pos_bound k 4 ltac:(lia)); lia).
    reflexivity.
  - intros yy mm H1 H2 H3 H4.
    unfold ChicagoFed.quarter_folder, ChicagoFed.END_DAY.
    apply String.eqb_neq in H1, H2, H3, H4. now rewrite H1, H2, H3, H4.
Qed.

(** The month 04 ends no quarter. *)
Lemma quarter_folder_is_qdir_witness :
  ChicagoFed.quarter_folder "99" "04" = None.
Proof.
  apply (proj2 quarter_folder_is_qdir "99" "04"); discriminate.
Defined.

(** ** The regimes of build_rc_assets_panel.py at quarter ends *)

Lemma ts_eqb_quarter_ends (k k' : Z) :
  ts_eqb (RcAssets.quarter_end_of k) (RcAssets.quarter_end_of k') = (k =? k').
Proof.
  destruct (Z.eqb_spec k k') as [->|Hne]; [now apply ts_eqb_eq|].
  unfold ts_eqb.
  destruct (Z.lt_trichotomy k k') as [H|[H|H]]; [|contradiction|].
  - pose proof (quarter_end_of_lt k k' H) as L. unfold ts_ltb in L.
    destruct (ts_compare _ _); congruence.
  - pose proof (quarter_end_of_lt k' k H) as L. unfold ts_ltb in L.
    rewrite (ts_compare_antisym (RcAssets.quarter_end_of k')).
    destruct (ts_compare _ _); cbn; congruence.
Qed.

Ltac quarter_dates :=
  unfold RcAssets.between, RcAssets.is_leq, RcAssets.is_geq, ts_geb;
  repeat match goal with
         | |- context [mkTimestamp ?y ?m ?d] =>
             let i := eval vm_compute in (quarter_index y m) in
             change (mkTimestamp y m d) with (RcAssets.quarter_end_of i)
         end;
  rewrite ?ts_leb_quarter_ends, ?ts_eqb_quarter_ends.

Ltac index_cases :=
  repeat match goal with
         | |- context [?a <=? ?b] =>
             destruct (Z.leb_spec a b); try (exfalso; lia)
         | |- context [?a =? ?b] =>
             destruct (Z.eqb_spec a b); try (exfalso; lia)
         end;
  cbn [andb orb negb].

(** For every quarter that ends before 1996-12-31, held-to-maturity
    securities, total securities and the federal-funds-and-repo total are
    "no value" in every row, whatever the file holds; before 1996-03-31 so is
    item 9. *)
Theorem rc_columns_undefined_before_1996Q4 (k : Z) (df2 : DataFrame)
    (id : option Z) (r : list cell) :
  k < quarter_index 1996 12 ->
  let x := RcAssets.compute_out_row df2 (RcAssets.quarter_end_of k) id r in
  RcAssets.securities_htm_ac x = None /\
  RcAssets.sec_tot x = None /\
  RcAssets.ffsrepo_tot x = None /\
  (k < quarter_index 1996 3 -> RcAssets.item9 x = None).
Proof.
  intros Hk x. subst x. rc_fields. unfold RcAssets.compute_item9.
  change (quarter_index 1996 12) with 7987 in Hk.
  change (quarter_index 1996 3) with 7984.
  quarter_dates. repeat split; try intros Hk'; index_cases; reflexivity.
Qed.

(** The quarter that ends on 1995-06-30. *)
Lemma rc_columns_undefined_before_1996Q4_witness :
  RcAssets.sec_tot
    (RcAssets.compute_out_row small_filing (mkTimestamp 1995 6 30) None []) = None.
Proof.
  apply (proj1 (proj2 (rc_columns_undefined_before_1996Q4 7981 small_filing
                         None [] ltac:(reflexivity)))).
Defined.

(** From the quarter that ends on 1996-12-31 on, the windows of every
    category follow one another without a gap: at a quarter end the "else:
    NaN" fall-backs of held-to-maturity securities, of the federal-funds
    total and of intangibles are never taken, and item 9 is "no value" by
    regime only in its window from 2006-03-31 to 2009-03-31. *)
Theorem rc_regimes_without_gap (k : Z) (df2 : DataFrame) (id : option Z)
    (r : list cell) :
  quarter_index 1996 12 <= k ->
  let qd := RcAssets.quarter_end_of k in
  let x := RcAssets.compute_out_row df2 qd id r in
  RcAssets.securities_htm_ac x
  = (if RcAssets.is_leq qd 2018 12 31
     then RcAssets.rowwise_max df2 "rcfd1754" "rcon1754" r
     else RcAssets.rowwise_max df2 "rcfdjj34" "rconjj34" r) /\
  RcAssets.ffsrepo_tot x
  = (if RcAssets.between qd 1997 3 31 2001 12 31
     then RcAssets.rowwise_max df2 "rcfd1350" "rcon1350" r
     else cell_add (RcAssets.ffs x) (RcAssets.repo x)) /\
  RcAssets.intangibles x
  = (if RcAssets.between qd 2001 3 31 2018 3 31
     then cell_add (RcAssets.rowwise_max df2 "rcfd3163" "rcon3163" r)
                   (RcAssets.rowwise_max df2 "rcfd0426" "rcon0426" r)
     else RcAssets.rowwise_max df2 "rcfd2143" "rcon2143" r) /\
  RcAssets.item9 x
  = (if RcAssets.is_leq qd 2005 12 31
     then RcAssets.rowwise_max df2 "rcfd2155" "rcon2155" r
     else if RcAssets.is_leq qd 2009 3 31 then None
     else RcAssets.rowwise_max df2 "rcfd3656" "rcon3656" r).
Proof.
  intros Hk qd x. subst x qd. rc_fields. unfold RcAssets.compute_item9.
  change (quarter_index 1996 12) with 7987 in Hk.
  quarter_dates. repeat split; index_cases; reflexivity.
Qed.

(** The quarter that ends on 2001-12-31 uses the combined item 1350. *)
Lemma rc_regimes_without_gap_witness :
  RcAssets.ffsrepo_tot
    (RcAssets.compute_out_row small_filing (mkTimestamp 2001 12 31) None [])
  = RcAssets.rowwise_max small_filing "rcfd1350" "rcon1350" [].
Proof.
  apply (proj1 (proj2 (rc_regimes_without_gap 8007 small_filing None []
                         ltac:(cbn; lia)))).
Defined.

(** ** Dropping the unnamed columns *)

Lemma get_cell_nil (cols : list string) (c : string) : get_cell cols [] c = None.
Proof. unfold get_cell. destruct (index_of c cols) as [[|i]|]; reflexivity. Qed.

Lemma get_cell_cons_ne (c c0 : string) (cols : list string) (x : cell)
    (xs : list cell) :
  String.eqb c c0 = false ->
  get_cell (c0 :: cols) (x :: xs) c = get_cell cols xs c.
Proof.
  intros H. unfold get_cell. cbn [index_of]. rewrite H.
  destruct (index_of c cols); reflexivity.
Qed.

Lemma select_mask_nil (mask : list bool) : FullPanel.select_mask mask [] = [].
Proof. destruct mask; reflexivity. Qed.

Lemma select_mask_keeps (c : string) (cols : list string) :
  String.prefix "Unnamed:" c = false ->
  forall r,
    get_cell (filter (fun c' => negb (String.prefix "Unnamed:" c')) cols)
             (FullPanel.select_mask
                (map (fun c' => negb (String.prefix "Unnamed:" c')) cols) r)
             c
    = get_cell cols r c.
Proof.
  intros Hc. induction cols as [|c0 cols IH]; intros r.
  - reflexivity.
  - destruct r as [|x xs].
    + rewrite select_mask_nil. now rewrite !get_cell_nil.
    + cbn [map filter FullPanel.select_mask].
      destruct (String.prefix "Unnamed:" c0) eqn:P; cbn [negb].
      * assert (E : String.eqb c c0 = false).
        { apply String.eqb_neq. intros ->. congruence. }
        rewrite (get_cell_cons_ne c c0 cols x xs E). apply IH.
      * destruct (String.eqb c c0) eqn:E.
        -- unfold get_cell. cbn [index_of]. rewrite E. reflexivity.
        -- rewrite !get_cell_cons_ne by exact E. apply IH.
Qed.

Lemma filter_nil_all_false {A : Type} (f : A -> bool) (l : list A) :
  filter f l = [] -> Forall (fun x => f x = false) l.
Proof.
  induction l as [|x l IH]; [constructor|]. cbn [filter].
  destruct (f x) eqn:E; [discriminate|]. intros H. constructor; auto.
Qed.

(** [drop_unnamed] leaves no column whose label starts with "Unnamed:",
    keeps every other column, keeps the rows in number and order, and every
    column that is kept reads the same cell in every row as before. *)
Theorem drop_unnamed_keeps_named (df : DataFrame) :
  let df' := FullPanel.drop_unnamed df in
  Forall (fun c => String.prefix "Unnamed:" c = false) (columns df') /\
  List.length (rows df') = List.length (rows df) /\
  (forall c, String.prefix "Unnamed:" c = false ->
             in_columns c (columns df') = in_columns c (columns df) /\
             forall i, get_cell (columns df') (nth i (rows df') []) c
                       = get_cell (columns df) (nth i (rows df) []) c).
Proof.
  intros df'. subst df'. unfold FullPanel.drop_unnamed.
  destruct (filter (String.prefix "Unnamed:") (columns df)) as [|u extra] eqn:E.
  - split; [|split].
    + now apply filter_nil_all_false.
    + reflexivity.
    + intros c Hc. split; reflexivity.
  - cbn [columns rows]. split; [|split].
    + apply Forall_forall. intros c Hc. apply filter_In in Hc.
      destruct Hc as [_ Hc]. now apply negb_true_iff in Hc.
    + apply length_map.
    + intros c Hc. split.
      * apply eq_true_iff_eq. rewrite !in_columns_In, filter_In.
        rewrite Hc. cbn [negb]. tauto.
      * intros i.
        rewrite <- (select_mask_nil
                      (map (fun c' => negb (String.prefix "Unnamed:" c'))
                           (columns df))) at 1.
        rewrite map_nth. now apply select_mask_keeps.
Qed.

(** A table with a trailing unnamed column keeps its IDRSSD column. *)
Lemma drop_unnamed_keeps_named_witness :
  in_columns "IDRSSD"
    (columns (FullPanel.drop_unnamed
                (mkDataFrame ["IDRSSD"; "RCFD2170"; "Unnamed: 2"]
                             [[Some 37%Q; Some 10%Q; None]])))
  = true.
Proof.
  apply (proj1 (proj2 (proj2 (drop_unnamed_keeps_named
                                (mkDataFrame ["IDRSSD"; "RCFD2170"; "Unnamed: 2"]
                                             [[Some 37%Q; Some 10%Q; None]])))
                  "IDRSSD" eq_refl)).
Defined.

(** ** Where the rows of the panel of build_full_panel.py come from *)

(** Every row of the panel of build_full_panel.py bears the name of one of
    the quarter directories and the date read from the name of the Schedule
    RC file chosen in that directory, a date of the calendar. *)
Theorem full_panel_row_provenance (fs : FullPanel.FileSystem) panel summary :
  FullPanel.main fs = FullPanel.Finished (panel, summary) ->
  Forall (fun x =>
            In (FullPanel.p_quarter x) (FullPanel.subdirs fs) /\
            exists f,
              FullPanel.find_rc_file fs (FullPanel.p_quarter x) = Some f /\
              FullPanel.parse_date_from_filename f = Some (FullPanel.p_date x) /\
              valid_date (year (FullPanel.p_date x)) (month (FullPanel.p_date x))
                         (day (FullPanel.p_date x)) = true)
         panel.
Proof.
  intros H. apply full_main_spec in H. subst panel.
  apply Forall_forall. intros x Hx. apply in_flat_map in Hx.
  destruct Hx as (q & Hq & Hx). apply (proj1 (sorted_In _ _)) in Hq.
  unfold full_quarter_rows, FullPanel.process_quarter in Hx.
  destruct (FullPanel.find_rc_file fs q) as [f|] eqn:Ef; [|destruct Hx].
  destruct (FullPanel.parse_date_from_filename f) as [d|] eqn:Ed; [|destruct Hx].
  destruct (FullPanel.read_csv fs q f) as [df0|e]; [|destruct Hx].
  destruct (negb _); [destruct Hx|].
  apply in_map_iff in Hx. destruct Hx as (y & <- & Hy).
  unfold FullPanel.standardized_rows in Hy.
  apply in_map_iff in Hy. destruct Hy as (r & <- & _).
  unfold FullPanel.out_row. cbn [FullPanel.p_quarter FullPanel.p_date].
  full_fields. split; [exact Hq|]. exists f. rewrite Ef. repeat split.
  - exact Ed.
  - exact (proj1 (parse_date_is_valid f d Ed)).
Qed.

(** The run over two quarter directories that hold [small_filing]. *)
Lemma full_panel_row_provenance_witness :
  exists panel summary,
    FullPanel.main (full_root ["123100"; "033101"] rc_file_name
                              (fun _ => Ok small_filing))
    = FullPanel.Finished (panel, summary) /\
    Forall (fun x => In (FullPanel.p_quarter x) ["123100"; "033101"]) panel.
Proof.
  do 2 eexists. split.
  - vm_compute. reflexivity.
  - eapply Forall_impl;
      [|eapply (full_panel_row_provenance
                  (full_root ["123100"; "033101"] rc_file_name
                             (fun _ => Ok small_filing)));
        vm_compute; reflexivity].
    intros x [H _]. exact H.
Defined.

(** ** The order of the missing-column log *)

Lemma strictly_ascending_set (l : list string) :
  StronglySorted (fun a b => String.leb a b = true /\ a <> b) (sorted_set l).
Proof.
  pose proof (sorted_set_NoDup l) as Hn.
  assert (Hs : StronglySorted (fun a b => String.leb a b = true) (sorted_set l))
    by apply sorted_ascending.
  induction Hs as [|a l' Hs IH Ha]; constructor.
  - apply IH. now inversion Hn.
  - inversion Hn as [|a' l'' Hnotin Hn']; subst.
    apply Forall_forall. intros b Hb. rewrite Forall_forall in Ha.
    split; [now apply Ha|]. intros ->. contradiction.
Qed.

Lemma flat_map_lex_sorted {A B : Type} (R : A -> A -> Prop) (S : B -> B -> Prop)
    (key : B -> A) (f : A -> list B) (qs : list A) :
  (forall q x, In x (f q) -> key x = q) ->
  (forall q, StronglySorted S (f q)) ->
  StronglySorted R qs ->
  StronglySorted (fun x y => R (key x) (key y) \/ S x y) (flat_map f qs).
Proof.
  intros Hkey Hin. induction 1 as [|q qs Hs IH Hq]; cbn [flat_map]; [constructor|].
  apply StronglySorted_app.
  - eapply StronglySorted_weaken; [|apply Hin]. intros a b. now right.
  - exact IH.
  - intros x y Hx Hy. apply in_flat_map in Hy. destruct Hy as (q' & Hq' & Hy).
    left. rewrite (Hkey q x Hx), (Hkey q' y Hy).
    rewrite Forall_forall in Hq. auto.
Qed.

(** The missing-column log is written in a fixed order: quarters in strictly
    ascending date order and, within a quarter, identifiers in strictly
    ascending string order, so no (quarter, identifier) pair occurs twice. *)
Theorem missing_log_order fs start end_ panel summary missing :
  RcAssets.main fs start end_ = Ok (panel, summary, missing) ->
  StronglySorted
    (fun a b =>
       ts_ltb (RcAssets.m_date a) (RcAssets.m_date b) = true \/
       (RcAssets.m_date a = RcAssets.m_date b /\
        String.leb (RcAssets.m_missing_col a) (RcAssets.m_missing_col b) = true /\
        RcAssets.m_missing_col a <> RcAssets.m_missing_col b))
    missing.
Proof.
  rewrite main_spec. intros H.
  assert (missing = flat_map (quarter_missing fs) (RcAssets.quarter_ends start end_))
    as -> by congruence.
  clear H.
  apply (flat_map_lex_sorted (fun a b => ts_ltb a b = true)
           (fun a b => RcAssets.m_date a = RcAssets.m_date b /\
                       String.leb (RcAssets.m_missing_col a)
                                  (RcAssets.m_missing_col b) = true /\
                       RcAssets.m_missing_col a <> RcAssets.m_missing_col b)
           RcAssets.m_date).
  - apply quarter_missing_date.
  - intros q. unfold quarter_missing.
    destruct (quarter_outcome fs q) as [status|rcfile df_out m]; [constructor|].
    unfold RcAssets.missing_log.
    pose proof (strictly_ascending_set m) as Hs.
    induction Hs as [|c l Hs IH Hc]; cbn [map]; constructor; [exact IH|].
    apply Forall_forall. intros e He. apply in_map_iff in He.
    destruct He as (c' & <- & Hc'). rewrite Forall_forall in Hc.
    cbn [RcAssets.m_date RcAssets.m_missing_col]. split; [reflexivity|auto].
  - apply quarter_ends_sorted.
Qed.

(** The log of the run over [rc_root] for the first quarter of 2001. *)
Lemma missing_log_order_witness :
  exists missing,
    (exists panel summary,
        RcAssets.main (rc_root small_filing)
                      (mkTimestamp 2001 3 31) (mkTimestamp 2001 3 31)
        = Ok (panel, summary, missing)) /\
    StronglySorted
      (fun a b =>
         ts_ltb (RcAssets.m_date a) (RcAssets.m_date b) = true \/
         (RcAssets.m_date a = RcAssets.m_date b /\
          String.leb (RcAssets.m_missing_col a) (RcAssets.m_missing_col b) = true /\
          RcAssets.m_missing_col a <> RcAssets.m_missing_col b))
      missing.
Proof.
  eexists. split.
  - do 2 eexists. vm_compute. reflexivity.
  - eapply (missing_log_order (rc_root small_filing)
              (mkTimestamp 2001 3 31) (mkTimestamp 2001 3 31)).
    vm_compute. reflexivity.
Defined.
